(** * Incidenter: scoring engine, session manager and evidence resolver

    A shallow embedding of the Python sources
      - [incidenter/scoring/scorer.py]   (module [Scorer]),
      - [utils/session_manager.py]       (module [SessionMgr]),
      - [server/app.py]                  (module [Resolver]),
    followed by the properties established about them.

    Conventions of the embedding.
      - Python [int] is [Z]; Python [float] is [Q], so a float operation
        is read as the exact rational operation, and the constants that
        occur (0.9, 0.7, 0.5, 0.8, ...) as the decimal fractions written
        in the source.  The percentage that [score_theory] returns is the
        exception: it is computed in binary64, with the operations of the
        Standard Library's [SpecFloat], and carried as the rational that
        the resulting float denotes.
      - Python [str] is [string]; characters are 7-bit ASCII as far as
        [lower], [strip] and [title] are concerned, any other character is
        caseless and is not white space.
      - A [dict] whose values are strings is a [gmap string string]; a
        [dict] read through fixed keys of different types is a record whose
        fields carry the default of the corresponding [.get].
      - Exceptions are values of [Res]. *)

From Stdlib Require Import ZArith QArith Qround Ascii List Lia Lqa DecimalString.
From Stdlib Require String.
From Stdlib Require Floats.SpecFloat.
From stdpp Require Import gmap strings list sorting.

Local Open Scope Z_scope.

(** ** Exceptions *)

Inductive PyError : Type :=
  | ZeroDivisionError
  | KeyError (key : string).

Inductive Res (A : Type) : Type :=
  | Ok (a : A)
  | Raise (e : PyError).
Arguments Ok {A} a.
Arguments Raise {A} e.

#[global] Instance Res_ret : MRet Res := fun A a => Ok a.
#[global] Instance Res_bind : MBind Res := fun A B k r =>
  match r with
  | Ok a => k a
  | Raise e => Raise e
  end.

(** ** Numbers *)

Module PyNum.

(** [int(x)] on a float: truncation towards zero. *)
Definition int (x : Q) : Z := Z.quot (Qnum x) (Z.pos (Qden x)).

(** [a / b] on numbers: true division, raising on a zero divisor. *)
Definition truediv (a b : Q) : Res Q :=
  if Qeq_bool b 0 then Raise ZeroDivisionError else Ok (a / b)%Q.

Definition ge (a b : Q) : bool := Qle_bool b a.
Definition gt (a b : Q) : bool := negb (Qle_bool a b).
Definition le (a b : Q) : bool := Qle_bool a b.
Definition lt (a b : Q) : bool := negb (Qle_bool b a).

Definition of_nat (n : nat) : Q := inject_Z (Z.of_nat n).

(** [min(a, b)]: the first argument unless the second is smaller. *)
Definition min (a b : Q) : Q := if lt b a then b else a.

(** [max(xs)] over a non-empty list: the first maximal element. *)
Fixpoint max_list (x : Q) (xs : list Q) : Q :=
  match xs with
  | [] => x
  | y :: ys => max_list (if gt y x then y else x) ys
  end.

(** [str(n)] for an integer. *)
Definition str (n : Z) : string := NilZero.string_of_int (Z.to_int n).

(** Floats as Python has them: IEEE 754 binary64, a mantissa of 53 bits
    and a largest exponent of 1024, rounding to the nearest float with
    ties to the even mantissa. *)
Definition binary64 : Type := SpecFloat.spec_float.

(** [float(n)] for an integer. *)
Definition float_of_int (n : Z) : binary64 :=
  SpecFloat.binary_normalize 53 1024 n 0 false.

(** [x * y] on floats. *)
Definition float_mul (x y : binary64) : binary64 := SpecFloat.SFmul 53 1024 x y.

(** [a / b] on two integers: the quotient rounded once, raising on a
    zero divisor.  The integers are below [2^53] wherever it is used, so
    that the division of the two floats is that quotient. *)
Definition int_truediv (a b : Z) : Res binary64 :=
  if b =? 0 then Raise ZeroDivisionError
  else Ok (SpecFloat.SFdiv 53 1024 (float_of_int a) (float_of_int b)).

(** The rational that a float denotes (0 for the two zeros; infinities
    and NaN do not occur where it is used). *)
Definition float_value (x : binary64) : Q :=
  match x with
  | SpecFloat.S754_finite s m e =>
      (inject_Z (SpecFloat.cond_Zopp s (Z.pos m)) * 2 ^ e)%Q
  | _ => 0%Q
  end.

End PyNum.

(** ** Strings *)

Module PyStr.

Definition is_upper (c : ascii) : bool :=
  let n := nat_of_ascii c in (65 <=? n)%nat && (n <=? 90)%nat.
Definition is_lower (c : ascii) : bool :=
  let n := nat_of_ascii c in (97 <=? n)%nat && (n <=? 122)%nat.
Definition is_alpha (c : ascii) : bool := is_upper c || is_lower c.

(** White space of [str.strip()] within ASCII. *)
Definition is_space (c : ascii) : bool :=
  let n := nat_of_ascii c in
  ((9 <=? n)%nat && (n <=? 13)%nat) || ((28 <=? n)%nat && (n <=? 32)%nat).

Definition lower_char (c : ascii) : ascii :=
  if is_upper c then ascii_of_nat (nat_of_ascii c + 32) else c.
Definition upper_char (c : ascii) : ascii :=
  if is_lower c then ascii_of_nat (nat_of_ascii c - 32) else c.

Fixpoint lower (s : string) : string :=
  match s with
  | EmptyString => EmptyString
  | String c t => String (lower_char c) (lower t)
  end.

Fixpoint startswith (p s : string) : bool :=
  match p, s with
  | EmptyString, _ => true
  | String a p', String b s' => Ascii.eqb a b && startswith p' s'
  | String _ _, EmptyString => false
  end.

(** [needle in hay]. *)
Fixpoint contains (needle hay : string) : bool :=
  startswith needle hay ||
  match hay with
  | EmptyString => false
  | String _ t => contains needle t
  end.

(** [hay.find(needle) != -1]. *)
Definition found (needle hay : string) : bool := contains needle hay.

Fixpoint lstrip (s : string) : string :=
  match s with
  | EmptyString => EmptyString
  | String c t => if is_space c then lstrip t else s
  end.

Fixpoint rstrip (s : string) : string :=
  match s with
  | EmptyString => EmptyString
  | String c t =>
      match rstrip t with
      | EmptyString => if is_space c then EmptyString else String c EmptyString
      | t' => String c t'
      end
  end.

Definition strip (s : string) : string := rstrip (lstrip s).

(** Truth value of a string. *)
Definition truthy (s : string) : bool :=
  match s with EmptyString => false | _ => true end.

(** [s.replace(a, b)] for single characters. *)
Fixpoint replace_char (a b : ascii) (s : string) : string :=
  match s with
  | EmptyString => EmptyString
  | String c t => String (if Ascii.eqb c a then b else c) (replace_char a b t)
  end.

(** [s.title()]: a letter is upper-cased after a non-letter and
    lower-cased after a letter. *)
Fixpoint title_from (prev_cased : bool) (s : string) : string :=
  match s with
  | EmptyString => EmptyString
  | String c t =>
      String (if is_alpha c
              then (if prev_cased then lower_char c else upper_char c)
              else c)
             (title_from (is_alpha c) t)
  end.
Definition title (s : string) : string := title_from false s.

(** [any(term in text for term in terms)]. *)
Definition any_in (terms : list string) (text : string) : bool :=
  existsb (fun term => contains term text) terms.

(** [sum(1 for term in terms if term in text)]. *)
Definition count_in (terms : list string) (text : string) : nat :=
  List.length (List.filter (fun term => contains term text) terms).

Definition len (s : string) : Z := Z.of_nat (String.length s).

End PyStr.

(** [d.get(key, default)] on a dictionary of strings. *)
Definition dict_get (d : gmap string string) (key default : string) : string :=
  match d !! key with
  | Some v => v
  | None => default
  end.

(** ** The scoring engine ([incidenter/scoring/scorer.py]) *)

Module Scorer.

Inductive ScoreCategory : Type :=
  | INVESTIGATION_TECHNIQUE
  | EVIDENCE_ANALYSIS
  | THEORY_ACCURACY
  | TIME_EFFICIENCY
  | COMPLETENESS
  | METHODOLOGY.

(** [category.value] *)
Definition value (c : ScoreCategory) : string :=
  match c with
  | INVESTIGATION_TECHNIQUE => "investigation_technique"
  | EVIDENCE_ANALYSIS => "evidence_analysis"
  | THEORY_ACCURACY => "theory_accuracy"
  | TIME_EFFICIENCY => "time_efficiency"
  | COMPLETENESS => "completeness"
  | METHODOLOGY => "methodology"
  end.

Record ScoreBreakdown : Type := {
  category : ScoreCategory;
  points_earned : Z;
  points_possible : Z;
  feedback : string;
  details : list string;
}.

(** [ScoreBreakdown.percentage] *)
Definition percentage (b : ScoreBreakdown) : Res Q :=
  if points_possible b =? 0 then Ok 0%Q
  else
    r ← PyNum.truediv (inject_Z (points_earned b)) (inject_Z (points_possible b));
    Ok (r * 100)%Q.

Record GameScore : Type := {
  total_points : Z;
  possible_points : Z;
  gs_percentage : Q;
  gs_grade : string;
  breakdowns : list ScoreBreakdown;
  overall_feedback : string;
  strengths : list string;
  improvements : list string;
  time_taken : option Q;
  efficiency_rating : string;
}.

(** The part of a scenario definition that the scorer and the evidence
    resolver read.  [solution] and [estimated_duration] are [None] when
    the key is absent. *)
Record Solution : Type := {
  attack_type : string;
  attack_vector : string;
  key_indicators : list string;
}.

(** The default [{}] of [scenario_data.get("solution", {})]. *)
Definition no_solution : Solution :=
  {| attack_type := ""; attack_vector := ""; key_indicators := [] |}.

Record Scenario : Type := {
  evidence_items : list (gmap string string);
  solution : option Solution;
  estimated_duration : option Q;
  required_investigation_areas : list string;
}.

(** The session data handed to [score_game_session]; a list field is
    empty when its key is absent, [total_time] is in seconds. *)
Record SessionData : Type := {
  investigation_actions : list (gmap string string);
  evidence_discovered : list (gmap string string);
  theories_submitted : list (gmap string string);
  total_time : option Q;
  evidence_correlations : list string;
  evidence_interpretations : list string;
  areas_investigated : list string;
  critical_evidence_found : list string;
}.

(** [self.category_weights] *)
Definition category_weights (c : ScoreCategory) : Q :=
  match c with
  | INVESTIGATION_TECHNIQUE => 25 # 100
  | EVIDENCE_ANALYSIS => 20 # 100
  | THEORY_ACCURACY => 30 # 100
  | TIME_EFFICIENCY => 10 # 100
  | COMPLETENESS => 10 # 100
  | METHODOLOGY => 5 # 100
  end.

(** [self.grade_thresholds], in insertion order. *)
Definition grade_thresholds : list (Z * string) :=
  [ (90, "A+"); (85, "A"); (80, "A-"); (75, "B+"); (70, "B"); (65, "B-");
    (60, "C+"); (55, "C"); (50, "C-"); (45, "D+"); (40, "D"); (0, "F") ].

(** [_calculate_grade]: the loop over the items of the table. *)
Fixpoint grade_loop (items : list (Z * string)) (percentage : Q) : string :=
  match items with
  | [] => "F"
  | (threshold, grade) :: rest =>
      if PyNum.ge percentage (inject_Z threshold) then grade
      else grade_loop rest percentage
  end.

Definition _calculate_grade (percentage : Q) : string :=
  grade_loop grade_thresholds percentage.

(** The thresholds as the specification words them: highest first, the
    first one reached decides. *)
Definition grade_by_thresholds (p : Q) : string :=
  if Qle_bool 90 p then "A+" else
  if Qle_bool 85 p then "A" else
  if Qle_bool 80 p then "A-" else
  if Qle_bool 75 p then "B+" else
  if Qle_bool 70 p then "B" else
  if Qle_bool 65 p then "B-" else
  if Qle_bool 60 p then "C+" else
  if Qle_bool 55 p then "C" else
  if Qle_bool 50 p then "C-" else
  if Qle_bool 45 p then "D+" else
  if Qle_bool 40 p then "D" else "F".

(** [_evaluate_theory_accuracy] *)
Definition theory_elements : list string :=
  ["timeline"; "motivation"; "impact"; "technique"].

Definition _evaluate_theory_accuracy
    (theory : gmap string string) (sol : Solution) : Q :=
  let theory_text := PyStr.lower (dict_get theory "theory" "") in
  let attack_type := PyStr.lower (attack_type sol) in
  let attack_vector := PyStr.lower (attack_vector sol) in
  let key_indicators := List.map PyStr.lower (key_indicators sol) in
  let accuracy_score := 0%Q in
  let accuracy_score :=
    if PyStr.truthy attack_type && PyStr.contains attack_type theory_text
    then (accuracy_score + 30)%Q else accuracy_score in
  let accuracy_score :=
    if PyStr.truthy attack_vector && PyStr.contains attack_vector theory_text
    then (accuracy_score + 25)%Q else accuracy_score in
  let indicators_found := PyStr.count_in key_indicators theory_text in
  let accuracy_score :=
    match key_indicators with
    | [] => accuracy_score
    | _ :: _ =>
        (accuracy_score
         + (PyNum.of_nat indicators_found
            / PyNum.of_nat (List.length key_indicators)) * 30)%Q
    end in
  let elements_mentioned := PyStr.count_in theory_elements theory_text in
  let accuracy_score :=
    (accuracy_score
     + (PyNum.of_nat elements_mentioned
        / PyNum.of_nat (List.length theory_elements)) * 15)%Q in
  PyNum.min accuracy_score 100.

Section WithFloatRepr.

(** [str(x)] of a float, as used by the f-strings that print one. *)
Variable float_repr : Q -> string.

(** [_score_theory_accuracy] *)
Definition _score_theory_accuracy
    (scenario_data : Scenario) (session_data : SessionData) : ScoreBreakdown :=
  let points_possible := 100 in
  let theories := theories_submitted session_data in
  let scenario_solution := default no_solution (solution scenario_data) in
  match theories with
  | [] =>
      {| category := THEORY_ACCURACY;
         points_earned := 0;
         points_possible := points_possible;
         feedback := "No theories submitted for evaluation.";
         details := ["No theories submitted"] |}
  | first :: others =>
      let theory_scores :=
        List.map (fun theory => _evaluate_theory_accuracy theory scenario_solution)
                 theories in
      let details :=
        List.map (fun theory_score =>
                    "Theory accuracy: " +:+ float_repr theory_score +:+ "%")
                 theory_scores in
      let best_theory_score :=
        PyNum.max_list (_evaluate_theory_accuracy first scenario_solution)
                       (List.map (fun theory =>
                                    _evaluate_theory_accuracy theory scenario_solution)
                                 others) in
      let points_earned := PyNum.int best_theory_score in
      let viable :=
        List.filter (fun score => PyNum.ge score 60) theory_scores in
      let '(points_earned, details) :=
        if (1 <? List.length viable)%nat
        then (points_earned + 10,
              details ++ ["Bonus: Multiple viable theories developed"])
        else (points_earned, details) in
      let points_earned := Z.min points_earned points_possible in
      let feedback :=
        "Theory accuracy score: " +:+ PyNum.str points_earned +:+ "/"
        +:+ PyNum.str points_possible +:+ ". "
        +:+ (if 80 <=? points_earned
            then "Excellent understanding of the incident."
            else if 60 <=? points_earned
            then "Good grasp of the incident with minor gaps."
            else "Theory needs refinement - consider reviewing evidence more carefully.") in
      {| category := THEORY_ACCURACY;
         points_earned := points_earned;
         points_possible := points_possible;
         feedback := feedback;
         details := details |}
  end.

End WithFloatRepr.

(** [_score_methodology]: the phase an action contributes, if any. *)
Definition action_phase (action : gmap string string) : option string :=
  let action_text :=
    PyStr.lower (dict_get action "action" "") +:+ " "
    +:+ PyStr.lower (dict_get action "details" "") in
  if PyStr.any_in ["identify"; "detect"; "alert"] action_text
  then Some "identification"
  else if PyStr.any_in ["contain"; "isolate"; "block"] action_text
  then Some "containment"
  else if PyStr.any_in ["eradicate"; "remove"; "clean"] action_text
  then Some "eradication"
  else if PyStr.any_in ["recover"; "restore"; "resume"] action_text
  then Some "recovery"
  else if PyStr.any_in ["lesson"; "review"; "improve"] action_text
  then Some "lessons_learned"
  else None.

Fixpoint phases_loop (actions : list (gmap string string))
    (phases_covered : gset string) : gset string :=
  match actions with
  | [] => phases_covered
  | action :: rest =>
      phases_loop rest
        match action_phase action with
        | Some phase => {[ phase ]} ∪ phases_covered
        | None => phases_covered
        end
  end.

Definition documented (action : gmap string string) : bool :=
  20 <? PyStr.len (dict_get action "details" "").

Definition _score_methodology
    (scenario_data : Scenario) (session_data : SessionData) : ScoreBreakdown :=
  let points_possible := 100 in
  let points_earned := 0 in
  let details : list string := [] in
  let actions := investigation_actions session_data in
  let phases_covered := phases_loop actions ∅ in
  let methodology_points := Z.of_nat (size phases_covered) * 20 in
  let points_earned := points_earned + methodology_points in
  let details :=
    details ++ ["Covered " +:+ PyNum.str (Z.of_nat (size phases_covered))
                +:+ " IR methodology phases"] in
  let documented_actions := List.length (List.filter documented actions) in
  let '(points_earned, details) :=
    if PyNum.ge (PyNum.of_nat documented_actions)
                (PyNum.of_nat (List.length actions) * (8 # 10))
    then (points_earned + 20, details ++ ["Excellent documentation of actions"])
    else if PyNum.ge (PyNum.of_nat documented_actions)
                     (PyNum.of_nat (List.length actions) * (5 # 10))
    then (points_earned + 10, details ++ ["Good documentation practices"])
    else (points_earned, details) in
  let feedback :=
    "Methodology score: " +:+ PyNum.str points_earned +:+ "/"
    +:+ PyNum.str points_possible +:+ ". "
    +:+ (if 70 <=? points_earned
        then "Strong adherence to IR methodology."
        else if 50 <=? points_earned
        then "Good methodology with room for improvement."
        else "Consider following established IR frameworks more closely.") in
  {| category := METHODOLOGY;
     points_earned := points_earned;
     points_possible := points_possible;
     feedback := feedback;
     details := details |}.

(** [_score_investigation_technique]: the approach an action counts for. *)
Definition action_approach (action : gmap string string) : option string :=
  let action_type := PyStr.lower (dict_get action "action" "") in
  if PyStr.any_in ["log"; "network"; "forensic"] action_type
  then Some "technical"
  else if PyStr.any_in ["interview"; "question"; "ask"] action_type
  then Some "human"
  else if PyStr.any_in ["timeline"; "sequence"; "order"] action_type
  then Some "temporal"
  else None.

Fixpoint approaches_loop (actions : list (gmap string string))
    (action_types : gset string) : gset string :=
  match actions with
  | [] => action_types
  | action :: rest =>
      approaches_loop rest
        match action_approach action with
        | Some kind => {[ kind ]} ∪ action_types
        | None => action_types
        end
  end.

(** [_calculate_action_specificity] *)
Definition specificity_keywords : list string :=
  ["specific"; "detailed"; "exact"; "particular"; "precise"].
Definition general_keywords : list string :=
  ["overview"; "general"; "broad"; "initial"; "scan"].

Definition action_specificity (action : gmap string string) : Q :=
  let text :=
    PyStr.lower (dict_get action "action" "" +:+ " "
                 +:+ dict_get action "details" "") in
  let specific_count := PyStr.count_in specificity_keywords text in
  let general_count := PyStr.count_in general_keywords text in
  (PyNum.of_nat specific_count - PyNum.of_nat general_count
   + inject_Z (PyStr.len (dict_get action "details" "")) / 100)%Q.

Definition _calculate_action_specificity
    (actions : list (gmap string string)) : Q :=
  match actions with
  | [] => 0%Q
  | _ :: _ =>
      let total_specificity :=
        List.fold_left (fun total action => (total + action_specificity action)%Q)
                       actions 0%Q in
      (total_specificity / PyNum.of_nat (List.length actions))%Q
  end.

(** [_check_logical_progression] *)
Definition _check_logical_progression
    (actions : list (gmap string string)) : bool :=
  if (List.length actions <? 3)%nat then false
  else
    let half := (List.length actions / 2)%nat in
    let early_actions := List.firstn half actions in
    let later_actions := List.skipn half actions in
    let early_specificity := _calculate_action_specificity early_actions in
    let later_specificity := _calculate_action_specificity later_actions in
    PyNum.gt later_specificity early_specificity.

Definition evidence_based (action : gmap string string) : bool :=
  PyStr.found "evidence" (PyStr.lower (dict_get action "details" ""))
  || PyStr.found "based on" (PyStr.lower (dict_get action "details" "")).

Definition _score_investigation_technique
    (scenario_data : Scenario) (session_data : SessionData) : ScoreBreakdown :=
  let points_possible := 100 in
  let points_earned := 0 in
  let details : list string := [] in
  let actions := investigation_actions session_data in
  let '(points_earned, details) :=
    if (5 <=? List.length actions)%nat
    then (points_earned + 20,
          details ++ ["Conducted thorough investigation with multiple actions"])
    else if (3 <=? List.length actions)%nat
    then (points_earned + 15,
          details ++ ["Performed adequate number of investigation actions"])
    else (points_earned, details ++ ["Limited investigation actions taken"]) in
  let action_types := approaches_loop actions ∅ in
  let diversity_score := Z.min (Z.of_nat (size action_types) * 15) 30 in
  let points_earned := points_earned + diversity_score in
  let details :=
    if 0 <? diversity_score
    then details ++ ["Used " +:+ PyNum.str (Z.of_nat (size action_types))
                     +:+ " different investigation approaches"]
    else details in
  let '(points_earned, details) :=
    if _check_logical_progression actions
    then (points_earned + 25,
          details ++ ["Demonstrated logical investigation progression"])
    else (points_earned,
          details ++ ["Investigation could benefit from more systematic approach"]) in
  let evidence_based_actions :=
    List.length (List.filter evidence_based actions) in
  let '(points_earned, details) :=
    if (2 <=? evidence_based_actions)%nat
    then (points_earned + 25,
          details ++ ["Made evidence-based investigation decisions"])
    else if (1 <=? evidence_based_actions)%nat
    then (points_earned + 15,
          details ++ ["Some evidence-based decision making observed"])
    else (points_earned,
          details ++ ["Could improve by making more evidence-based decisions"]) in
  let feedback :=
    "Investigation technique score: " +:+ PyNum.str points_earned +:+ "/"
    +:+ PyNum.str points_possible +:+ ". "
    +:+ (if 70 <=? points_earned
         then "Strong systematic approach demonstrated."
         else if 50 <=? points_earned
         then "Good investigation skills with room for improvement."
         else "Consider developing more systematic investigation methodology.") in
  {| category := INVESTIGATION_TECHNIQUE;
     points_earned := points_earned;
     points_possible := points_possible;
     feedback := feedback;
     details := details |}.

(** [_score_evidence_analysis] *)
Definition _score_evidence_analysis
    (scenario_data : Scenario) (session_data : SessionData) : ScoreBreakdown :=
  let points_possible := 100 in
  let points_earned := 0 in
  let details : list string := [] in
  let evidence_discovered := evidence_discovered session_data in
  let total_evidence := List.length (evidence_items scenario_data) in
  let '(points_earned, details) :=
    if (0 <? total_evidence)%nat
    then
      let discovery_rate :=
        (PyNum.of_nat (List.length evidence_discovered)
         / PyNum.of_nat total_evidence)%Q in
      let discovery_points := PyNum.int (discovery_rate * 40)%Q in
      (points_earned + discovery_points,
       details ++ ["Discovered "
                   +:+ PyNum.str (Z.of_nat (List.length evidence_discovered))
                   +:+ "/" +:+ PyNum.str (Z.of_nat total_evidence)
                   +:+ " pieces of evidence"])
    else (points_earned, details) in
  let correlations := evidence_correlations session_data in
  let correlation_points := Z.min (Z.of_nat (List.length correlations) * 15) 30 in
  let points_earned := points_earned + correlation_points in
  let details :=
    match correlations with
    | [] => details
    | _ :: _ =>
        details ++ ["Successfully correlated "
                    +:+ PyNum.str (Z.of_nat (List.length correlations))
                    +:+ " pieces of evidence"]
    end in
  let interpretations := evidence_interpretations session_data in
  let interpretation_points :=
    Z.min (Z.of_nat (List.length interpretations) * 10) 30 in
  let points_earned := points_earned + interpretation_points in
  let details :=
    match interpretations with
    | [] => details
    | _ :: _ =>
        details ++ ["Provided "
                    +:+ PyNum.str (Z.of_nat (List.length interpretations))
                    +:+ " evidence interpretations"]
    end in
  let feedback :=
    "Evidence analysis score: " +:+ PyNum.str points_earned +:+ "/"
    +:+ PyNum.str points_possible +:+ ". "
    +:+ (if 70 <=? points_earned
         then "Excellent evidence discovery and analysis."
         else if 50 <=? points_earned
         then "Good evidence handling with room for deeper analysis."
         else "Focus on discovering and analyzing more evidence systematically.") in
  {| category := EVIDENCE_ANALYSIS;
     points_earned := points_earned;
     points_possible := points_possible;
     feedback := feedback;
     details := details |}.

(** Truth value of an optional number: neither [None] nor zero. *)
Definition truthy_number (x : option Q) : option Q :=
  match x with
  | Some t => if Qeq_bool t 0 then None else Some t
  | None => None
  end.

(** [_score_time_efficiency] *)
Definition _score_time_efficiency
    (scenario_data : Scenario) (session_data : SessionData) : Res ScoreBreakdown :=
  let points_possible := 100 in
  let points_earned := 50 in
  let details : list string := [] in
  let actual_time := total_time session_data in
  let expected_time := default 3600%Q (estimated_duration scenario_data) in
  '(points_earned, details) ←
    match truthy_number actual_time with
    | Some actual_time =>
        time_ratio ← PyNum.truediv actual_time expected_time;
        Ok (if PyNum.le time_ratio (8 # 10)
            then (100, details ++ ["Completed significantly faster than expected"])
            else if PyNum.le time_ratio 1
            then (85, details ++ ["Completed within expected timeframe"])
            else if PyNum.le time_ratio (12 # 10)
            then (70, details ++ ["Took slightly longer than expected"])
            else if PyNum.le time_ratio (15 # 10)
            then (50, details ++ ["Took moderately longer than expected"])
            else (25, details ++ ["Took significantly longer than expected"]))
    | None => Ok (points_earned, details ++ ["Time tracking not available"])
    end;
  let feedback :=
    "Time efficiency score: " +:+ PyNum.str points_earned +:+ "/"
    +:+ PyNum.str points_possible +:+ ". "
    +:+ (if 85 <=? points_earned
         then "Excellent time management."
         else if 70 <=? points_earned
         then "Good time management."
         else "Consider more efficient investigation strategies.") in
  Ok {| category := TIME_EFFICIENCY;
        points_earned := points_earned;
        points_possible := points_possible;
        feedback := feedback;
        details := details |}.

(** [_score_completeness] *)
Definition is_critical (e : gmap string string) : bool :=
  String.eqb (dict_get e "importance" "medium") "critical".

Definition _score_completeness
    (scenario_data : Scenario) (session_data : SessionData) : ScoreBreakdown :=
  let points_possible := 100 in
  let points_earned := 0 in
  let details : list string := [] in
  let required_areas := required_investigation_areas scenario_data in
  let covered_areas := areas_investigated session_data in
  let '(points_earned, details) :=
    match required_areas with
    | _ :: _ =>
        let common : gset string :=
          list_to_set covered_areas ∩ list_to_set required_areas in
        let coverage_rate :=
          (PyNum.of_nat (size common)
           / PyNum.of_nat (List.length required_areas))%Q in
        (points_earned + PyNum.int (coverage_rate * 60)%Q,
         details ++ ["Covered " +:+ PyNum.str (Z.of_nat (size common))
                     +:+ "/" +:+ PyNum.str (Z.of_nat (List.length required_areas))
                     +:+ " required areas"])
    | [] =>
        let actions := investigation_actions session_data in
        let points_earned :=
          if (8 <=? List.length actions)%nat then points_earned + 60
          else if (5 <=? List.length actions)%nat then points_earned + 40
          else if (3 <=? List.length actions)%nat then points_earned + 25
          else points_earned in
        (points_earned,
         details ++ ["Performed " +:+ PyNum.str (Z.of_nat (List.length actions))
                     +:+ " investigation actions"])
    end in
  let evidence_items := evidence_items scenario_data in
  let critical_evidence := List.filter is_critical evidence_items in
  let discovered_critical := critical_evidence_found session_data in
  let '(points_earned, details) :=
    match critical_evidence with
    | _ :: _ =>
        let critical_rate :=
          (PyNum.of_nat (List.length discovered_critical)
           / PyNum.of_nat (List.length critical_evidence))%Q in
        (points_earned + PyNum.int (critical_rate * 40)%Q,
         details ++ ["Found "
                     +:+ PyNum.str (Z.of_nat (List.length discovered_critical))
                     +:+ "/"
                     +:+ PyNum.str (Z.of_nat (List.length critical_evidence))
                     +:+ " critical evidence items"])
    | [] => (points_earned + 40, details)
    end in
  let feedback :=
    "Completeness score: " +:+ PyNum.str points_earned +:+ "/"
    +:+ PyNum.str points_possible +:+ ". "
    +:+ (if 80 <=? points_earned
         then "Thorough and complete investigation."
         else if 60 <=? points_earned
         then "Good coverage with some areas missed."
         else "Investigation needs to be more comprehensive.") in
  {| category := COMPLETENESS;
     points_earned := points_earned;
     points_possible := points_possible;
     feedback := feedback;
     details := details |}.

(** [_calculate_efficiency_rating] *)
Definition _calculate_efficiency_rating
    (actual_time expected_time : option Q) : Res string :=
  match truthy_number actual_time, truthy_number expected_time with
  | Some actual_seconds, Some expected_time =>
      ratio ← PyNum.truediv actual_seconds expected_time;
      Ok (if PyNum.le ratio (7 # 10) then "Excellent"
          else if PyNum.le ratio (9 # 10) then "Very Good"
          else if PyNum.le ratio (11 # 10) then "Good"
          else if PyNum.le ratio (13 # 10) then "Average"
          else if PyNum.le ratio (15 # 10) then "Below Average"
          else "Needs Improvement")
  | _, _ => Ok "Unknown"
  end.

(** [_generate_overall_feedback] *)
Fixpoint strengths_loop (bs : list ScoreBreakdown) : Res (list string) :=
  match bs with
  | [] => Ok []
  | b :: rest =>
      p ← percentage b;
      more ← strengths_loop rest;
      Ok (if PyNum.ge p 75
          then ("Strong " +:+ PyStr.replace_char "_"%char " "%char (value (category b))) :: more
          else more)
  end.

Fixpoint improvements_loop (bs : list ScoreBreakdown) : Res (list string) :=
  match bs with
  | [] => Ok []
  | b :: rest =>
      p ← percentage b;
      more ← improvements_loop rest;
      Ok (if PyNum.lt p 60
          then ("Improve " +:+ PyStr.replace_char "_"%char " "%char (value (category b))) :: more
          else more)
  end.

Definition _generate_overall_feedback
    (breakdowns : list ScoreBreakdown) (percentage : Q)
    : Res (string * list string * list string) :=
  strengths ← strengths_loop breakdowns;
  improvements ← improvements_loop breakdowns;
  let overall :=
    if PyNum.ge percentage 85
    then "Excellent performance! You demonstrated strong incident "
         +:+ "response skills across all areas."
    else if PyNum.ge percentage 75
    then "Good performance with solid incident response fundamentals. "
         +:+ "Some areas for refinement identified."
    else if PyNum.ge percentage 65
    then "Satisfactory performance. Focus on the identified improvement "
         +:+ "areas to enhance your IR skills."
    else if PyNum.ge percentage 50
    then "Basic incident response skills demonstrated. Significant "
         +:+ "improvement needed in multiple areas."
    else "Performance indicates need for additional training in "
         +:+ "incident response fundamentals." in
  Ok (overall, strengths, improvements).

(** [round(x, 1)]: to one decimal, ties to the even digit. *)
Definition round1 (x : Q) : Q :=
  let scaled := (x * 10)%Q in
  let low := Qfloor scaled in
  let rest := (scaled - inject_Z low)%Q in
  let n :=
    if PyNum.lt rest (1 # 2) then low
    else if PyNum.gt rest (1 # 2) then low + 1
    else if Z.even low then low else low + 1 in
  (inject_Z n / 10)%Q.

(** The weighted totals accumulated by the loop of [score_game_session]. *)
Fixpoint weighted_totals (bs : list ScoreBreakdown) (total possible : Q) : Q * Q :=
  match bs with
  | [] => (total, possible)
  | b :: rest =>
      let weight := category_weights (category b) in
      let weighted_points := (inject_Z (points_earned b) * weight)%Q in
      let weighted_possible := (inject_Z (points_possible b) * weight)%Q in
      weighted_totals rest (total + weighted_points)%Q
                      (possible + weighted_possible)%Q
  end.

(** The overall percentage of [score_game_session]. *)
Definition overall_percentage (total_points possible_points : Q) : Res Q :=
  if PyNum.gt possible_points 0
  then r ← PyNum.truediv total_points possible_points; Ok (r * 100)%Q
  else Ok 0%Q.

Section WithFloatRepr.

Variable float_repr : Q -> string.

(** [score_game_session] *)
Definition score_game_session
    (scenario_data : Scenario) (session_data : SessionData) : Res GameScore :=
  let b1 := _score_investigation_technique scenario_data session_data in
  let b2 := _score_evidence_analysis scenario_data session_data in
  let b3 := _score_theory_accuracy float_repr scenario_data session_data in
  b4 ← _score_time_efficiency scenario_data session_data;
  let b5 := _score_completeness scenario_data session_data in
  let b6 := _score_methodology scenario_data session_data in
  let breakdowns := [b1; b2; b3; b4; b5; b6] in
  let '(total_points, possible_points) := weighted_totals breakdowns 0%Q 0%Q in
  percentage ← overall_percentage total_points possible_points;
  let grade := _calculate_grade percentage in
  '(overall_feedback, strengths, improvements) ←
    _generate_overall_feedback breakdowns percentage;
  let time_taken := total_time session_data in
  efficiency_rating ←
    _calculate_efficiency_rating time_taken (estimated_duration scenario_data);
  Ok {| total_points := PyNum.int total_points;
        possible_points := PyNum.int possible_points;
        gs_percentage := round1 percentage;
        gs_grade := grade;
        breakdowns := breakdowns;
        overall_feedback := overall_feedback;
        strengths := strengths;
        improvements := improvements;
        time_taken := time_taken;
        efficiency_rating := efficiency_rating |}.

End WithFloatRepr.

(** *** The per-theory quick score *)

(** A theory record; only its ["theory"] entry is read, [None] when the
    key is absent. *)
Record TheoryRecord : Type := {
  theory : option (gmap string string);
}.

Record CategoryScore : Type := {
  cs_category : string;
  earned_points : Z;
  max_points : Z;
  cs_feedback : string;
}.

Record TheoryScore : Type := {
  total_score : Z;
  max_possible_score : Z;
  ts_percentage : Q;
  grade : string;
  performance_level : string;
  component_scores : list (string * Z);
  category_scores : list CategoryScore;
  ts_feedback : string;
  completeness : Q;
  accuracy_assessment : string;
}.

(** The rubric of [score_theory], in insertion order. *)
Definition components : list (string * Z) :=
  [ ("initial_access", 20); ("techniques_used", 20); ("timeline", 15);
    ("objective", 15); ("attribution", 10); ("impact", 10);
    ("additional_iocs", 10) ].

(** [component in theory and theory[component].strip()] *)
Definition filled (theory : gmap string string) (component : string) : bool :=
  match theory !! component with
  | Some text => PyStr.truthy (PyStr.strip text)
  | None => false
  end.

(** The body of the loop over the rubric. *)
Definition component_score
    (theory : gmap string string) (component : string) (max_points : Z) : Z :=
  if filled theory component then
    let response_length := PyStr.len (dict_get theory component "") in
    if 50 <? response_length then PyNum.int (inject_Z max_points * (9 # 10))%Q
    else if 20 <? response_length then PyNum.int (inject_Z max_points * (7 # 10))%Q
    else PyNum.int (inject_Z max_points * (5 # 10))%Q
  else 0.

Fixpoint score_components (theory : gmap string string)
    (items : list (string * Z)) (total_score : Z)
    (component_scores : list (string * Z)) : Z * list (string * Z) :=
  match items with
  | [] => (total_score, component_scores)
  | (component, max_points) :: rest =>
      let score := component_score theory component max_points in
      score_components theory rest (total_score + score)
                       (component_scores ++ [(component, score)])
  end.

(** [_assess_theory_completeness] *)
Definition required_components : list string :=
  ["initial_access"; "techniques_used"; "timeline"; "objective"].

Definition _assess_theory_completeness (theory : gmap string string) : Q :=
  let completed := List.length (List.filter (filled theory) required_components) in
  (PyNum.of_nat completed / PyNum.of_nat (List.length required_components))%Q.

(** [_assess_theory_plausibility] *)
Definition _assess_theory_plausibility (theory : gmap string string) : string :=
  let total_length := map_fold (fun _ text acc => acc + PyStr.len text) 0 theory in
  if 500 <? total_length then "Highly detailed analysis"
  else if 200 <? total_length then "Good level of detail"
  else "Basic analysis provided".

(** [max(items, key=...)] and [min(items, key=...)]: first extremum. *)
Fixpoint first_max (best : string * Z) (items : list (string * Z)) : string * Z :=
  match items with
  | [] => best
  | x :: rest => first_max (if best.2 <? x.2 then x else best) rest
  end.

Fixpoint first_min (worst : string * Z) (items : list (string * Z)) : string * Z :=
  match items with
  | [] => worst
  | x :: rest => first_min (if x.2 <? worst.2 then x else worst) rest
  end.

Definition newline : string := String (ascii_of_nat 10) EmptyString.

Definition display_name (component : string) : string :=
  PyStr.title (PyStr.replace_char "_"%char " "%char component).

(** [_generate_theory_feedback] *)
Definition _generate_theory_feedback
    (theory : gmap string string) (scores : list (string * Z)) (percentage : Q)
    : string :=
  let overall :=
    if PyNum.ge percentage 85
    then "Excellent analysis! Your theory demonstrates strong understanding of the incident."
    else if PyNum.ge percentage 70
    then "Good analysis with solid reasoning. Some areas could use more detail."
    else if PyNum.ge percentage 55
    then "Reasonable analysis, but several areas need more investigation."
    else "Basic analysis provided. Consider gathering more evidence before forming conclusions." in
  match scores with
  | first :: rest =>
      let best_component := first_max first rest in
      let worst_component := first_min first rest in
      let feedback := overall +:+ newline +:+ newline in
      let feedback :=
        feedback +:+ "Strongest area: " +:+ display_name best_component.1
        +:+ " (" +:+ PyNum.str best_component.2 +:+ " points)" +:+ newline in
      if worst_component.2 <? best_component.2
      then feedback +:+ "Area for improvement: "
           +:+ display_name worst_component.1 +:+ newline
      else feedback
  | [] => overall
  end.

(** [score_theory] *)
Definition score_theory (theory_record : TheoryRecord) : Res TheoryScore :=
  theory ← match theory theory_record with
           | Some t => Ok t
           | None => Raise (KeyError "theory")
           end;
  let theory_completeness := _assess_theory_completeness theory in
  let theory_accuracy := _assess_theory_plausibility theory in
  let max_possible_score :=
    List.fold_left Z.add (List.map snd components) 0 in
  let '(total_score, component_scores) :=
    score_components theory components 0 [] in
  ratio ← PyNum.int_truediv total_score max_possible_score;
  let percentage := PyNum.float_value (PyNum.float_mul ratio (PyNum.float_of_int 100)) in
  let grade := _calculate_grade percentage in
  let performance_level :=
    if PyNum.ge percentage 90 then "Outstanding"
    else if PyNum.ge percentage 80 then "Excellent"
    else if PyNum.ge percentage 70 then "Good"
    else if PyNum.ge percentage 60 then "Satisfactory"
    else "Needs Improvement" in
  let category_scores :=
    List.map
      (fun '(component, score) =>
         let max_points :=
           default 0 (snd <$> List.find (fun item => String.eqb item.1 component)
                                        components) in
         {| cs_category := display_name component;
            earned_points := score;
            max_points := max_points;
            cs_feedback :=
              if PyNum.gt (inject_Z score) (inject_Z max_points * (7 # 10))
              then "Good detail provided"
              else "Could use more detail" |})
      component_scores in
  let feedback := _generate_theory_feedback theory component_scores percentage in
  Ok {| total_score := total_score;
        max_possible_score := max_possible_score;
        ts_percentage := percentage;
        grade := grade;
        performance_level := performance_level;
        component_scores := component_scores;
        category_scores := category_scores;
        ts_feedback := feedback;
        completeness := theory_completeness;
        accuracy_assessment := theory_accuracy |}.

End Scorer.

(** ** The session manager ([utils/session_manager.py]) *)

Module SessionMgr.

(** A reading of the clock: the instant, and its [isoformat()]. *)
Record Clock : Type := {
  instant : Z;
  isoformat : string;
}.

Record SessionState : Type := {
  session_id : string;
  scenario_id : string;
  scenario_name : string;
  player_name : string;
  start_time : Clock;
  current_phase : string;
  investigation_actions : list (gmap string string);
  evidence_discovered : list (gmap string string);
  theories_submitted : list (gmap string string);
  hints_used : Z;
  score_checkpoints : list (gmap string string);
  is_completed : bool;
  completion_time : option Clock;
  final_score : option (gmap string string);
  session_notes : string;
  metadata : gmap string string;
}.

(** Assignments to the attributes of a session object. *)
Definition set_current_phase_of (s : SessionState) (v : string) : SessionState :=
  {| session_id := session_id s; scenario_id := scenario_id s;
     scenario_name := scenario_name s; player_name := player_name s;
     start_time := start_time s; current_phase := v;
     investigation_actions := investigation_actions s;
     evidence_discovered := evidence_discovered s;
     theories_submitted := theories_submitted s; hints_used := hints_used s;
     score_checkpoints := score_checkpoints s; is_completed := is_completed s;
     completion_time := completion_time s; final_score := final_score s;
     session_notes := session_notes s; metadata := metadata s |}.

Definition set_investigation_actions (s : SessionState)
    (v : list (gmap string string)) : SessionState :=
  {| session_id := session_id s; scenario_id := scenario_id s;
     scenario_name := scenario_name s; player_name := player_name s;
     start_time := start_time s; current_phase := current_phase s;
     investigation_actions := v;
     evidence_discovered := evidence_discovered s;
     theories_submitted := theories_submitted s; hints_used := hints_used s;
     score_checkpoints := score_checkpoints s; is_completed := is_completed s;
     completion_time := completion_time s; final_score := final_score s;
     session_notes := session_notes s; metadata := metadata s |}.

Definition set_evidence_discovered (s : SessionState)
    (v : list (gmap string string)) : SessionState :=
  {| session_id := session_id s; scenario_id := scenario_id s;
     scenario_name := scenario_name s; player_name := player_name s;
     start_time := start_time s; current_phase := current_phase s;
     investigation_actions := investigation_actions s;
     evidence_discovered := v;
     theories_submitted := theories_submitted s; hints_used := hints_used s;
     score_checkpoints := score_checkpoints s; is_completed := is_completed s;
     completion_time := completion_time s; final_score := final_score s;
     session_notes := session_notes s; metadata := metadata s |}.

Definition set_theories_submitted (s : SessionState)
    (v : list (gmap string string)) : SessionState :=
  {| session_id := session_id s; scenario_id := scenario_id s;
     scenario_name := scenario_name s; player_name := player_name s;
     start_time := start_time s; current_phase := current_phase s;
     investigation_actions := investigation_actions s;
     evidence_discovered := evidence_discovered s;
     theories_submitted := v; hints_used := hints_used s;
     score_checkpoints := score_checkpoints s; is_completed := is_completed s;
     completion_time := completion_time s; final_score := final_score s;
     session_notes := session_notes s; metadata := metadata s |}.

Definition set_hints_used (s : SessionState) (v : Z) : SessionState :=
  {| session_id := session_id s; scenario_id := scenario_id s;
     scenario_name := scenario_name s; player_name := player_name s;
     start_time := start_time s; current_phase := current_phase s;
     investigation_actions := investigation_actions s;
     evidence_discovered := evidence_discovered s;
     theories_submitted := theories_submitted s; hints_used := v;
     score_checkpoints := score_checkpoints s; is_completed := is_completed s;
     completion_time := completion_time s; final_score := final_score s;
     session_notes := session_notes s; metadata := metadata s |}.

Definition set_completed (s : SessionState) (flag : bool) (at_time : option Clock)
    (score : option (gmap string string)) : SessionState :=
  {| session_id := session_id s; scenario_id := scenario_id s;
     scenario_name := scenario_name s; player_name := player_name s;
     start_time := start_time s; current_phase := current_phase s;
     investigation_actions := investigation_actions s;
     evidence_discovered := evidence_discovered s;
     theories_submitted := theories_submitted s; hints_used := hints_used s;
     score_checkpoints := score_checkpoints s; is_completed := flag;
     completion_time := at_time; final_score := score;
     session_notes := session_notes s; metadata := metadata s |}.

(** A file [<session_id>.json] of the sessions directory: the session it
    decodes to ([None] when it cannot be decoded) and its modification
    time. *)
Record SessionFile : Type := {
  content : option SessionState;
  st_mtime : Z;
}.

(** The manager.  Session objects live in [objects] and are referred to
    by their index, so that [current_session] and the entries of
    [_session_cache] may name one and the same object; [sessions_dir]
    maps the stem of a file name to the file. *)
Record SessionManager : Type := {
  sessions_dir : gmap string SessionFile;
  max_sessions : Z;
  current_session : option nat;
  _session_cache : gmap string nat;
  objects : list SessionState;
}.

Definition with_dir (m : SessionManager) (d : gmap string SessionFile) :=
  {| sessions_dir := d; max_sessions := max_sessions m;
     current_session := current_session m;
     _session_cache := _session_cache m; objects := objects m |}.
Definition with_current (m : SessionManager) (c : option nat) :=
  {| sessions_dir := sessions_dir m; max_sessions := max_sessions m;
     current_session := c;
     _session_cache := _session_cache m; objects := objects m |}.
Definition with_cache (m : SessionManager) (c : gmap string nat) :=
  {| sessions_dir := sessions_dir m; max_sessions := max_sessions m;
     current_session := current_session m;
     _session_cache := c; objects := objects m |}.
Definition with_objects (m : SessionManager) (o : list SessionState) :=
  {| sessions_dir := sessions_dir m; max_sessions := max_sessions m;
     current_session := current_session m;
     _session_cache := _session_cache m; objects := o |}.

(** [SessionManager(sessions_dir, max_sessions)] over an existing
    directory. *)
Definition init (dir : gmap string SessionFile) (max_sessions : Z) : SessionManager :=
  {| sessions_dir := dir; max_sessions := max_sessions;
     current_session := None; _session_cache := ∅; objects := [] |}.

(** *** Retention *)

(** [session_files.sort(key=lambda x: x[1], reverse=True)]: a stable
    sort, newest first. *)
Fixpoint insert_newest_first (x : string * Z) (l : list (string * Z))
    : list (string * Z) :=
  match l with
  | [] => [x]
  | y :: rest =>
      if y.2 <=? x.2 then x :: l else y :: insert_newest_first x rest
  end.

Definition sort_newest_first (l : list (string * Z)) : list (string * Z) :=
  List.fold_right insert_newest_first [] l.

(** [l[k:]] for an integer [k] of either sign. *)
Definition slice_from {A} (k : Z) (l : list A) : list A :=
  if 0 <=? k then List.skipn (Z.to_nat k) l
  else List.skipn (Z.to_nat (Z.of_nat (List.length l) + k)) l.

(** [sessions_dir.glob("*.json")] with the modification time of each. *)
Definition glob_mtimes (dir : gmap string SessionFile) : list (string * Z) :=
  (fun entry => (entry.1, st_mtime entry.2)) <$> map_to_list dir.

(** The body of the deletion loop of [_cleanup_old_sessions]. *)
Definition unlink_session (m : SessionManager) (entry : string * Z)
    : SessionManager :=
  let session_id := entry.1 in
  let m := with_cache m (delete session_id (_session_cache m)) in
  with_dir m (delete session_id (sessions_dir m)).

(** [_cleanup_old_sessions] *)
Definition _cleanup_old_sessions (max_sessions : Z) (m : SessionManager)
    : SessionManager :=
  let session_files := sort_newest_first (glob_mtimes (sessions_dir m)) in
  if max_sessions <? Z.of_nat (List.length session_files)
  then
    let files_to_delete := slice_from max_sessions session_files in
    List.fold_left unlink_session files_to_delete m
  else m.

(** [cleanup_sessions] *)
Definition cleanup_sessions (max_sessions : option Z) (m : SessionManager)
    : SessionManager * Z :=
  let max_sessions := default (SessionMgr.max_sessions m) max_sessions in
  let initial_count := Z.of_nat (size (sessions_dir m)) in
  let m := _cleanup_old_sessions max_sessions m in
  let final_count := Z.of_nat (size (sessions_dir m)) in
  (m, initial_count - final_count).

(** *** Persistence *)

(** [save_session]: [session] is [None] for the default argument. *)
Definition save_session (now : Clock) (session : option nat) (m : SessionManager)
    : SessionManager * bool :=
  let session :=
    match session with
    | Some l => Some l
    | None => current_session m
    end in
  match session ≫= fun l => objects m !! l with
  | None => (m, false)
  | Some s =>
      let file := {| content := Some s; st_mtime := instant now |} in
      let m := with_dir m (<[session_id s := file]> (sessions_dir m)) in
      (_cleanup_old_sessions (max_sessions m) m, true)
  end.

(** The [SessionState(...)] that [create_session] builds; [fresh_id] is
    [str(uuid.uuid4())[:8]]. *)
Definition new_session (now : Clock)
    (fresh_id scenario_id scenario_name player_name : string) : SessionState :=
  {| session_id := fresh_id; scenario_id := scenario_id;
     scenario_name := scenario_name; player_name := player_name;
     start_time := now; current_phase := "Initial Access";
     investigation_actions := []; evidence_discovered := [];
     theories_submitted := []; hints_used := 0; score_checkpoints := [];
     is_completed := false; completion_time := None; final_score := None;
     session_notes := "";
     metadata := {[ "created_at" := isoformat now; "version" := "1.0" ]} |}.

(** [create_session] *)
Definition create_session (now : Clock)
    (fresh_id scenario_id scenario_name player_name : string) (m : SessionManager)
    : SessionManager * nat :=
  let session := new_session now fresh_id scenario_id scenario_name player_name in
  let l := List.length (objects m) in
  let m := with_objects m (objects m ++ [session]) in
  let m := with_current m (Some l) in
  let m := with_cache m (<[fresh_id := l]> (_session_cache m)) in
  ((save_session now (Some l) m).1, l).

(** [load_session].  The content of a file is the state that was
    serialised into it, and the object made from a file is identified with
    that state: the model does not follow [_deserialize_datetimes], which
    turns the ISO time stamps inside the loaded lists and dictionaries
    (and any other string of that form) into [datetime] objects.  A loaded
    object is the saved state up to that conversion, and no property below
    compares the values inside a loaded object with those of the state
    that was saved. *)
Definition load_session (session_id : string) (m : SessionManager)
    : SessionManager * option nat :=
  match _session_cache m !! session_id with
  | Some l => (m, Some l)
  | None =>
      match sessions_dir m !! session_id with
      | None => (m, None)
      | Some file =>
          match content file with
          | None => (m, None)
          | Some session =>
              let l := List.length (objects m) in
              let m := with_objects m (objects m ++ [session]) in
              let m := with_cache m (<[session_id := l]> (_session_cache m)) in
              (m, Some l)
          end
      end
  end.

(** [delete_session] *)
Definition delete_session (session_id : string) (m : SessionManager)
    : SessionManager * bool :=
  match sessions_dir m !! session_id with
  | Some _ =>
      let m := with_dir m (delete session_id (sessions_dir m)) in
      let m := with_cache m (delete session_id (_session_cache m)) in
      let is_current :=
        match current_session m ≫= fun l => objects m !! l with
        | Some s => String.eqb (SessionMgr.session_id s) session_id
        | None => false
        end in
      ((if is_current then with_current m None else m), true)
  | None => (m, false)
  end.

(** [resume_session] *)
Definition resume_session (session_id : string) (m : SessionManager)
    : SessionManager * option nat :=
  let '(m, session) := load_session session_id m in
  match session with
  | None => (m, None)
  | Some l =>
      match objects m !! l with
      | None => (m, None)
      | Some s =>
          if is_completed s then (m, None)
          else (with_current m (Some l), Some l)
      end
  end.

(** *** Mutations of the current session *)

(** Apply [f] to the object that [current_session] names, then save. *)
Definition mutate_current (now : Clock) (f : SessionState -> SessionState)
    (m : SessionManager) : SessionManager * bool :=
  match current_session m with
  | None => (m, false)
  | Some l =>
      match objects m !! l with
      | None => (m, false)
      | Some s => save_session now None (with_objects m (<[l := f s]> (objects m)))
      end
  end.

(** [add_investigation_action] *)
Definition add_investigation_action (now : Clock) (action details : string)
    (m : SessionManager) : SessionManager * bool :=
  mutate_current now
    (fun s =>
       let action_entry : gmap string string :=
         {[ "timestamp" := isoformat now; "action" := action;
            "details" := details; "phase" := current_phase s ]} in
       set_investigation_actions s (investigation_actions s ++ [action_entry]))
    m.

(** The evidence dictionary after the time stamp has been set. *)
Definition stamped (now : Clock) (evidence : gmap string string)
    : gmap string string :=
  match evidence !! "discovered_at" with
  | Some _ => evidence
  | None => <["discovered_at" := isoformat now]> evidence
  end.

(** [add_evidence_discovered] *)
Definition add_evidence_discovered (now : Clock) (evidence : gmap string string)
    (m : SessionManager) : SessionManager * bool :=
  mutate_current now
    (fun s =>
       set_evidence_discovered s (evidence_discovered s ++ [stamped now evidence]))
    m.

(** [add_theory_submitted] *)
Definition add_theory_submitted (now : Clock) (theory : string)
    (m : SessionManager) : SessionManager * bool :=
  mutate_current now
    (fun s =>
       let theory_entry : gmap string string :=
         {[ "timestamp" := isoformat now; "theory" := theory;
            "phase" := current_phase s ]} in
       set_theories_submitted s (theories_submitted s ++ [theory_entry]))
    m.

(** [increment_hints_used] *)
Definition increment_hints_used (now : Clock) (m : SessionManager)
    : SessionManager * bool :=
  mutate_current now (fun s => set_hints_used s (hints_used s + 1)) m.

(** [set_current_phase] *)
Definition set_current_phase (now : Clock) (phase : string) (m : SessionManager)
    : SessionManager * bool :=
  mutate_current now (fun s => set_current_phase_of s phase) m.

(** [complete_session]; an empty [final_score] counts as none given. *)
Definition complete_session (now : Clock) (final_score : option (gmap string string))
    (m : SessionManager) : SessionManager * bool :=
  mutate_current now
    (fun s =>
       set_completed s true (Some now)
         match final_score with
         | Some score =>
             if decide (score = ∅) then SessionMgr.final_score s else Some score
         | None => SessionMgr.final_score s
         end)
    m.

(** *** Listing and age-based clean-up

    A file of the directory either decodes to a session, and then holds
    every key of a saved session, or cannot be read.  Instants count
    microseconds and are unbounded: the range of Python's [datetime] and
    [timedelta] is not modelled. *)

Definition microseconds_per_day : Z := 86400000000.

(** A summary as [list_sessions] builds it. *)
Record SessionListing : Type := {
  ls_session_id : string;
  ls_scenario_name : string;
  ls_player_name : string;
  ls_start_time : string;
  ls_is_completed : bool;
  actions_count : Z;
  evidence_count : Z;
  theories_count : Z;
}.

Definition listing_of (stem : string) (s : SessionState) : SessionListing :=
  {| ls_session_id := stem;
     ls_scenario_name := scenario_name s;
     ls_player_name := player_name s;
     ls_start_time := isoformat (start_time s);
     ls_is_completed := is_completed s;
     actions_count := Z.of_nat (List.length (investigation_actions s));
     evidence_count := Z.of_nat (List.length (evidence_discovered s));
     theories_count := Z.of_nat (List.length (theories_submitted s)) |}.

(** The body of the loop of [list_sessions] over the files. *)
Definition list_step (include_completed : bool) (sessions : list SessionListing)
    (entry : string * SessionFile) : list SessionListing :=
  match content entry.2 with
  | None => sessions
  | Some s =>
      if negb include_completed && is_completed s then sessions
      else sessions ++ [listing_of entry.1 s]
  end.

(** [sessions.sort(key=lambda x: x.get("start_time", ""), reverse=True)]:
    a stable sort on the start-time strings, latest first. *)
Fixpoint insert_latest_first (x : SessionListing) (l : list SessionListing)
    : list SessionListing :=
  match l with
  | [] => [x]
  | y :: rest =>
      if String.leb (ls_start_time y) (ls_start_time x) then x :: l
      else y :: insert_latest_first x rest
  end.

Definition sort_latest_first (l : list SessionListing) : list SessionListing :=
  List.fold_right insert_latest_first [] l.

(** [list_sessions] *)
Definition list_sessions (include_completed : bool) (m : SessionManager)
    : list SessionListing :=
  let sessions :=
    List.fold_left (list_step include_completed) (map_to_list (sessions_dir m)) [] in
  sort_latest_first sessions.

(** The test of [cleanup_old_sessions] on one file: a completed session
    with a start time before the cutoff. *)
Definition expired (cutoff : Z) (file : SessionFile) : bool :=
  match content file with
  | None => false
  | Some s =>
      is_completed s
      && PyStr.truthy (isoformat (start_time s))
      && (instant (start_time s) <? cutoff)
  end.

(** The body of the loop of [cleanup_old_sessions] over the files. *)
Definition age_step (cutoff : Z) (state : SessionManager * Z)
    (entry : string * SessionFile) : SessionManager * Z :=
  if expired cutoff entry.2
  then (with_dir state.1 (delete entry.1 (sessions_dir state.1)), state.2 + 1)
  else state.

(** [cleanup_old_sessions] *)
Definition cleanup_old_sessions (now : Clock) (days_old : Z) (m : SessionManager)
    : SessionManager * Z :=
  let cutoff_date := instant now - days_old * microseconds_per_day in
  List.fold_left (age_step cutoff_date) (map_to_list (sessions_dir m)) (m, 0).

End SessionMgr.

(** ** The evidence discovery resolver ([server/app.py]) *)

Module Resolver.

(** [action_mappings] *)
Definition action_mappings : list (string * list string) :=
  [ ("examine_logs",
     ["web_log"; "file_system_log"; "database_log"; "security_alert";
      "security_log"; "log"; "process"; "registry"; "memory"; "email"]);
    ("analyze_network", ["network_log"; "network"; "forensic"]);
    ("check_system",
     ["file_system_log"; "security_alert"; "process"; "registry"; "malware";
      "forensic"]);
    ("analyze_file", ["file_system_log"; "process"; "malware"; "forensic"]);
    ("search_database", ["database_log"; "log"; "report"]);
    ("contact_vendor", ["vendor_advisory"; "report"; "intelligence"]);
    ("interview_user", ["email"; "witness"; "report"]);
    ("run_command",
     ["file_system_log"; "security_alert"; "process"; "registry"; "forensic"]);
    ("other",
     ["web_log"; "network_log"; "security_alert"; "email"; "process";
      "registry"; "memory"; "network"; "lateral_movement"; "log"; "report";
      "malware"; "intelligence"; "forensic"]) ].

(** [action_mappings.get(action, ["security_alert"])] *)
Definition evidence_types_for (action : string) : list string :=
  match List.find (fun entry => String.eqb entry.1 action) action_mappings with
  | Some entry => entry.2
  | None => ["security_alert"]
  end.

(** The keyword groups of [check_evidence_keywords], each with the word
    of the evidence type that enables it. *)
Definition type_keywords : list (string * list string) :=
  [ ("email", ["email"; "phishing"; "attachment"; "mail"; "message"; "sender"]);
    ("process", ["powershell"; "cmd"; "process"; "execution"; "command"; "script"]);
    ("network", ["network"; "traffic"; "connection"; "ip"; "domain"; "dns"]);
    ("registry", ["registry"; "hklm"; "hkcu"; "run"; "startup"; "persistence"]);
    ("memory", ["memory"; "lsass"; "dump"; "credential"; "hash"]);
    ("lateral_movement", ["smb"; "admin$"; "c$"; "wmi"; "lateral"; "movement"]);
    ("log", ["log"; "event"; "audit"; "system"; "security"; "application"]);
    ("report", ["report"; "analysis"; "summary"; "findings"; "investigation"]);
    ("malware", ["malware"; "virus"; "trojan"; "backdoor"; "payload"; "sample"]);
    ("intelligence",
     ["intelligence"; "ioc"; "indicator"; "threat"; "attribution"; "campaign"]);
    ("forensic",
     ["forensic"; "analysis"; "artifact"; "evidence"; "timeline"; "investigation"]) ].

(** [check_evidence_keywords] *)
Definition check_evidence_keywords
    (details : string) (evidence_item : gmap string string) : bool :=
  let details_lower := PyStr.lower details in
  let evidence_content := PyStr.lower (dict_get evidence_item "content" "") in
  let evidence_description :=
    PyStr.lower (dict_get evidence_item "description" "") in
  let evidence_type := PyStr.lower (dict_get evidence_item "type" "") in
  let keywords : list string :=
    List.concat
      (List.map
         (fun group =>
            if PyStr.contains group.1 evidence_type then group.2 else [])
         type_keywords) in
  let keywords :=
    if PyStr.contains "sql" evidence_description
       || PyStr.contains "sql" evidence_content
    then keywords ++ ["sql"; "injection"; "database"] else keywords in
  let keywords :=
    if PyStr.contains "web shell" evidence_description
       || PyStr.contains "aspx" evidence_content
    then keywords ++ ["web shell"; "file"; "aspx"; "php"] else keywords in
  let keywords :=
    if PyStr.contains "vendor" (PyStr.lower (dict_get evidence_item "source" ""))
    then keywords ++ ["vendor"; "advisory"; "bulletin"; "patch"] else keywords in
  let keywords :=
    if PyStr.contains "hvac" (PyStr.lower evidence_description)
       || PyStr.contains "hvac" evidence_content
    then keywords ++ ["hvac"; "cooling"; "heating"; "vendor"; "third-party"]
    else keywords in
  PyStr.any_in keywords details_lower.

(** [base_chance.get(importance, 0.4)] *)
Definition base_chance (importance : string) : Q :=
  if String.eqb importance "critical" then 8 # 10
  else if String.eqb importance "high" then 6 # 10
  else if String.eqb importance "medium" then 4 # 10
  else if String.eqb importance "low" then 2 # 10
  else 4 # 10.

(** [calculate_discovery_chance] *)
Definition calculate_discovery_chance
    (evidence_item : gmap string string) (keywords_match : bool) : Q :=
  let importance := dict_get evidence_item "importance" "medium" in
  let chance := base_chance importance in
  if keywords_match then PyNum.min (95 # 100) (chance + (3 # 10))%Q else chance.

(** The truthy ids of the evidence already discovered. *)
Definition discovered_ids (evidence_discovered : list (gmap string string))
    : gset string :=
  list_to_set
    (List.filter PyStr.truthy
       (omap (fun ev : gmap string string => ev !! "id") evidence_discovered)).

(** [x in ids] for the result of a [.get] without default. *)
Definition in_ids (x : option string) (ids : gset string) : bool :=
  match x with
  | Some i => bool_decide (i ∈ ids)
  | None => false
  end.

Definition in_types (x : option string) (types : list string) : bool :=
  match x with
  | Some t => existsb (String.eqb t) types
  | None => false
  end.

(** The dictionary returned for a discovered item. *)
Definition formatted_evidence (now : SessionMgr.Clock)
    (already : nat) (evidence_item : gmap string string) : gmap string string :=
  {[ "id" := dict_get evidence_item "id"
               ("ev_" +:+ PyNum.str (Z.of_nat already + 1));
     "type" := dict_get evidence_item "type" "unknown";
     "source" := dict_get evidence_item "source" "unknown";
     "importance" := dict_get evidence_item "importance" "medium";
     "description" := dict_get evidence_item "description" "No description available";
     "content" := dict_get evidence_item "content" "No content available";
     "discovered_at" := SessionMgr.isoformat now ]}.

(** The loop of [check_for_evidence_discovery] over the scenario's items.
    [draws] is the sequence of values that [random.random()] returns and
    [i] the number of values consumed so far. *)
Fixpoint discovery_loop (now : SessionMgr.Clock) (draws : nat -> Q)
    (details : string) (evidence_types : list string) (ids : gset string)
    (already : nat) (items : list (gmap string string)) (i : nat)
    : option (gmap string string) :=
  match items with
  | [] => None
  | evidence_item :: rest =>
      let evidence_id := evidence_item !! "id" in
      let evidence_type := evidence_item !! "type" in
      if in_ids evidence_id ids
      then discovery_loop now draws details evidence_types ids already rest i
      else if in_types evidence_type evidence_types
      then
        let keywords_match := check_evidence_keywords details evidence_item in
        let discovery_chance :=
          calculate_discovery_chance evidence_item keywords_match in
        if PyNum.lt (draws i) discovery_chance
        then Some (formatted_evidence now already evidence_item)
        else discovery_loop now draws details evidence_types ids already rest (S i)
      else discovery_loop now draws details evidence_types ids already rest i
  end.

(** [check_for_evidence_discovery] *)
Definition check_for_evidence_discovery (now : SessionMgr.Clock)
    (draws : nat -> Q) (action details : string)
    (scenario : Scorer.Scenario) (game_session : SessionMgr.SessionState)
    : option (gmap string string) :=
  match Scorer.evidence_items scenario with
  | [] => None
  | items =>
      let ids := discovered_ids (SessionMgr.evidence_discovered game_session) in
      let evidence_types := evidence_types_for action in
      discovery_loop now draws details evidence_types ids
        (List.length (SessionMgr.evidence_discovered game_session)) items 0
  end.

End Resolver.

(** ** Vocabulary of the statements *)

Import SessionMgr Resolver.

(** The number of the generic theory elements that a theory text mentions. *)
Definition mentioned_elements (theory : gmap string string) : nat :=
  PyStr.count_in Scorer.theory_elements (PyStr.lower (dict_get theory "theory" "")).

Definition component_names : list string := Scorer.components.*1.

(** Every component of the rubric is present and longer than 50 characters. *)
Definition all_components_detailed (t : gmap string string) : Prop :=
  forall c, In c component_names ->
    exists s, t !! c = Some s /\ 50 < PyStr.len s.

(** The same, and no component consists of white space only. *)
Definition all_components_detailed_nonblank (t : gmap string string) : Prop :=
  forall c, In c component_names ->
    exists s, t !! c = Some s /\ 50 < PyStr.len s /\ PyStr.strip s <> "".

(** The breakdown returned when no theory was submitted. *)
Definition no_theories_breakdown : Scorer.ScoreBreakdown :=
  {| Scorer.category := Scorer.THEORY_ACCURACY;
     Scorer.points_earned := 0;
     Scorer.points_possible := 100;
     Scorer.feedback := "No theories submitted for evaluation.";
     Scorer.details := ["No theories submitted"] |}.

(** The five phases of the incident-response methodology. *)
Definition all_phases : gset string :=
  {[ "identification"; "containment"; "eradication"; "recovery"; "lessons_learned" ]}.

(** One file is at least as recent as another. *)
Definition newer_first (a b : string * Z) : Prop := b.2 <= a.2.

(** [after] keeps the [k] most recently modified files of [before]: it is
    a part of [before] with [min k (size before)] files, and no file it
    drops is more recent than a file it keeps. *)
Definition retained (k : Z) (before after : gmap string SessionFile) : Prop :=
  after ⊆ before
  /\ Z.of_nat (size after) = Z.min k (Z.of_nat (size before))
  /\ forall kept f dropped f',
       after !! kept = Some f -> before !! dropped = Some f' ->
       after !! dropped = None -> st_mtime f' <= st_mtime f.

(** Creates and saves, and sequences of them. *)
Inductive Op : Type :=
  | Create (now : Clock) (fresh_id scenario_id scenario_name player_name : string)
  | Save (now : Clock) (session : option nat).

Definition apply_op (m : SessionManager) (op : Op) : SessionManager :=
  match op with
  | Create now fresh_id scenario_id scenario_name player_name =>
      (create_session now fresh_id scenario_id scenario_name player_name m).1
  | Save now session => (save_session now session m).1
  end.

Definition run (ops : list Op) (m : SessionManager) : SessionManager :=
  List.fold_left apply_op ops m.

(** The directory once the operation has written its file and before the
    clean-up runs; [None] when the operation writes nothing. *)
Definition written (op : Op) (m : SessionManager) : option (gmap string SessionFile) :=
  match op with
  | Create now fresh_id scenario_id scenario_name player_name =>
      let s := new_session now fresh_id scenario_id scenario_name player_name in
      Some (<[fresh_id := {| content := Some s; st_mtime := instant now |}]>
              (sessions_dir m))
  | Save now session =>
      match (match session with Some l => Some l | None => current_session m end)
            ≫= fun l => objects m !! l with
      | Some s =>
          Some (<[session_id s := {| content := Some s; st_mtime := instant now |}]>
                  (sessions_dir m))
      | None => None
      end
  end.

(** The object that [current_session] names. *)
Definition current_object (m : SessionManager) : option SessionState :=
  current_session m ≫= fun l => objects m !! l.

(** The ids of the entries of a session's discovered-evidence list. *)
Definition evidence_ids (s : SessionState) : list string :=
  omap (fun ev : gmap string string => ev !! "id") (evidence_discovered s).

(** A sequence of calls of [add_evidence_discovered]. *)
Definition add_all (calls : list (Clock * gmap string string)) (m : SessionManager)
    : SessionManager :=
  List.fold_left (fun m call => (add_evidence_discovered call.1 call.2 m).1) calls m.

(** The session that [load_session] serves under an id: the cached
    object, or else the one made from the file. *)
Definition stored (m : SessionManager) (sid : string) : option SessionState :=
  match _session_cache m !! sid with
  | Some l => objects m !! l
  | None => sessions_dir m !! sid ≫= content
  end.

(** An evidence item is a candidate when it is not yet discovered and its
    type is accepted for the action. *)
Definition eligible (ids : gset string) (evidence_types : list string)
    (item : gmap string string) : bool :=
  negb (in_ids (item !! "id") ids) && in_types (item !! "type") evidence_types.

(** The candidates of a call, in the scenario's declared order. *)
Definition candidates (action : string) (scenario : Scorer.Scenario)
    (game_session : SessionState) : list (gmap string string) :=
  List.filter
    (eligible (discovered_ids (evidence_discovered game_session))
              (evidence_types_for action))
    (Scorer.evidence_items scenario).

(** The [i]-th draw reveals the item. *)
Definition succeeds (draws : nat -> Q) (details : string) (i : nat)
    (item : gmap string string) : bool :=
  PyNum.lt (draws i)
    (calculate_discovery_chance item (check_evidence_keywords details item)).

(** The session has a non-zero total time and the scenario an estimated
    duration of zero. *)
Definition zero_division (scenario : Scorer.Scenario) (session : Scorer.SessionData)
    : Prop :=
  exists t d,
    Scorer.truthy_number (Scorer.total_time session) = Some t
    /\ Scorer.estimated_duration scenario = Some d
    /\ (d == 0)%Q.

(** The breakdowns of a session, given the time-efficiency breakdown. *)
Definition session_breakdowns (float_repr : Q -> string)
    (scenario : Scorer.Scenario)
    (session : Scorer.SessionData) (b4 : Scorer.ScoreBreakdown)
    : list Scorer.ScoreBreakdown :=
  [ Scorer._score_investigation_technique scenario session;
    Scorer._score_evidence_analysis scenario session;
    Scorer._score_theory_accuracy float_repr scenario session;
    b4;
    Scorer._score_completeness scenario session;
    Scorer._score_methodology scenario session ].

(** The percentage that [score_theory] computes from a total, the
    possible points being 100: the float [(total / 100) * 100]. *)
Definition theory_percentage (total : Z) : Q :=
  PyNum.float_value
    (PyNum.float_mul
       (SpecFloat.SFdiv 53 1024 (PyNum.float_of_int total) (PyNum.float_of_int 100))
       (PyNum.float_of_int 100)).

(** The totals below 90 at which that float is not the total itself. *)
Definition inexact_totals : list Z := [7; 14; 28; 29; 55; 56; 57; 58].

(** A theory whose only component is a brief time line. *)
Definition brief_timeline : gmap string string := {[ "timeline" := "Monday to Friday" ]}.

(** The entry of the strengths or improvements list for a category. *)
Definition category_label (prefix : string) (b : Scorer.ScoreBreakdown) : string :=
  prefix +:+ PyStr.replace_char "_"%char " "%char (Scorer.value (Scorer.category b)).

(** Calls of the session manager, and sequences of them. *)
Inductive Call : Type :=
  | DoCreate (now : Clock) (fresh_id scenario_id scenario_name player_name : string)
  | DoSave (now : Clock) (session : option nat)
  | DoLoad (sid : string)
  | DoResume (sid : string)
  | DoDelete (sid : string)
  | DoAddAction (now : Clock) (action details : string)
  | DoAddEvidence (now : Clock) (evidence : gmap string string)
  | DoAddTheory (now : Clock) (theory : string)
  | DoHint (now : Clock)
  | DoPhase (now : Clock) (phase : string)
  | DoComplete (now : Clock) (final_score : option (gmap string string))
  | DoCleanup (limit : option Z).

Definition do_call (m : SessionManager) (c : Call) : SessionManager :=
  match c with
  | DoCreate now fresh_id scenario_id scenario_name player_name =>
      (create_session now fresh_id scenario_id scenario_name player_name m).1
  | DoSave now session => (save_session now session m).1
  | DoLoad sid => (load_session sid m).1
  | DoResume sid => (resume_session sid m).1
  | DoDelete sid => (delete_session sid m).1
  | DoAddAction now action details => (add_investigation_action now action details m).1
  | DoAddEvidence now evidence => (add_evidence_discovered now evidence m).1
  | DoAddTheory now theory => (add_theory_submitted now theory m).1
  | DoHint now => (increment_hints_used now m).1
  | DoPhase now phase => (set_current_phase now phase m).1
  | DoComplete now final_score => (complete_session now final_score m).1
  | DoCleanup limit => (cleanup_sessions limit m).1
  end.

Definition do_calls (calls : list Call) (m : SessionManager) : SessionManager :=
  List.fold_left do_call calls m.

(** Every cached session id has a file. *)
Definition cache_backed (m : SessionManager) : Prop :=
  forall sid l, _session_cache m !! sid = Some l -> is_Some (sessions_dir m !! sid).

(** [s'] is a later state of the session object [s]: the identity is the
    same, the three ledgers have only been appended to, the hint counter
    has not decreased and a completion has not been undone. *)
Definition extends (s s' : SessionState) : Prop :=
  session_id s' = session_id s
  /\ scenario_id s' = scenario_id s
  /\ scenario_name s' = scenario_name s
  /\ player_name s' = player_name s
  /\ start_time s' = start_time s
  /\ investigation_actions s `prefix_of` investigation_actions s'
  /\ evidence_discovered s `prefix_of` evidence_discovered s'
  /\ theories_submitted s `prefix_of` theories_submitted s'
  /\ hints_used s <= hints_used s'
  /\ (is_completed s = true -> is_completed s' = true).

(** The files that [list_sessions] reports, before sorting. *)
Definition listed (include_completed : bool) (entry : string * SessionFile)
    : option SessionListing :=
  match content entry.2 with
  | None => None
  | Some s =>
      if negb include_completed && is_completed s then None
      else Some (listing_of entry.1 s)
  end.

(** One listing starts no earlier than another, by the start-time strings. *)
Definition latest_first (a b : SessionListing) : Prop :=
  String.leb (ls_start_time b) (ls_start_time a) = true.

(** Every object of [m] is still an object of [m'], in a later state. *)
Definition grows (m m' : SessionManager) : Prop :=
  forall l s, objects m !! l = Some s ->
    exists s', objects m' !! l = Some s' /\ extends s s'.

(** The object that [save_session] writes: the one given, or else the
    current one. *)
Definition saved_object (session : option nat) (m : SessionManager)
    : option SessionState :=
  (match session with Some l => Some l | None => current_session m end)
  ≫= fun l => objects m !! l.

(** ** Example inputs *)

Definition at_time (n : Z) : Clock :=
  {| instant := n; isoformat := "2025-06-06T10:30:00" |}.

(** A response of 54 characters. *)
Definition detailed_text : string :=
  "The attacker sent a phishing mail to the finance team.".

Definition detailed_theory : gmap string string :=
  {[ "initial_access" := detailed_text; "techniques_used" := detailed_text;
     "timeline" := detailed_text; "objective" := detailed_text;
     "attribution" := detailed_text; "impact" := detailed_text;
     "additional_iocs" := detailed_text ]}.

Definition plain_scenario : Scorer.Scenario :=
  {| Scorer.evidence_items := []; Scorer.solution := None;
     Scorer.estimated_duration := None;
     Scorer.required_investigation_areas := [] |}.

Definition step (action details : string) : gmap string string :=
  {[ "action" := action; "details" := details ]}.

(** Five documented actions, one for each phase of the methodology. *)
Definition methodical_session : Scorer.SessionData :=
  {| Scorer.investigation_actions :=
       [ step "identify the affected hosts" "looked at the alert queue of the SOC";
         step "contain the mail server" "isolated the host from the network";
         step "eradicate the implant" "removed the scheduled task and binary";
         step "recover the service" "restored the mailbox store from backup";
         step "lessons learned" "reviewed the timeline with the whole team" ];
     Scorer.evidence_discovered := [];
     Scorer.theories_submitted := [];
     Scorer.total_time := None;
     Scorer.evidence_correlations := [];
     Scorer.evidence_interpretations := [];
     Scorer.areas_investigated := [];
     Scorer.critical_evidence_found := [] |}.

(** A scenario whose estimated duration is zero, and a session that took
    sixty seconds. *)
Definition zero_duration_scenario : Scorer.Scenario :=
  {| Scorer.evidence_items := []; Scorer.solution := None;
     Scorer.estimated_duration := Some 0%Q;
     Scorer.required_investigation_areas := [] |}.

Definition timed_session : Scorer.SessionData :=
  {| Scorer.investigation_actions := [];
     Scorer.evidence_discovered := [];
     Scorer.theories_submitted := [];
     Scorer.total_time := Some 60%Q;
     Scorer.evidence_correlations := [];
     Scorer.evidence_interpretations := [];
     Scorer.areas_investigated := [];
     Scorer.critical_evidence_found := [] |}.

Definition plain_repr (x : Q) : string := "".

(** A manager over an empty directory in which one session was created. *)
Definition first_state : SessionState :=
  new_session (at_time 1) "0a1b2c3d" "S1" "Phishing at the bank" "Player".

Definition one_session : SessionManager :=
  (create_session (at_time 1) "0a1b2c3d" "S1" "Phishing at the bank" "Player"
     (init ∅ 10)).1.

Definition evidence_E1 : gmap string string := {[ "id" := "E1"; "type" := "email" ]}.

Definition twice_E1 : list (Clock * gmap string string) :=
  [ (at_time 2, evidence_E1); (at_time 3, evidence_E1) ].

(** The manager after a manual clean-up under a limit of 0, which removes
    the file and the cache entry of the session that is still current;
    after one more action and a load of the session; and after its
    completion. *)
Definition evicted_manager : SessionManager :=
  (cleanup_sessions (Some 0) one_session).1.

Definition reloaded_manager : SessionManager :=
  (load_session "0a1b2c3d"
     (add_investigation_action (at_time 2) "examine_logs" "looked at the proxy logs"
        evicted_manager).1).1.

Definition stale_manager : SessionManager :=
  (complete_session (at_time 5) None reloaded_manager).1.

(** The same manager once the session has been completed. *)
Definition finished_manager : SessionManager :=
  (complete_session (at_time 5) None one_session).1.

Definition finished_state : SessionState :=
  set_completed first_state true (Some (at_time 5)) None.

(** Three creations under a limit of two sessions. *)
Definition small_manager : SessionManager := init ∅ 2.

Definition three_creates : list Op :=
  [ Create (at_time 1) "aaaa0001" "S1" "Phishing at the bank" "Player";
    Create (at_time 2) "aaaa0002" "S1" "Phishing at the bank" "Player";
    Create (at_time 3) "aaaa0003" "S1" "Phishing at the bank" "Player" ].

(** Fifteen session files, the [i]-th modified [i] hours before the first. *)
Definition test_file (i : Z) : SessionFile :=
  {| content := None; st_mtime := 1000 - i |}.

Definition recent_ten : list string :=
  [ "test_session_00"; "test_session_01"; "test_session_02"; "test_session_03";
    "test_session_04"; "test_session_05"; "test_session_06"; "test_session_07";
    "test_session_08"; "test_session_09" ].

Definition oldest_five : list string :=
  [ "test_session_10"; "test_session_11"; "test_session_12"; "test_session_13";
    "test_session_14" ].

Definition fifteen_files : gmap string SessionFile :=
  list_to_map
    (imap (fun i name => (name, test_file (Z.of_nat i))) (recent_ten ++ oldest_five)).

(** Two mails of critical importance, and a sequence of draws whose first
    value is 0.99 and whose later values are 0.0. *)
Definition mail (id : string) : gmap string string :=
  {[ "id" := id; "type" := "email"; "importance" := "critical" ]}.

Definition two_mails : Scorer.Scenario :=
  {| Scorer.evidence_items := [mail "E1"; mail "E2"];
     Scorer.solution := None;
     Scorer.estimated_duration := None;
     Scorer.required_investigation_areas := [] |}.

Definition miss_then_hit (i : nat) : Q :=
  match i with
  | O => 99 # 100
  | S _ => 0
  end.

(** A session that is created and receives one piece of evidence. *)
Definition played : list Call :=
  [ DoCreate (at_time 1) "0a1b2c3d" "S1" "Phishing at the bank" "Player";
    DoAddEvidence (at_time 2) evidence_E1 ].

(** A session that receives evidence, is completed and is then deleted. *)
Definition played_out : list Call :=
  [ DoAddEvidence (at_time 2) evidence_E1;
    DoComplete (at_time 5) None;
    DoDelete "0a1b2c3d" ].

(** A manager started over the directory that [one_session] has written. *)
Definition reopened : SessionManager := init (sessions_dir one_session) 10.

(** A manager over the fifteen files, with a limit of ten. *)
Definition crowded : SessionManager := init fifteen_files 10.

(** Random values that are all 1.0, and all 0.0. *)
Definition all_misses (i : nat) : Q := 1.
Definition all_hits (i : nat) : Q := 0.

(** The evidence returned for the first mail, and a session in which both
    mails have been discovered. *)
Definition found_E1 : gmap string string :=
  formatted_evidence (at_time 2) 0 (mail "E1").

Definition both_found : SessionState :=
  set_evidence_discovered first_state [mail "E1"; mail "E2"].

(** ** Properties of the scoring engine *)

Section Grades.

(** In any table, the first threshold that the percentage reaches decides
    the grade. *)
Lemma grade_loop_first_match (items : list (Z * string)) (p : Q) (i : nat) t g :
  items !! i = Some (t, g) ->
  (inject_Z t <= p)%Q ->
  (forall j t' g', (j < i)%nat -> items !! j = Some (t', g') ->
     ~ (inject_Z t' <= p)%Q) ->
  Scorer.grade_loop items p = g.
Proof.
  revert i. induction items as [|[t0 g0] rest IH]; intros i Hi Hle Hbefore.
  - discriminate.
  - simpl. unfold PyNum.ge. destruct i as [|i].
    + simpl in Hi. injection Hi as -> ->.
      apply Qle_bool_iff in Hle. by rewrite Hle.
    + destruct (Qle_bool (inject_Z t0) p) eqn:E.
      * exfalso. apply (Hbefore 0%nat t0 g0); [lia | done | by apply Qle_bool_iff].
      * apply (IH i); [done | done |].
        intros j t' g' Hj Hlk. apply (Hbefore (S j) t' g'); [lia | done].
Qed.

(** No threshold reached: the grade is F. *)
Lemma grade_loop_no_match (items : list (Z * string)) (p : Q) :
  Forall (fun item => ~ (inject_Z item.1 <= p)%Q) items ->
  Scorer.grade_loop items p = "F".
Proof.
  induction 1 as [|[t g] rest Hnot _ IH]; [reflexivity |].
  simpl. unfold PyNum.ge. destruct (Qle_bool (inject_Z t) p) eqn:E; [| exact IH].
  apply Qle_bool_iff in E. by destruct Hnot.
Qed.

(** C7: the letter grade is found by checking the thresholds 90, 85, 80,
    75, 70, 65, 60, 55, 50, 45, 40 from the highest to the lowest, the first
    one reached deciding (A+, A, A-, B+, B, B-, C+, C, C-, D+, D) and F
    otherwise; a percentage of exactly 90 gives A+ and 89.999 gives A. *)
Theorem calculate_grade_thresholds (p : Q) :
  Scorer._calculate_grade p = Scorer.grade_by_thresholds p
  /\ Scorer._calculate_grade 90 = "A+"
  /\ Scorer._calculate_grade (89999 # 1000) = "A".
Proof.
  split; [| split; reflexivity].
  unfold Scorer._calculate_grade, Scorer.grade_by_thresholds, Scorer.grade_thresholds.
  cbn [Scorer.grade_loop]. unfold PyNum.ge, inject_Z.
  repeat match goal with
         | |- context [Qle_bool ?a p] => destruct (Qle_bool a p); try reflexivity
         end.
Qed.

End Grades.

Section TheoryAccuracy.

(** C5, as the claim states it, fails: without a solution block a theory
    that mentions the timeline and the impact scores 7.5, not 0. *)
Lemma accuracy_without_solution_nonzero :
  ~ (Scorer._evaluate_theory_accuracy {[ "theory" := "Timeline of the impact" ]}
       Scorer.no_solution == 0)%Q.
Proof. vm_compute. discriminate. Qed.

(** C5, amended: without a solution block [_evaluate_theory_accuracy]
    returns 15/4 for each of the four generic elements (timeline,
    motivation, impact, technique) that the lower-cased theory text
    mentions, hence at most 15, and 0 exactly when it mentions none. *)
Theorem accuracy_without_solution (theory : gmap string string) :
  (Scorer._evaluate_theory_accuracy theory Scorer.no_solution
   == PyNum.of_nat (mentioned_elements theory) * (15 # 4))%Q
  /\ (mentioned_elements theory <= 4)%nat
  /\ ((Scorer._evaluate_theory_accuracy theory Scorer.no_solution == 0)%Q
      <-> mentioned_elements theory = 0%nat).
Proof.
  unfold Scorer._evaluate_theory_accuracy, mentioned_elements.
  cbn [Scorer.no_solution Scorer.attack_type Scorer.attack_vector
       Scorer.key_indicators PyStr.lower PyStr.truthy andb List.map].
  set (text := PyStr.lower (dict_get theory "theory" "")).
  unfold PyStr.count_in, Scorer.theory_elements.
  cbn [List.filter].
  destruct (PyStr.contains "timeline" text), (PyStr.contains "motivation" text),
    (PyStr.contains "impact" text), (PyStr.contains "technique" text);
    vm_compute; (split; [reflexivity | split; [lia | split; congruence]]).
Qed.

End TheoryAccuracy.

Section QuickScore.

Lemma component_score_detailed (t : gmap string string) c mx s :
  t !! c = Some s -> 50 < PyStr.len s -> PyStr.strip s <> "" ->
  Scorer.component_score t c mx = PyNum.int (inject_Z mx * (9 # 10)).
Proof.
  intros Hc Hlen Hstrip.
  unfold Scorer.component_score, Scorer.filled, dict_get. rewrite Hc.
  destruct (PyStr.strip s) eqn:E; [done |]. cbn [PyStr.truthy].
  apply Z.ltb_lt in Hlen. by rewrite Hlen.
Qed.

(** A component that is blank earns nothing, whatever its length. *)
Lemma component_score_blank (t : gmap string string) c mx s :
  t !! c = Some s -> PyStr.strip s = "" -> Scorer.component_score t c mx = 0.
Proof.
  intros Hc Hstrip. unfold Scorer.component_score, Scorer.filled.
  by rewrite Hc, Hstrip.
Qed.

Lemma score_components_detailed (t : gmap string string) :
  all_components_detailed_nonblank t ->
  Scorer.score_components t Scorer.components 0 [] =
    (89, [ ("initial_access", 18); ("techniques_used", 18); ("timeline", 13);
           ("objective", 13); ("attribution", 9); ("impact", 9);
           ("additional_iocs", 9) ]).
Proof.
  intros H. unfold Scorer.components. cbn [Scorer.score_components].
  assert (Hall : forall c mx, In c component_names ->
            Scorer.component_score t c mx = PyNum.int (inject_Z mx * (9 # 10))).
  { intros c mx Hc. destruct (H c Hc) as (s & ? & ? & ?).
    by apply (component_score_detailed t c mx s). }
  rewrite !Hall by (unfold component_names, Scorer.components; cbn; tauto).
  reflexivity.
Qed.

(** C3, as the claim states it, fails: seven components of 54 characters
    each give a total of 89, not 90. *)
Lemma detailed_theory_total_not_90 :
  all_components_detailed detailed_theory
  /\ exists r, Scorer.score_theory {| Scorer.theory := Some detailed_theory |} = Ok r
       /\ Scorer.total_score r = 89
       /\ Scorer.total_score r <> 90.
Proof.
  split.
  - intros c Hc. exists detailed_text.
    repeat destruct Hc as [<- | Hc]; try (split; reflexivity). destruct Hc.
  - eexists. split; [vm_compute; reflexivity |].
    split; [reflexivity | vm_compute; discriminate].
Qed.

(** C3, amended: when all seven rubric components are present, longer than
    50 characters and not blank, [score_theory] returns a total of 89
    (18 + 18 + 13 + 13 + 9 + 9 + 9, the 90% of each component truncated to
    an integer), the percentage 89, the grade A and the performance level
    Excellent. *)
Theorem score_theory_detailed (t : gmap string string) :
  all_components_detailed_nonblank t ->
  exists r, Scorer.score_theory {| Scorer.theory := Some t |} = Ok r
    /\ Scorer.total_score r = 89
    /\ (Scorer.ts_percentage r == 89)%Q
    /\ Scorer.grade r = "A"
    /\ Scorer.performance_level r = "Excellent".
Proof.
  intros H. unfold Scorer.score_theory. cbn [Scorer.theory mbind Res_bind].
  rewrite (score_components_detailed t H).
  eexists. split; [reflexivity |].
  cbn [Scorer.total_score Scorer.ts_percentage Scorer.grade Scorer.performance_level].
  repeat split; reflexivity.
Qed.

Lemma score_theory_detailed_witness :
  all_components_detailed_nonblank detailed_theory
  /\ exists r, Scorer.score_theory {| Scorer.theory := Some detailed_theory |} = Ok r
       /\ Scorer.total_score r = 89
       /\ (Scorer.ts_percentage r == 89)%Q
       /\ Scorer.grade r = "A"
       /\ Scorer.performance_level r = "Excellent".
Proof.
  assert (H : all_components_detailed_nonblank detailed_theory).
  { intros c Hc. exists detailed_text.
    repeat destruct Hc as [<- | Hc];
      try (split; [reflexivity | split; [reflexivity | discriminate]]).
    destruct Hc. }
  split; [exact H | exact (score_theory_detailed detailed_theory H)].
Defined.

End QuickScore.

Section GameSession.

Lemma bind_Ok_inv {A B} (r : Res A) (k : A -> Res B) (y : B) :
  r ≫= k = Ok y -> exists a, r = Ok a /\ k a = Ok y.
Proof. destruct r as [a|e]; [eauto | discriminate]. Qed.

Variable float_repr : Q -> string.

(** The six breakdowns of a session score, in the order of the source. *)
Lemma score_game_session_breakdowns scenario session g :
  Scorer.score_game_session float_repr scenario session = Ok g ->
  exists b4,
    Scorer._score_time_efficiency scenario session = Ok b4
    /\ Scorer.breakdowns g =
         [ Scorer._score_investigation_technique scenario session;
           Scorer._score_evidence_analysis scenario session;
           Scorer._score_theory_accuracy float_repr scenario session;
           b4;
           Scorer._score_completeness scenario session;
           Scorer._score_methodology scenario session ].
Proof.
  unfold Scorer.score_game_session. intros H.
  apply bind_Ok_inv in H as (b4 & Hb4 & H).
  exists b4. split; [exact Hb4 |].
  destruct (Scorer.weighted_totals _ _ _) as [total possible].
  apply bind_Ok_inv in H as (p & _ & H).
  apply bind_Ok_inv in H as ([[overall strong] weak] & _ & H).
  apply bind_Ok_inv in H as (rating & _ & H).
  injection H as <-. reflexivity.
Qed.

(** C8: when the session has submitted no theory, the theory-accuracy
    category is the fixed breakdown with 0 points of 100 and the feedback
    "No theories submitted for evaluation.", both as returned by
    [_score_theory_accuracy] and as the third breakdown of the session
    score; no accuracy is computed. *)
Theorem no_theories_zero_breakdown scenario session :
  Scorer.theories_submitted session = [] ->
  Scorer._score_theory_accuracy float_repr scenario session = no_theories_breakdown
  /\ forall g, Scorer.score_game_session float_repr scenario session = Ok g ->
       Scorer.breakdowns g !! 2%nat = Some no_theories_breakdown.
Proof.
  intros Hnone.
  assert (Hb : Scorer._score_theory_accuracy float_repr scenario session
               = no_theories_breakdown).
  { unfold Scorer._score_theory_accuracy. by rewrite Hnone. }
  split; [exact Hb |].
  intros g Hg. apply score_game_session_breakdowns in Hg as (b4 & _ & ->).
  cbn. by rewrite Hb.
Qed.

End GameSession.

Lemma no_theories_zero_breakdown_witness :
  Scorer.theories_submitted methodical_session = []
  /\ Scorer._score_theory_accuracy plain_repr plain_scenario methodical_session
     = no_theories_breakdown
  /\ forall g,
       Scorer.score_game_session plain_repr plain_scenario methodical_session = Ok g ->
       Scorer.breakdowns g !! 2%nat = Some no_theories_breakdown.
Proof.
  split; [reflexivity |].
  apply (no_theories_zero_breakdown plain_repr plain_scenario methodical_session).
  reflexivity.
Defined.

Section Methodology.

Lemma action_phase_known action phase :
  Scorer.action_phase action = Some phase -> phase ∈ all_phases.
Proof.
  unfold Scorer.action_phase, all_phases.
  repeat case_match; intros Hphase; inversion Hphase; set_solver.
Qed.

Lemma phases_loop_subseteq actions (covered : gset string) :
  Scorer.phases_loop actions covered ⊆ covered ∪ all_phases.
Proof.
  revert covered. induction actions as [|action rest IH]; intros covered.
  - cbn. apply union_subseteq_l.
  - cbn [Scorer.phases_loop]. destruct (Scorer.action_phase action) as [phase|] eqn:E.
    + apply action_phase_known in E. intros x Hx. apply IH in Hx.
      rewrite !elem_of_union in Hx. rewrite elem_of_union.
      destruct Hx as [[Hx | Hx] | Hx]; [| left; exact Hx | right; exact Hx].
      apply elem_of_singleton in Hx. subst x. right; exact E.
    + apply IH.
Qed.

Lemma phases_covered_at_most_five actions :
  (size (Scorer.phases_loop actions ∅) <= 5)%nat.
Proof.
  change 5%nat with (size all_phases).
  apply subseteq_size. etrans; [apply phases_loop_subseteq |].
  apply union_least; [apply empty_subseteq | reflexivity].
Qed.

Lemma methodology_at_most_120 scenario session :
  Scorer.points_earned (Scorer._score_methodology scenario session) <= 120
  /\ Scorer.points_possible (Scorer._score_methodology scenario session) = 100.
Proof.
  unfold Scorer._score_methodology.
  pose proof (phases_covered_at_most_five (Scorer.investigation_actions session)) as H5.
  repeat case_match; cbn [Scorer.points_earned Scorer.points_possible];
    repeat match goal with H : (_, _) = (_, _) |- _ => injection H as <- <- end;
    (split; [lia | reflexivity]).
Qed.

(** C9: there is a session (five actions, one for each phase of the
    methodology, each with details of more than 20 characters) whose
    methodology breakdown, also as the sixth breakdown of the session
    score, has 120 points earned of 100 possible; and 120 is the most that
    any session earns in this category. *)
Theorem methodology_exceeds_possible :
  (exists scenario session,
     Forall (fun action => 20 < PyStr.len (dict_get action "details" ""))
            (Scorer.investigation_actions session)
     /\ size (Scorer.phases_loop (Scorer.investigation_actions session) ∅) = 5%nat
     /\ Scorer.points_possible (Scorer._score_methodology scenario session)
        < Scorer.points_earned (Scorer._score_methodology scenario session)
     /\ Scorer.points_earned (Scorer._score_methodology scenario session) = 120
     /\ Scorer.points_possible (Scorer._score_methodology scenario session) = 100
     /\ forall float_repr, exists g,
          Scorer.score_game_session float_repr scenario session = Ok g
          /\ Scorer.breakdowns g !! 5%nat
             = Some (Scorer._score_methodology scenario session))
  /\ forall scenario session,
       Scorer.points_earned (Scorer._score_methodology scenario session) <= 120
       /\ Scorer.points_possible (Scorer._score_methodology scenario session) = 100.
Proof.
  split; [| apply methodology_at_most_120].
  exists plain_scenario, methodical_session.
  split; [repeat constructor |].
  split; [vm_compute; reflexivity |].
  split; [vm_compute; reflexivity |].
  split; [vm_compute; reflexivity |].
  split; [vm_compute; reflexivity |].
  intros float_repr.
  destruct (Scorer.score_game_session float_repr plain_scenario methodical_session)
    as [g|e] eqn:Hg.
  - exists g. split; [reflexivity |].
    apply score_game_session_breakdowns in Hg as (b4 & _ & ->). reflexivity.
  - exfalso. revert Hg. vm_compute. discriminate.
Qed.

End Methodology.

Section Division.

(** The percentage of a breakdown never raises, and is 0 when no point is
    possible. *)
Lemma percentage_total (b : Scorer.ScoreBreakdown) :
  exists q, Scorer.percentage b = Ok q
    /\ (Scorer.points_possible b = 0 -> q = 0%Q).
Proof.
  unfold Scorer.percentage. destruct (Scorer.points_possible b =? 0) eqn:E.
  - exists 0%Q. split; reflexivity.
  - apply Z.eqb_neq in E. unfold PyNum.truediv.
    destruct (Qeq_bool (inject_Z (Scorer.points_possible b)) 0) eqn:Hz.
    + apply Qeq_bool_iff in Hz. unfold Qeq in Hz. cbn in Hz. lia.
    + eexists. split; [reflexivity | intros; lia].
Qed.

(** The overall percentage never raises, and is 0 unless the weighted
    possible points are positive. *)
Lemma overall_percentage_total (total possible : Q) :
  exists q, Scorer.overall_percentage total possible = Ok q
    /\ (~ (0 < possible)%Q -> q = 0%Q).
Proof.
  unfold Scorer.overall_percentage, PyNum.gt.
  destruct (Qle_bool possible 0) eqn:E; cbn [negb].
  - exists 0%Q. split; reflexivity.
  - unfold PyNum.truediv. destruct (Qeq_bool possible 0) eqn:Hz.
    + apply Qeq_bool_iff in Hz. rewrite Hz in E. discriminate E.
    + eexists. split; [reflexivity |]. intros Hn. exfalso. apply Hn.
      apply Qnot_le_lt. intros Hle. apply Qle_bool_iff in Hle. congruence.
Qed.

(** C10: the two percentage computations are guarded, yet a scoring call
    can divide by zero: for a scenario whose estimated duration is 0 and a
    session that took 60 seconds, [_score_time_efficiency], and with it
    [score_game_session], raises [ZeroDivisionError], whereas
    [_calculate_efficiency_rating] answers "Unknown" on the same two
    values. *)
Theorem time_efficiency_divides_by_zero (float_repr : Q -> string) :
  Scorer.score_game_session float_repr zero_duration_scenario timed_session
    = Raise ZeroDivisionError
  /\ Scorer._score_time_efficiency zero_duration_scenario timed_session
     = Raise ZeroDivisionError
  /\ Scorer._calculate_efficiency_rating
       (Scorer.total_time timed_session)
       (Scorer.estimated_duration zero_duration_scenario) = Ok "Unknown".
Proof. split; [| split]; reflexivity. Qed.

End Division.

(** ** Properties of the session manager *)

Section Sorting.

Lemma insert_newest_first_perm x l : insert_newest_first x l ≡ₚ x :: l.
Proof.
  induction l as [|y rest IH]; [done |].
  cbn [insert_newest_first]. destruct (y.2 <=? x.2); [done |].
  rewrite IH. apply Permutation_swap.
Qed.

Lemma sort_newest_first_perm l : sort_newest_first l ≡ₚ l.
Proof.
  induction l as [|x rest IH]; [done |].
  cbn [sort_newest_first List.fold_right]. rewrite insert_newest_first_perm.
  by constructor.
Qed.

Lemma insert_newest_first_sorted x l :
  StronglySorted newer_first l -> StronglySorted newer_first (insert_newest_first x l).
Proof.
  induction l as [|y rest IH]; intros Hs.
  - repeat constructor.
  - cbn [insert_newest_first]. destruct (y.2 <=? x.2) eqn:E.
    + apply Z.leb_le in E. constructor; [done |].
      apply StronglySorted_inv in Hs as [_ Hall].
      constructor; [done |].
      eapply Forall_impl; [exact Hall |]. unfold newer_first. intros z Hz. lia.
    + apply Z.leb_gt in E. apply StronglySorted_inv in Hs as [Hrest Hall].
      constructor; [by apply IH |].
      rewrite insert_newest_first_perm. constructor; [| done].
      unfold newer_first. lia.
Qed.

Lemma sort_newest_first_sorted l : StronglySorted newer_first (sort_newest_first l).
Proof.
  induction l as [|x rest IH]; [constructor |].
  by apply insert_newest_first_sorted.
Qed.

End Sorting.

Section Cleanup.

Lemma unlink_all_fields del m :
  max_sessions (List.fold_left unlink_session del m) = max_sessions m
  /\ current_session (List.fold_left unlink_session del m) = current_session m
  /\ objects (List.fold_left unlink_session del m) = objects m.
Proof.
  revert m. induction del as [|e rest IH]; intros m; [done |].
  cbn [List.fold_left]. destruct (IH (unlink_session m e)) as (-> & -> & ->). done.
Qed.

Lemma unlink_all_lookup del m (n : string) :
  sessions_dir (List.fold_left unlink_session del m) !! n
  = if decide (n ∈ del.*1) then None else sessions_dir m !! n.
Proof.
  revert m. induction del as [|e rest IH]; intros m.
  - cbn. case_decide as Hin; [by apply elem_of_nil in Hin | done].
  - cbn [List.fold_left]. rewrite IH. cbn [unlink_session sessions_dir with_dir with_cache].
    rewrite fmap_cons.
    destruct (decide (n ∈ rest.*1)) as [Hin|Hnin].
    + rewrite decide_True; [done | by right].
    + destruct (decide (n = e.1)) as [->|Hne].
      * rewrite lookup_delete_eq. rewrite decide_True; [done | by left].
      * rewrite lookup_delete_ne by done.
        rewrite decide_False; [done |]. rewrite elem_of_cons. tauto.
Qed.

Lemma unlink_all_cache_lookup del m (n : string) :
  _session_cache (List.fold_left unlink_session del m) !! n
  = if decide (n ∈ del.*1) then None else _session_cache m !! n.
Proof.
  revert m. induction del as [|e rest IH]; intros m.
  - cbn. case_decide as Hin; [by apply elem_of_nil in Hin | done].
  - cbn [List.fold_left]. rewrite IH.
    cbn [unlink_session _session_cache with_cache with_dir].
    rewrite fmap_cons.
    destruct (decide (n ∈ rest.*1)) as [Hin|Hnin].
    + rewrite decide_True; [done | by right].
    + destruct (decide (n = e.1)) as [->|Hne].
      * rewrite lookup_delete_eq. rewrite decide_True; [done | by left].
      * rewrite lookup_delete_ne by done.
        rewrite decide_False; [done |]. rewrite elem_of_cons. tauto.
Qed.

Lemma unlink_all_size del m :
  NoDup del.*1 ->
  (forall n, n ∈ del.*1 -> is_Some (sessions_dir m !! n)) ->
  (size (sessions_dir (List.fold_left unlink_session del m)) + length del
   = size (sessions_dir m))%nat.
Proof.
  revert m. induction del as [|e rest IH]; intros m Hnd Hin.
  - cbn. lia.
  - rewrite fmap_cons in Hnd. apply NoDup_cons in Hnd as [Hfresh Hnd].
    assert (He : is_Some (sessions_dir m !! e.1)).
    { apply Hin. rewrite fmap_cons. by left. }
    assert (Hrec : (size (sessions_dir (List.fold_left unlink_session rest
                                          (unlink_session m e))) + length rest
                    = size (sessions_dir (unlink_session m e)))%nat).
    { apply IH; [done |]. intros n Hn. cbn [unlink_session sessions_dir with_dir with_cache].
      rewrite lookup_delete_ne.
      - apply Hin. rewrite fmap_cons. by right.
      - intros <-. done. }
    cbn [unlink_session sessions_dir with_dir with_cache] in Hrec.
    rewrite map_size_delete_Some in Hrec by done.
    assert (size (sessions_dir m) <> 0%nat).
    { intros Hz. apply map_size_empty_inv in Hz. destruct He as [f Hf].
      rewrite Hz in Hf. by rewrite lookup_empty in Hf. }
    cbn [List.fold_left length]. lia.
Qed.

Lemma elem_of_glob_mtimes dir n t :
  (n, t) ∈ glob_mtimes dir <-> exists f, dir !! n = Some f /\ st_mtime f = t.
Proof.
  unfold glob_mtimes. rewrite list_elem_of_fmap. split.
  - intros ([n' f] & [= -> ->] & Hin). apply elem_of_map_to_list in Hin. eauto.
  - intros (f & Hf & <-). exists (n, f). split; [done |].
    by apply elem_of_map_to_list.
Qed.

Lemma glob_mtimes_names dir : (glob_mtimes dir).*1 = (map_to_list dir).*1.
Proof.
  unfold glob_mtimes. rewrite <- list_fmap_compose. by apply list_fmap_ext.
Qed.

Lemma length_glob_mtimes dir : length (glob_mtimes dir) = size dir.
Proof. unfold glob_mtimes. by rewrite length_fmap, length_map_to_list. Qed.

Lemma sorted_glob_facts dir :
  let files := sort_newest_first (glob_mtimes dir) in
  length files = size dir
  /\ NoDup files.*1
  /\ (forall n t, (n, t) ∈ files <-> exists f, dir !! n = Some f /\ st_mtime f = t)
  /\ StronglySorted newer_first files.
Proof.
  intros files. pose proof (sort_newest_first_perm (glob_mtimes dir)) as Hperm.
  fold files in Hperm. repeat split.
  - by rewrite Hperm, length_glob_mtimes.
  - rewrite Hperm, glob_mtimes_names. apply NoDup_fst_map_to_list.
  - rewrite Hperm. apply elem_of_glob_mtimes.
  - rewrite Hperm. apply elem_of_glob_mtimes.
  - apply sort_newest_first_sorted.
Qed.

Lemma cleanup_fields k m :
  max_sessions (_cleanup_old_sessions k m) = max_sessions m
  /\ current_session (_cleanup_old_sessions k m) = current_session m
  /\ objects (_cleanup_old_sessions k m) = objects m.
Proof.
  unfold _cleanup_old_sessions. case_match; [apply unlink_all_fields | done].
Qed.

Lemma cleanup_retained k m :
  0 <= k -> retained k (sessions_dir m) (sessions_dir (_cleanup_old_sessions k m)).
Proof.
  intros Hk. unfold _cleanup_old_sessions.
  destruct (sorted_glob_facts (sessions_dir m)) as (Hlen & Hnd & Hin & Hsorted).
  set (files := sort_newest_first (glob_mtimes (sessions_dir m))) in *.
  destruct (k <? Z.of_nat (length files)) eqn:Hlt.
  - apply Z.ltb_lt in Hlt. unfold slice_from.
    assert ((0 <=? k) = true) as -> by (by apply Z.leb_le).
    set (del := drop (Z.to_nat k) files).
    assert (Hsplit : files = take (Z.to_nat k) files ++ del)
      by (symmetry; apply take_drop).
    assert (Hdel_in : forall n, n ∈ del.*1 -> is_Some (sessions_dir m !! n)).
    { intros n Hn. apply list_elem_of_fmap in Hn as ([n' t] & -> & Hn).
      assert (Hf : (n', t) ∈ files) by (rewrite Hsplit, elem_of_app; by right).
      apply Hin in Hf as (f & Hf & _). by exists f. }
    assert (Hdel_nd : NoDup del.*1).
    { rewrite Hsplit, fmap_app in Hnd. by apply NoDup_app in Hnd as (_ & _ & ?). }
    split; [| split].
    + apply map_subseteq_spec. intros n f. rewrite unlink_all_lookup.
      case_decide; [done | done].
    + pose proof (unlink_all_size del m Hdel_nd Hdel_in) as Hsize.
      assert (length del = (length files - Z.to_nat k)%nat) by apply length_drop.
      lia.
    + intros kept f dropped f' Hkept Hbefore Hdropped.
      rewrite unlink_all_lookup in Hkept, Hdropped.
      destruct (decide (kept ∈ del.*1)) as [|Hkept_nd]; [done |].
      destruct (decide (dropped ∈ del.*1)) as [Hd|]; [| congruence].
      apply list_elem_of_fmap in Hd as ([n' t'] & -> & Hd). cbn in Hbefore.
      assert (Hd' : (n', t') ∈ files) by (rewrite Hsplit, elem_of_app; by right).
      apply Hin in Hd' as (f2 & Hf2 & <-).
      assert (f2 = f') as -> by congruence.
      assert (Hkf : (kept, st_mtime f) ∈ files) by (apply Hin; eauto).
      rewrite Hsplit, elem_of_app in Hkf. destruct Hkf as [Hkf | Hkf].
      * rewrite Hsplit in Hsorted.
        exact (StronglySorted_app_1_elem_of _ _ _ _ _ Hsorted Hkf Hd).
      * exfalso. apply Hkept_nd. apply list_elem_of_fmap.
        by exists (kept, st_mtime f).
  - apply Z.ltb_ge in Hlt. split; [done | split; [lia |]].
    intros kept f dropped f' _ Hbefore Hdropped. congruence.
Qed.

End Cleanup.

Section Retention.

Lemma retained_size k before after :
  retained k before after -> Z.of_nat (size after) <= k.
Proof. intros (_ & Hsize & _). lia. Qed.

Lemma apply_op_spec m op :
  0 <= max_sessions m ->
  max_sessions (apply_op m op) = max_sessions m
  /\ match written op m with
     | Some dir1 => retained (max_sessions m) dir1 (sessions_dir (apply_op m op))
     | None => sessions_dir (apply_op m op) = sessions_dir m
     end.
Proof.
  intros Hmax. destruct op as [now fresh_id scenario_id scenario_name player_name
                              | now session].
  - cbn [apply_op written create_session fst].
    unfold save_session.
    cbn [current_session objects with_cache with_current with_objects mbind option_bind].
    rewrite list_lookup_middle by done.
    cbn [fst]. split.
    + by rewrite (proj1 (cleanup_fields _ _)).
    + match goal with
      | |- retained _ _ (sessions_dir (_cleanup_old_sessions ?k ?mm)) =>
          exact (cleanup_retained k mm Hmax)
      end.
  - cbn [apply_op written]. unfold save_session.
    destruct (match session with Some l => Some l | None => current_session m end
              ≫= fun l => objects m !! l) as [s|]; cbn [fst].
    + split.
      * by rewrite (proj1 (cleanup_fields _ _)).
      * match goal with
        | |- retained _ _ (sessions_dir (_cleanup_old_sessions ?k ?mm)) =>
            exact (cleanup_retained k mm Hmax)
        end.
    + done.
Qed.

Lemma run_max_sessions ops m :
  0 <= max_sessions m -> max_sessions (run ops m) = max_sessions m.
Proof.
  revert m. induction ops as [|op rest IH]; intros m Hmax; [done |].
  cbn [run List.fold_left]. destruct (apply_op_spec m op Hmax) as [Heq _].
  fold (run rest (apply_op m op)). rewrite IH; [done | by rewrite Heq].
Qed.

Lemma run_bound ops m :
  0 <= max_sessions m ->
  Z.of_nat (size (sessions_dir m)) <= max_sessions m ->
  Z.of_nat (size (sessions_dir (run ops m))) <= max_sessions m.
Proof.
  revert m. induction ops as [|op rest IH]; intros m Hmax Hsize; [done |].
  cbn [run List.fold_left]. destruct (apply_op_spec m op Hmax) as [Heq Hdir].
  fold (run rest (apply_op m op)). rewrite <- Heq. apply IH; rewrite Heq; [done |].
  destruct (written op m) as [dir1|].
  - by apply retained_size in Hdir.
  - by rewrite Hdir.
Qed.

(** C4: with a limit [max_sessions] that is not negative, no sequence of
    creates and saves changes the limit or lets the number of session files
    grow above it; and whenever a create or a save writes its file, the
    files left afterwards are the [max_sessions] most recently modified
    ones of the directory as written (all of them when there are fewer),
    so their number is at most the limit whatever the directory held
    before. *)
Theorem retention_after_creates_and_saves (m : SessionManager) (ops : list Op) :
  0 <= max_sessions m ->
  max_sessions (run ops m) = max_sessions m
  /\ (Z.of_nat (size (sessions_dir m)) <= max_sessions m ->
      Z.of_nat (size (sessions_dir (run ops m))) <= max_sessions m)
  /\ forall op dir1,
       written op (run ops m) = Some dir1 ->
       retained (max_sessions m) dir1 (sessions_dir (apply_op (run ops m) op))
       /\ Z.of_nat (size (sessions_dir (apply_op (run ops m) op))) <= max_sessions m.
Proof.
  intros Hmax. pose proof (run_max_sessions ops m Hmax) as Hrun.
  split; [done |]. split; [by apply run_bound |].
  intros op dir1 Hw.
  assert (Hmax' : 0 <= max_sessions (run ops m)) by (by rewrite Hrun).
  destruct (apply_op_spec (run ops m) op Hmax') as [_ Hdir].
  rewrite Hw, Hrun in Hdir. split; [done | by apply retained_size in Hdir].
Qed.

Lemma retention_after_creates_and_saves_witness :
  0 <= max_sessions small_manager
  /\ max_sessions (run three_creates small_manager) = max_sessions small_manager
  /\ (Z.of_nat (size (sessions_dir small_manager)) <= max_sessions small_manager ->
      Z.of_nat (size (sessions_dir (run three_creates small_manager)))
      <= max_sessions small_manager)
  /\ forall op dir1,
       written op (run three_creates small_manager) = Some dir1 ->
       retained (max_sessions small_manager) dir1
         (sessions_dir (apply_op (run three_creates small_manager) op))
       /\ Z.of_nat (size (sessions_dir (apply_op (run three_creates small_manager) op)))
          <= max_sessions small_manager.
Proof.
  split; [vm_compute; discriminate |].
  apply (retention_after_creates_and_saves small_manager three_creates).
  vm_compute. discriminate.
Defined.

(** Three creations under a limit of two leave the two latest sessions. *)
Example three_creates_keep_two :
  glob_mtimes (sessions_dir (run three_creates small_manager))
  ≡ₚ [("aaaa0002", 2); ("aaaa0003", 3)].
Proof. vm_compute. apply Permutation_swap. Qed.

(** Fifteen files, the first ten the most recent: the manual clean-up
    under a limit of ten removes five files, and they are the oldest. *)
Example cleanup_keeps_recent_ten :
  let result := cleanup_sessions None (init fifteen_files 10) in
  result.2 = 5
  /\ Forall (fun name => is_Some (sessions_dir result.1 !! name)) recent_ten
  /\ Forall (fun name => sessions_dir result.1 !! name = None) oldest_five.
Proof.
  cbn zeta. split; [vm_compute; reflexivity |].
  split; repeat constructor; vm_compute; eauto.
Qed.

End Retention.

Section Ledger.

Lemma save_current_fields now m l s :
  current_session m = Some l -> objects m !! l = Some s ->
  exists m', save_session now None m = (m', true)
    /\ current_session m' = Some l /\ objects m' = objects m
    /\ max_sessions m' = max_sessions m.
Proof.
  intros Hcur Hobj. unfold save_session. rewrite Hcur. cbn [mbind option_bind].
  rewrite Hobj. eexists. split; [reflexivity |].
  destruct (cleanup_fields (max_sessions m)
              (with_dir m (<[session_id s := {| content := Some s;
                                                st_mtime := instant now |}]>
                             (sessions_dir m)))) as (Hmax & Hc & Ho).
  cbn [max_sessions with_dir] in *. rewrite Hc, Ho, Hmax. done.
Qed.

Lemma mutate_current_fields now f m l s :
  current_session m = Some l -> objects m !! l = Some s ->
  exists m', mutate_current now f m = (m', true)
    /\ current_session m' = Some l
    /\ objects m' = <[l := f s]> (objects m)
    /\ max_sessions m' = max_sessions m.
Proof.
  intros Hcur Hobj. unfold mutate_current. rewrite Hcur, Hobj.
  assert (Hl : (l < length (objects m))%nat) by (by eapply lookup_lt_Some).
  destruct (save_current_fields now (with_objects m (<[l := f s]> (objects m))) l (f s))
    as (m' & Hsave & Hc & Ho & Hmax); [done | | by eauto].
  cbn [objects with_objects]. by apply list_lookup_insert_eq.
Qed.

Lemma stamped_id now (evidence : gmap string string) :
  stamped now evidence !! "id" = evidence !! "id".
Proof.
  unfold stamped. destruct (evidence !! "discovered_at"); [done |].
  by rewrite lookup_insert_ne.
Qed.

Lemma evidence_ids_app s extra :
  evidence_ids (set_evidence_discovered s (evidence_discovered s ++ extra))
  = evidence_ids s ++ omap (fun ev : gmap string string => ev !! "id") extra.
Proof. unfold evidence_ids. cbn [evidence_discovered set_evidence_discovered].
  apply omap_app. Qed.

Lemma add_all_cons now evidence rest m :
  add_all ((now, evidence) :: rest) m
  = add_all rest (add_evidence_discovered now evidence m).1.
Proof. reflexivity. Qed.

(** C1, amended: with an active session, every call of
    [add_evidence_discovered] appends its evidence (stamped with the
    discovery time unless it carries one), whether or not the id is already
    present; after a sequence of calls the list is the old one followed by
    one entry for each call, so an id submitted N times has N more
    entries. *)
Theorem add_evidence_appends_every_time
    (m : SessionManager) (calls : list (Clock * gmap string string))
    (l : nat) (s : SessionState) :
  current_session m = Some l ->
  objects m !! l = Some s ->
  exists s',
    current_session (add_all calls m) = Some l
    /\ objects (add_all calls m) !! l = Some s'
    /\ evidence_discovered s'
       = evidence_discovered s ++ ((fun call => stamped call.1 call.2) <$> calls)
    /\ evidence_ids s'
       = evidence_ids s ++ omap (fun call => call.2 !! "id") calls
    /\ length (evidence_discovered s')
       = (length (evidence_discovered s) + length calls)%nat.
Proof.
  revert m s. induction calls as [|[now evidence] rest IH]; intros m s Hcur Hobj.
  - exists s. cbn. rewrite !app_nil_r. repeat split; (done || lia).
  - rewrite !add_all_cons. unfold add_evidence_discovered.
    destruct (mutate_current_fields now
                (fun s => set_evidence_discovered s
                            (evidence_discovered s ++ [stamped now evidence]))
                m l s Hcur Hobj) as (m' & Hmut & Hc & Ho & _).
    rewrite Hmut. cbn [fst].
    assert (Hl : (l < length (objects m))%nat) by (by eapply lookup_lt_Some).
    destruct (IH m' (set_evidence_discovered s
                       (evidence_discovered s ++ [stamped now evidence])) Hc)
      as (s' & Hc' & Ho' & Hev & Hids & Hlen).
    { rewrite Ho. by apply list_lookup_insert_eq. }
    exists s'. split; [done |]. split; [done |].
    cbn [evidence_discovered set_evidence_discovered] in Hev, Hlen.
    rewrite evidence_ids_app in Hids. cbn [omap list_omap] in Hids.
    rewrite stamped_id in Hids.
    split; [| split].
    + rewrite Hev, fmap_cons, <- app_assoc. done.
    + rewrite Hids. cbn [omap list_omap snd]. rewrite <- app_assoc.
      destruct (evidence !! "id"); done.
    + rewrite Hlen, length_app. cbn. lia.
Qed.

Lemma add_evidence_appends_every_time_witness :
  current_session one_session = Some 0%nat
  /\ objects one_session !! 0%nat = Some first_state
  /\ exists s',
       current_session (add_all twice_E1 one_session) = Some 0%nat
       /\ objects (add_all twice_E1 one_session) !! 0%nat = Some s'
       /\ evidence_discovered s'
          = evidence_discovered first_state
            ++ ((fun call => stamped call.1 call.2) <$> twice_E1)
       /\ evidence_ids s'
          = evidence_ids first_state ++ omap (fun call => call.2 !! "id") twice_E1
       /\ length (evidence_discovered s')
          = (length (evidence_discovered first_state) + length twice_E1)%nat.
Proof.
  split; [reflexivity |]. split; [reflexivity |].
  apply (add_evidence_appends_every_time one_session twice_E1 0%nat first_state);
    reflexivity.
Defined.

(** C1, as the claim states it, fails: the id E1 submitted twice to a new
    session leaves two entries with that id. *)
Lemma duplicate_evidence_recorded_twice :
  evidence_ids <$> current_object (add_all twice_E1 one_session)
  = Some ["E1"; "E1"].
Proof. vm_compute. reflexivity. Qed.

End Ledger.

Section Resume.

(** [resume_session] decides on the object that [load_session] serves
    under the id (the cached object, or else the one made from the file):
    when that object is completed it returns [None] and leaves the current
    session as it was; when it is not completed, it returns that object and
    makes it the current one. *)
Lemma resume_session_decides_on_served_object
    (m : SessionManager) (sid : string) (s : SessionState) :
  stored m sid = Some s ->
  if is_completed s
  then (resume_session sid m).2 = None
       /\ current_session (resume_session sid m).1 = current_session m
  else exists l,
       (resume_session sid m).2 = Some l
       /\ objects (resume_session sid m).1 !! l = Some s
       /\ current_session (resume_session sid m).1 = Some l.
Proof.
  unfold stored, resume_session, load_session. intros Hs.
  destruct (_session_cache m !! sid) as [l|].
  - rewrite Hs. destruct (is_completed s); cbn; eauto.
  - destruct (sessions_dir m !! sid) as [file|]; [| discriminate].
    cbn in Hs. rewrite Hs. cbn [objects with_cache with_objects].
    rewrite list_lookup_middle by done.
    destruct (is_completed s); cbn.
    + done.
    + eexists. split; [reflexivity |]. split; [| reflexivity].
      by apply list_lookup_middle.
Qed.

Lemma resume_session_not_found (m : SessionManager) (sid : string) :
  stored m sid = None ->
  (resume_session sid m).2 = None
  /\ current_session (resume_session sid m).1 = current_session m.
Proof.
  unfold stored, resume_session, load_session. intros Hs.
  destruct (_session_cache m !! sid) as [l|].
  - by rewrite Hs.
  - destruct (sessions_dir m !! sid) as [file|]; [| done].
    cbn in Hs. by rewrite Hs.
Qed.

(** A completed session that is served from its file or from the object
    that was completed is rejected. *)
Example resume_finished_session :
  stored finished_manager "0a1b2c3d" = Some finished_state
  /\ (resume_session "0a1b2c3d" finished_manager).2 = None.
Proof. split; reflexivity. Qed.

(** A session that was created and not completed is resumed. *)
Example resume_running_session :
  (resume_session "0a1b2c3d" (with_current one_session None)).2 = Some 0%nat
  /\ current_session (resume_session "0a1b2c3d" (with_current one_session None)).1
     = Some 0%nat.
Proof. split; reflexivity. Qed.

(** C6: a completed session can be resumed.  The clean-up under a limit
    of 0 removes the file and the cache entry of the current session but
    leaves it current, where [delete_session] clears it.  The next action
    writes the file again, and [load_session] then makes a second object
    for the same id and caches it.  [complete_session] completes the
    current object and the file; the cached object is not completed, and
    [resume_session] with the id of the completed session returns that
    object and makes it the current session. *)
Theorem resume_session_resumes_completed_session :
  (current_session evicted_manager = Some 0%nat
   /\ sessions_dir evicted_manager !! "0a1b2c3d" = None
   /\ _session_cache evicted_manager !! "0a1b2c3d" = None
   /\ current_session (delete_session "0a1b2c3d" one_session).1 = None)
  /\ (_session_cache reloaded_manager !! "0a1b2c3d" = Some 1%nat
      /\ current_session reloaded_manager = Some 0%nat)
  /\ ((complete_session (at_time 5) None reloaded_manager).2 = true
      /\ current_session stale_manager = Some 0%nat
      /\ (session_id <$> objects stale_manager !! 0%nat) = Some "0a1b2c3d"
      /\ (is_completed <$> objects stale_manager !! 0%nat) = Some true
      /\ (is_completed <$> (sessions_dir stale_manager !! "0a1b2c3d" ≫= content))
         = Some true)
  /\ ((resume_session "0a1b2c3d" stale_manager).2 = Some 1%nat
      /\ current_session (resume_session "0a1b2c3d" stale_manager).1 = Some 1%nat
      /\ (session_id <$> objects (resume_session "0a1b2c3d" stale_manager).1 !! 1%nat)
         = Some "0a1b2c3d"
      /\ (is_completed
            <$> objects (resume_session "0a1b2c3d" stale_manager).1 !! 1%nat)
         = Some false).
Proof. repeat split; vm_compute; reflexivity. Qed.

End Resume.

(** ** Properties of the evidence discovery resolver *)

Section Discovery.

Variables (now : Clock) (draws : nat -> Q) (details : string)
          (evidence_types : list string) (ids : gset string) (already : nat).

Lemma discovery_loop_spec (items : list (gmap string string)) (i0 : nat) :
  let cands := List.filter (eligible ids evidence_types) items in
  match discovery_loop now draws details evidence_types ids already items i0 with
  | Some ev =>
      exists i item,
        cands !! i = Some item
        /\ succeeds draws details (i0 + i) item = true
        /\ (forall j item', (j < i)%nat -> cands !! j = Some item' ->
              succeeds draws details (i0 + j) item' = false)
        /\ ev = formatted_evidence now already item
  | None =>
      forall i item, cands !! i = Some item ->
        succeeds draws details (i0 + i) item = false
  end.
Proof.
  revert i0. induction items as [|item rest IH]; intros i0; cbn zeta.
  - cbn. intros i item Hi. discriminate.
  - cbn [discovery_loop List.filter].
    destruct (in_ids (item !! "id") ids) eqn:Hid.
    { replace (eligible ids evidence_types item) with false
        by (unfold eligible; by rewrite Hid).
      apply IH. }
    destruct (in_types (item !! "type") evidence_types) eqn:Hty.
    2:{ replace (eligible ids evidence_types item) with false
          by (unfold eligible; by rewrite Hid, Hty).
        apply IH. }
    replace (eligible ids evidence_types item) with true
      by (unfold eligible; by rewrite Hid, Hty).
    fold (succeeds draws details i0 item).
    destruct (succeeds draws details i0 item) eqn:Hdraw.
    + exists 0%nat, item. rewrite Nat.add_0_r. repeat split; [done |].
      intros j item' Hj. lia.
    + specialize (IH (S i0)).
      destruct (discovery_loop now draws details evidence_types ids already rest (S i0))
        as [ev|].
      * destruct IH as (i & item' & Hi & Hs & Hbefore & ->).
        exists (S i), item'. rewrite <- Nat.add_succ_comm.
        repeat split; [done | done |].
        intros [|j] item'' Hj Hlk.
        -- injection Hlk as <-. by rewrite Nat.add_0_r.
        -- rewrite <- Nat.add_succ_comm. apply Hbefore; [lia | done].
      * intros [|i] item' Hi.
        -- injection Hi as <-. by rewrite Nat.add_0_r.
        -- rewrite <- Nat.add_succ_comm. by apply IH.
Qed.

End Discovery.

(** C2, amended: the resolver goes through the candidates (the items not
    yet discovered whose type is accepted for the action) in the scenario's
    declared order, drawing once for each; it returns the first candidate
    whose own draw succeeds, going on to the next candidate after a draw
    that fails, and returns none only when the draw of every candidate
    fails. *)
Theorem discovery_tries_every_candidate
    (now : Clock) (draws : nat -> Q) (action details : string)
    (scenario : Scorer.Scenario) (game_session : SessionState) :
  match check_for_evidence_discovery now draws action details scenario game_session with
  | Some ev =>
      exists i item,
        candidates action scenario game_session !! i = Some item
        /\ succeeds draws details i item = true
        /\ (forall j item', (j < i)%nat ->
              candidates action scenario game_session !! j = Some item' ->
              succeeds draws details j item' = false)
        /\ ev = formatted_evidence now
                  (length (evidence_discovered game_session)) item
  | None =>
      forall i item,
        candidates action scenario game_session !! i = Some item ->
        succeeds draws details i item = false
  end.
Proof.
  unfold check_for_evidence_discovery, candidates.
  destruct (Scorer.evidence_items scenario) as [|item rest] eqn:Hitems.
  - cbn. intros i item Hi. discriminate.
  - apply (discovery_loop_spec now draws details (evidence_types_for action)
             (discovered_ids (evidence_discovered game_session))
             (length (evidence_discovered game_session))
             (item :: rest) 0).
Qed.

(** C2, as the claim states it, fails: E1 and E2 are both candidates, the
    draw for E1 fails, and the call returns E2 instead of none. *)
Lemma later_candidate_tried_after_miss :
  omap (fun item : gmap string string => item !! "id")
       (candidates "examine_logs" two_mails first_state) = ["E1"; "E2"]
  /\ succeeds miss_then_hit "review the logs of the gateway" 0 (mail "E1") = false
  /\ (fun ev : gmap string string => ev !! "id")
       <$> check_for_evidence_discovery (at_time 2) miss_then_hit "examine_logs"
             "review the logs of the gateway" two_mails first_state
     = Some (Some "E2").
Proof. split; [| split]; vm_compute; reflexivity. Qed.

(** An item whose id is among the discovered ones is never returned. *)
Lemma discovered_item_not_candidate action scenario game_session item id :
  item ∈ candidates action scenario game_session ->
  item !! "id" = Some id ->
  id ∉ discovered_ids (evidence_discovered game_session).
Proof.
  unfold candidates. rewrite list_elem_of_In, filter_In, <- list_elem_of_In.
  intros [_ Hel] Hid. unfold eligible in Hel. rewrite Hid in Hel.
  cbn [in_ids] in Hel. apply andb_prop in Hel as [Hnot _].
  apply negb_true_iff, bool_decide_eq_false in Hnot. exact Hnot.
Qed.

(** ** Further properties of the scoring engine *)

Section Numbers.

Lemma int_bounds (x : Q) (lo hi : Z) :
  0 <= lo -> (inject_Z lo <= x)%Q -> (x <= inject_Z hi)%Q ->
  lo <= PyNum.int x <= hi.
Proof.
  destruct x as [n d]. unfold PyNum.int, Qle. cbn. intros Hlo H1 H2.
  rewrite Z.mul_1_r in H1, H2.
  assert (0 <= n) by nia.
  rewrite Z.quot_div_nonneg by lia. split.
  - apply Z.div_le_lower_bound; lia.
  - apply Z.div_le_upper_bound; lia.
Qed.

Lemma min_bounds (x c : Q) :
  (0 <= x)%Q -> (0 <= c)%Q -> (0 <= PyNum.min x c)%Q /\ (PyNum.min x c <= c)%Q.
Proof.
  intros Hx Hc. unfold PyNum.min, PyNum.lt.
  destruct (Qle_bool x c) eqn:E; cbn [negb].
  - apply Qle_bool_iff in E. split; assumption.
  - split; [assumption | apply Qle_refl].
Qed.

Lemma max_list_bounds (lo hi x : Q) (xs : list Q) :
  (lo <= x)%Q -> (x <= hi)%Q ->
  Forall (fun y => (lo <= y)%Q /\ (y <= hi)%Q) xs ->
  (lo <= PyNum.max_list x xs)%Q /\ (PyNum.max_list x xs <= hi)%Q.
Proof.
  intros Hlo Hhi Hall. revert x Hlo Hhi.
  induction Hall as [|y ys [Hy1 Hy2] _ IH]; intros x Hlo Hhi; [by split |].
  cbn [PyNum.max_list]. destruct (PyNum.gt y x); by apply IH.
Qed.

Lemma of_nat_nonneg n : (0 <= PyNum.of_nat n)%Q.
Proof. unfold PyNum.of_nat, Qle. cbn. lia. Qed.

Lemma ratio_bounds (a b : nat) :
  (a <= b)%nat -> (0 < b)%nat ->
  (0 <= PyNum.of_nat a / PyNum.of_nat b)%Q /\ (PyNum.of_nat a / PyNum.of_nat b <= 1)%Q.
Proof.
  intros Hab Hb. unfold PyNum.of_nat.
  assert (Hpos : (0 < inject_Z (Z.of_nat b))%Q).
  { unfold Qlt. cbn. lia. }
  split.
  - apply Qle_shift_div_l; [exact Hpos |]. rewrite Qmult_0_l.
    unfold Qle. cbn. lia.
  - apply Qle_shift_div_r; [exact Hpos |]. rewrite Qmult_1_l.
    unfold Qle. cbn. lia.
Qed.

Lemma size_list_to_set_le (l : list string) :
  (size (list_to_set l : gset string) <= length l)%nat.
Proof.
  induction l as [|x rest IH]; [by rewrite list_to_set_nil, size_empty |].
  rewrite list_to_set_cons, size_union_alt, size_singleton. cbn [length].
  assert (size ((list_to_set rest : gset string) ∖ {[x]}) <= size (list_to_set rest : gset string))%nat.
  { apply subseteq_size. apply subseteq_difference_l. reflexivity. }
  lia.
Qed.

End Numbers.

Section AccuracyBounds.

Lemma count_in_le terms text : (PyStr.count_in terms text <= length terms)%nat.
Proof. unfold PyStr.count_in. apply List.filter_length_le. Qed.

Lemma evaluate_theory_accuracy_bounds (theory : gmap string string) (sol : Scorer.Solution) :
  (0 <= Scorer._evaluate_theory_accuracy theory sol)%Q
  /\ (Scorer._evaluate_theory_accuracy theory sol <= 100)%Q.
Proof.
  unfold Scorer._evaluate_theory_accuracy. apply min_bounds; [| done].
  set (text := PyStr.lower (dict_get theory "theory" "")).
  set (indicators := List.map PyStr.lower (Scorer.key_indicators sol)).
  pose proof (ratio_bounds (PyStr.count_in Scorer.theory_elements text)
                (length Scorer.theory_elements) (count_in_le _ _)) as [He _];
    [cbn; lia |].
  set (e := (PyNum.of_nat (PyStr.count_in Scorer.theory_elements text)
             / PyNum.of_nat (length Scorer.theory_elements))%Q) in *.
  assert (Hk : (0 <= match indicators with
                     | [] => 0
                     | _ :: _ =>
                         PyNum.of_nat (PyStr.count_in indicators text)
                         / PyNum.of_nat (length indicators) * 30
                     end)%Q).
  { destruct indicators as [|i rest] eqn:Hi; [done |]. rewrite <- Hi.
    pose proof (ratio_bounds (PyStr.count_in indicators text) (length indicators)
                  (count_in_le _ _)) as [Hr _]; [rewrite Hi; cbn; lia |].
    lra. }
  destruct indicators as [|i rest];
    destruct (PyStr.truthy _ && PyStr.contains _ text);
    destruct (PyStr.truthy _ && PyStr.contains _ text); lra.
Qed.

(** X1: The theory-accuracy category never leaves the range from 0 to 100,
    and neither does the accuracy of a single theory. *)
Theorem theory_accuracy_within_range
    (float_repr : Q -> string) (scenario : Scorer.Scenario)
    (session : Scorer.SessionData) :
  0 <= Scorer.points_earned (Scorer._score_theory_accuracy float_repr scenario session)
    <= 100
  /\ Scorer.points_possible (Scorer._score_theory_accuracy float_repr scenario session)
     = 100
  /\ forall theory sol,
       (0 <= Scorer._evaluate_theory_accuracy theory sol)%Q
       /\ (Scorer._evaluate_theory_accuracy theory sol <= 100)%Q.
Proof.
  split; [| split; [| apply evaluate_theory_accuracy_bounds]].
  - unfold Scorer._score_theory_accuracy.
    destruct (Scorer.theories_submitted session) as [|first others]; [cbn; lia |].
    set (sol := default Scorer.no_solution (Scorer.solution scenario)).
    assert (Hbest : 0 <= PyNum.int
              (PyNum.max_list (Scorer._evaluate_theory_accuracy first sol)
                 (List.map (fun theory => Scorer._evaluate_theory_accuracy theory sol)
                           others)) <= 100).
    { apply int_bounds; [lia | |];
        apply (max_list_bounds 0 100);
        try apply evaluate_theory_accuracy_bounds;
        apply List.Forall_forall; intros y Hy; apply in_map_iff in Hy as (t & <- & _);
        apply evaluate_theory_accuracy_bounds. }
    destruct (1 <? length _)%nat; cbn [Scorer.points_earned]; lia.
  - unfold Scorer._score_theory_accuracy.
    destruct (Scorer.theories_submitted session); [reflexivity |].
    destruct (1 <? length _)%nat; reflexivity.
Qed.

End AccuracyBounds.

Section CategoryBounds.

Ltac split_pairs :=
  repeat match goal with
         | H : (_, _) = (_, _) |- _ => injection H as <- <-
         end.

Lemma investigation_technique_bounds scenario session :
  0 <= Scorer.points_earned (Scorer._score_investigation_technique scenario session)
    <= 100
  /\ Scorer.points_possible (Scorer._score_investigation_technique scenario session)
     = 100.
Proof.
  unfold Scorer._score_investigation_technique.
  set (kinds := Z.of_nat (size (Scorer.approaches_loop _ ∅))).
  assert (0 <= kinds) by (unfold kinds; lia).
  repeat case_match; cbn [Scorer.points_earned Scorer.points_possible];
    split_pairs; (split; [lia | reflexivity]).
Qed.

Lemma time_efficiency_values scenario session b :
  Scorer._score_time_efficiency scenario session = Ok b ->
  Scorer.points_possible b = 100
  /\ In (Scorer.points_earned b) [100; 85; 70; 50; 25]
  /\ (Scorer.truthy_number (Scorer.total_time session) = None ->
      Scorer.points_earned b = 50).
Proof.
  unfold Scorer._score_time_efficiency.
  destruct (Scorer.truthy_number (Scorer.total_time session)) as [t|].
  - destruct (PyNum.truediv t _) as [ratio|]; [| discriminate].
    cbn [mbind Res_bind]. repeat case_match; intros [= <-]; split_pairs;
      cbn; (split; [reflexivity | split; [auto 10 | discriminate]]).
  - cbn [mbind Res_bind]. intros [= <-]. cbn. auto 10.
Qed.

Lemma evidence_analysis_bounds scenario session :
  (length (Scorer.evidence_discovered session)
   <= length (Scorer.evidence_items scenario))%nat ->
  0 <= Scorer.points_earned (Scorer._score_evidence_analysis scenario session) <= 100
  /\ Scorer.points_possible (Scorer._score_evidence_analysis scenario session) = 100.
Proof.
  intros Hle. unfold Scorer._score_evidence_analysis.
  set (d := length (Scorer.evidence_discovered session)) in *.
  set (t := length (Scorer.evidence_items scenario)) in *.
  assert (Hd : (0 <? t)%nat = true ->
               0 <= PyNum.int (PyNum.of_nat d / PyNum.of_nat t * 40) <= 40).
  { intros Ht. apply Nat.ltb_lt in Ht.
    destruct (ratio_bounds d t Hle Ht) as [H0 H1].
    apply int_bounds; [lia | |]; unfold inject_Z; lra. }
  destruct (0 <? t)%nat; [specialize (Hd eq_refl) |];
    repeat case_match; cbn [Scorer.points_earned Scorer.points_possible];
    split_pairs; (split; [lia | reflexivity]).
Qed.

Lemma completeness_bounds scenario session :
  (length (Scorer.critical_evidence_found session)
   <= length (List.filter Scorer.is_critical (Scorer.evidence_items scenario)))%nat ->
  0 <= Scorer.points_earned (Scorer._score_completeness scenario session) <= 100
  /\ Scorer.points_possible (Scorer._score_completeness scenario session) = 100.
Proof.
  intros Hle. unfold Scorer._score_completeness.
  set (found := length (Scorer.critical_evidence_found session)) in *.
  set (critical := List.filter Scorer.is_critical (Scorer.evidence_items scenario)) in *.
  assert (Hc : (0 < length critical)%nat ->
               0 <= PyNum.int (PyNum.of_nat found / PyNum.of_nat (length critical) * 40)
                 <= 40).
  { intros Ht. destruct (ratio_bounds found (length critical) Hle Ht) as [H0 H1].
    apply int_bounds; [lia | |]; unfold inject_Z; lra. }
  set (required := Scorer.required_investigation_areas scenario).
  set (common := (list_to_set (Scorer.areas_investigated session) ∩ list_to_set required
                  : gset string)).
  assert (Hr : (0 < length required)%nat ->
               0 <= PyNum.int (PyNum.of_nat (size common)
                               / PyNum.of_nat (length required) * 60) <= 60).
  { intros Ht.
    assert (Hsz : (size common <= length required)%nat).
    { etrans; [apply (subseteq_size common (list_to_set required)) |].
      - unfold common. apply intersection_subseteq_r.
      - apply size_list_to_set_le. }
    destruct (ratio_bounds (size common) (length required) Hsz Ht) as [H0 H1].
    apply int_bounds; [lia | |]; unfold inject_Z; lra. }
  destruct required as [|r0 rs]; destruct critical as [|c0 cs];
    try (specialize (Hr ltac:(cbn; lia))); try (specialize (Hc ltac:(cbn; lia)));
    repeat case_match; cbn [Scorer.points_earned Scorer.points_possible];
    split_pairs; (split; [lia | reflexivity]).
Qed.

End CategoryBounds.

Section SessionScoreRange.

Lemma round1_bounds (x : Q) (lo hi : Z) :
  (inject_Z lo <= x)%Q -> (x <= inject_Z hi)%Q ->
  (inject_Z lo <= Scorer.round1 x)%Q /\ (Scorer.round1 x <= inject_Z hi)%Q.
Proof.
  intros Hlo Hhi. unfold Scorer.round1.
  set (scaled := (x * 10)%Q).
  set (low := Qfloor scaled).
  assert (Hs1 : (inject_Z (10 * lo) <= scaled)%Q).
  { unfold scaled. rewrite inject_Z_mult. unfold inject_Z at 1. lra. }
  assert (Hs2 : (scaled <= inject_Z (10 * hi))%Q).
  { unfold scaled. rewrite inject_Z_mult. unfold inject_Z at 1. lra. }
  assert (Hl1 : 10 * lo <= low).
  { rewrite <- (Qfloor_Z (10 * lo)). by apply Qfloor_resp_le. }
  assert (Hl2 : low <= 10 * hi).
  { rewrite <- (Qfloor_Z (10 * hi)). by apply Qfloor_resp_le. }
  pose proof (Qfloor_le scaled) as Hfl. fold low in Hfl.
  assert (Hn : 10 * lo <=
               (if PyNum.lt (scaled - inject_Z low) (1 # 2) then low
                else if PyNum.gt (scaled - inject_Z low) (1 # 2) then low + 1
                else if Z.even low then low else low + 1) <= 10 * hi).
  { unfold PyNum.lt. destruct (Qle_bool (1 # 2) (scaled - inject_Z low)) eqn:E;
      cbn [negb]; [| lia].
    apply Qle_bool_iff in E.
    assert (low <> 10 * hi).
    { intros Heq. rewrite Heq in E. lra. }
    repeat case_match; lia. }
  set (n := if PyNum.lt _ _ then _ else _) in *.
  destruct Hn as [Hn1 Hn2].
  rewrite Zle_Qle in Hn1, Hn2. rewrite inject_Z_mult in Hn1, Hn2.
  unfold inject_Z at 1 in Hn1. unfold inject_Z at 2 in Hn2.
  split.
  - apply Qle_shift_div_l; [reflexivity | lra].
  - apply Qle_shift_div_r; [reflexivity | lra].
Qed.

End SessionScoreRange.

Section SessionScore.

Variable float_repr : Q -> string.

Lemma score_game_session_inv scenario session g :
  Scorer.score_game_session float_repr scenario session = Ok g ->
  exists b4 p,
    Scorer._score_time_efficiency scenario session = Ok b4
    /\ Scorer.overall_percentage
         (Scorer.weighted_totals (session_breakdowns float_repr scenario session b4) 0 0).1
         (Scorer.weighted_totals (session_breakdowns float_repr scenario session b4) 0 0).2
       = Ok p
    /\ Scorer.breakdowns g = session_breakdowns float_repr scenario session b4
    /\ Scorer.total_points g
       = PyNum.int (Scorer.weighted_totals (session_breakdowns float_repr scenario session b4) 0 0).1
    /\ Scorer.possible_points g
       = PyNum.int (Scorer.weighted_totals (session_breakdowns float_repr scenario session b4) 0 0).2
    /\ Scorer.gs_percentage g = Scorer.round1 p
    /\ Scorer.gs_grade g = Scorer._calculate_grade p
    /\ Scorer._generate_overall_feedback (session_breakdowns float_repr scenario session b4) p
       = Ok (Scorer.overall_feedback g, Scorer.strengths g, Scorer.improvements g).
Proof.
  unfold Scorer.score_game_session. intros H.
  apply bind_Ok_inv in H as (b4 & Hb4 & H).
  exists b4. fold (session_breakdowns float_repr scenario session b4) in H.
  destruct (Scorer.weighted_totals _ _ _) as [total possible].
  apply bind_Ok_inv in H as (p & Hp & H). exists p.
  apply bind_Ok_inv in H as ([[overall strong] weak] & Hfb & H).
  apply bind_Ok_inv in H as (rating & _ & H).
  injection H as <-. cbn. repeat split; done.
Qed.

Lemma category_of_breakdowns scenario session :
  Scorer.category (Scorer._score_investigation_technique scenario session)
    = Scorer.INVESTIGATION_TECHNIQUE
  /\ Scorer.category (Scorer._score_evidence_analysis scenario session)
     = Scorer.EVIDENCE_ANALYSIS
  /\ Scorer.category (Scorer._score_theory_accuracy float_repr scenario session)
     = Scorer.THEORY_ACCURACY
  /\ Scorer.category (Scorer._score_completeness scenario session)
     = Scorer.COMPLETENESS
  /\ Scorer.category (Scorer._score_methodology scenario session)
     = Scorer.METHODOLOGY.
Proof.
  repeat split.
  - unfold Scorer._score_investigation_technique. repeat case_match; reflexivity.
  - unfold Scorer._score_evidence_analysis. repeat case_match; reflexivity.
  - unfold Scorer._score_theory_accuracy. repeat case_match; reflexivity.
  - unfold Scorer._score_completeness. repeat case_match; reflexivity.
  - unfold Scorer._score_methodology. repeat case_match; reflexivity.
Qed.

Lemma category_of_time_efficiency scenario session b :
  Scorer._score_time_efficiency scenario session = Ok b ->
  Scorer.category b = Scorer.TIME_EFFICIENCY.
Proof.
  unfold Scorer._score_time_efficiency. intros H.
  apply bind_Ok_inv in H as ([earned details] & _ & H). by injection H as <-.
Qed.

End SessionScore.

Section SessionScoreTheorems.

Variable float_repr : Q -> string.

Lemma overall_percentage_value (total possible : Q) :
  (0 < possible)%Q ->
  Scorer.overall_percentage total possible = Ok (total / possible * 100)%Q.
Proof.
  intros Hpos. unfold Scorer.overall_percentage, PyNum.gt, PyNum.truediv.
  destruct (Qle_bool possible 0) eqn:E.
  - apply Qle_bool_iff in E. lra.
  - cbn [negb]. destruct (Qeq_bool possible 0) eqn:Hz; [| reflexivity].
    apply Qeq_bool_iff in Hz. lra.
Qed.

(** X2: When the session holds no more discovered evidence than the scenario
    has items and no more critical finds than the scenario has critical
    items, every category has 100 possible points and earns between 0 and
    120 of them, the possible points of the game are 100, and the total
    points and the percentage lie between 0 and 101: the total can exceed
    the possible points, by at most one. *)
Theorem session_score_within_range
    (scenario : Scorer.Scenario) (session : Scorer.SessionData) (g : Scorer.GameScore) :
  (length (Scorer.evidence_discovered session)
   <= length (Scorer.evidence_items scenario))%nat ->
  (length (Scorer.critical_evidence_found session)
   <= length (List.filter Scorer.is_critical (Scorer.evidence_items scenario)))%nat ->
  Scorer.score_game_session float_repr scenario session = Ok g ->
  Scorer.possible_points g = 100
  /\ 0 <= Scorer.total_points g <= 101
  /\ (0 <= Scorer.gs_percentage g)%Q /\ (Scorer.gs_percentage g <= 101)%Q
  /\ Forall (fun b => Scorer.points_possible b = 100
                      /\ 0 <= Scorer.points_earned b <= 120)
            (Scorer.breakdowns g).
Proof.
  intros Hd Hc Hg.
  apply score_game_session_inv in Hg
    as (b4 & p & Hb4 & Hp & Hbs & Htotal & Hposs & Hpct & _ & _).
  destruct (investigation_technique_bounds scenario session) as [H1 P1].
  destruct (evidence_analysis_bounds scenario session Hd) as [H2 P2].
  destruct (theory_accuracy_within_range float_repr scenario session) as (H3 & P3 & _).
  destruct (time_efficiency_values scenario session b4 Hb4) as (P4 & H4 & _).
  destruct (completeness_bounds scenario session Hc) as [H5 P5].
  destruct (methodology_at_most_120 scenario session) as [H6 P6].
  assert (H6' : 0 <= Scorer.points_earned (Scorer._score_methodology scenario session)).
  { unfold Scorer._score_methodology.
    repeat case_match; cbn [Scorer.points_earned];
      repeat match goal with H : (_, _) = (_, _) |- _ => injection H as <- <- end; lia. }
  assert (H4' : 0 <= Scorer.points_earned b4 <= 100).
  { cbn in H4. lia. }
  destruct (category_of_breakdowns float_repr scenario session)
    as (C1 & C2 & C3 & C5 & C6).
  pose proof (category_of_time_efficiency scenario session b4 Hb4) as C4.
  unfold session_breakdowns in Hp, Htotal, Hposs.
  cbn [Scorer.weighted_totals fst snd] in Hp, Htotal, Hposs.
  rewrite C1, C2, C3, C4, C5, C6 in Hp, Htotal, Hposs.
  rewrite P1, P2, P3, P4, P5, P6 in Hp, Hposs.
  cbn [Scorer.category_weights] in Hp, Htotal, Hposs.
  set (e1 := Scorer.points_earned (Scorer._score_investigation_technique scenario session)) in *.
  set (e2 := Scorer.points_earned (Scorer._score_evidence_analysis scenario session)) in *.
  set (e3 := Scorer.points_earned (Scorer._score_theory_accuracy float_repr scenario session)) in *.
  set (e4 := Scorer.points_earned b4) in *.
  set (e5 := Scorer.points_earned (Scorer._score_completeness scenario session)) in *.
  set (e6 := Scorer.points_earned (Scorer._score_methodology scenario session)) in *.
  pose proof (conj H1 (conj H2 (conj H3 (conj H4' (conj H5 (conj H6' H6)))))) as Hz.
  rewrite Zle_Qle in H1, H2, H3, H4', H5, H6, H6'.
  rewrite Zle_Qle in H1, H2, H3, H4', H5.
  change (inject_Z 0) with 0%Q in *. change (inject_Z 100) with 100%Q in *.
  change (inject_Z 120) with 120%Q in *.
  set (total := (0 + inject_Z e1 * (25 # 100) + inject_Z e2 * (20 # 100)
                 + inject_Z e3 * (30 # 100) + inject_Z e4 * (10 # 100)
                 + inject_Z e5 * (10 # 100) + inject_Z e6 * (5 # 100))%Q) in *.
  assert (Ht : (0 <= total)%Q /\ (total <= 101)%Q) by (unfold total; split; lra).
  clearbody total. destruct Ht as [Ht0 Ht1].
  rewrite overall_percentage_value in Hp by reflexivity.
  injection Hp as <-.
  split; [rewrite Hposs; reflexivity |].
  split; [rewrite Htotal; apply int_bounds; [lia | |]; unfold inject_Z; assumption |].
  assert (Hp' : (inject_Z 0 <= total / (0 + 100 * (25 # 100) + 100 * (20 # 100)
                   + 100 * (30 # 100) + 100 * (10 # 100) + 100 * (10 # 100)
                   + 100 * (5 # 100)) * 100)%Q
                /\ (total / (0 + 100 * (25 # 100) + 100 * (20 # 100)
                   + 100 * (30 # 100) + 100 * (10 # 100) + 100 * (10 # 100)
                   + 100 * (5 # 100)) * 100 <= inject_Z 101)%Q).
  { assert (Hq : (0 + 100 * (25 # 100) + 100 * (20 # 100) + 100 * (30 # 100)
                   + 100 * (10 # 100) + 100 * (10 # 100) + 100 * (5 # 100)
                   == 100)%Q) by (vm_compute; reflexivity).
    rewrite Hq. assert (Hx : (total / 100 * 100 == total)%Q) by field.
    rewrite Hx. unfold inject_Z. split; assumption. }
  split; [rewrite Hpct; apply (round1_bounds _ 0 101); tauto |].
  split; [rewrite Hpct; apply (round1_bounds _ 0 101); tauto |].
  rewrite Hbs. unfold session_breakdowns.
  destruct Hz as (? & ? & ? & ? & ? & ? & ?).
  repeat constructor; (done || lia).
Qed.

End SessionScoreTheorems.

Lemma session_score_within_range_witness :
  (length (Scorer.evidence_discovered methodical_session)
   <= length (Scorer.evidence_items two_mails))%nat
  /\ (length (Scorer.critical_evidence_found methodical_session)
      <= length (List.filter Scorer.is_critical (Scorer.evidence_items two_mails)))%nat
  /\ exists g,
       Scorer.score_game_session plain_repr two_mails methodical_session = Ok g
       /\ Scorer.possible_points g = 100
       /\ 0 <= Scorer.total_points g <= 101
       /\ (0 <= Scorer.gs_percentage g)%Q /\ (Scorer.gs_percentage g <= 101)%Q
       /\ Forall (fun b => Scorer.points_possible b = 100
                           /\ 0 <= Scorer.points_earned b <= 120)
                 (Scorer.breakdowns g).
Proof.
  assert (H1 : (length (Scorer.evidence_discovered methodical_session)
                <= length (Scorer.evidence_items two_mails))%nat)
    by (vm_compute; lia).
  assert (H2 : (length (Scorer.critical_evidence_found methodical_session)
                <= length (List.filter Scorer.is_critical
                             (Scorer.evidence_items two_mails)))%nat)
    by (vm_compute; lia).
  split; [exact H1 |]. split; [exact H2 |].
  destruct (Scorer.score_game_session plain_repr two_mails methodical_session)
    as [g|e] eqn:Hg; [| vm_compute in Hg; discriminate].
  exists g. split; [reflexivity |].
  exact (session_score_within_range plain_repr two_mails methodical_session g H1 H2 Hg).
Defined.

Section SessionScoreFailure.

Variable float_repr : Q -> string.

Lemma strengths_loop_ok bs : exists r, Scorer.strengths_loop bs = Ok r.
Proof.
  induction bs as [|b rest [r IH]]; [by eexists |].
  cbn [Scorer.strengths_loop]. destruct (percentage_total b) as (q & -> & _).
  cbn [mbind Res_bind]. rewrite IH. cbn [mbind Res_bind]. by eexists.
Qed.

Lemma improvements_loop_ok bs : exists r, Scorer.improvements_loop bs = Ok r.
Proof.
  induction bs as [|b rest [r IH]]; [by eexists |].
  cbn [Scorer.improvements_loop]. destruct (percentage_total b) as (q & -> & _).
  cbn [mbind Res_bind]. rewrite IH. cbn [mbind Res_bind]. by eexists.
Qed.

Lemma generate_overall_feedback_ok bs p :
  exists r, Scorer._generate_overall_feedback bs p = Ok r.
Proof.
  unfold Scorer._generate_overall_feedback.
  destruct (strengths_loop_ok bs) as [s ->].
  destruct (improvements_loop_ok bs) as [i ->].
  cbn [mbind Res_bind]. by eexists.
Qed.

Lemma truthy_number_nonzero x t :
  Scorer.truthy_number x = Some t -> Qeq_bool t 0 = false.
Proof.
  unfold Scorer.truthy_number. destruct x as [y|]; [| discriminate].
  destruct (Qeq_bool y 0) eqn:E; [discriminate |]. by intros [= <-].
Qed.

Lemma efficiency_rating_ok actual expected :
  exists r, Scorer._calculate_efficiency_rating actual expected = Ok r.
Proof.
  unfold Scorer._calculate_efficiency_rating.
  destruct (Scorer.truthy_number actual) as [a|]; [| by eexists].
  destruct (Scorer.truthy_number expected) as [e|] eqn:He; [| by eexists].
  unfold PyNum.truediv. rewrite (truthy_number_nonzero _ _ He).
  cbn [mbind Res_bind]. by eexists.
Qed.

Lemma time_efficiency_raises scenario session :
  match Scorer._score_time_efficiency scenario session with
  | Ok _ => ~ zero_division scenario session
  | Raise e => e = ZeroDivisionError /\ zero_division scenario session
  end.
Proof.
  unfold Scorer._score_time_efficiency, zero_division.
  destruct (Scorer.truthy_number (Scorer.total_time session)) as [t|] eqn:Ht.
  - unfold PyNum.truediv.
    destruct (Scorer.estimated_duration scenario) as [d|] eqn:Hd; cbn [default from_option id].
    + destruct (Qeq_bool d 0) eqn:E; cbn [mbind Res_bind].
      * split; [reflexivity |]. apply Qeq_bool_iff in E. eauto.
      * destruct (if PyNum.le _ _ then _ else _) as [earned details].
        intros (t' & d' & _ & [= <-] & Hz).
        apply Qeq_bool_iff in Hz. congruence.
    + change (Qeq_bool 3600 0) with false. cbn [mbind Res_bind].
      destruct (if PyNum.le _ _ then _ else _) as [earned details].
      intros (t' & d' & _ & [=] & _).
  - cbn [mbind Res_bind]. intros (t' & d' & [=] & _).
Qed.

(** X3: [score_game_session] raises exactly when the session has a non-zero
    total time and the scenario declares an estimated duration of zero;
    the exception is then [ZeroDivisionError], and in every other case a
    score is returned. *)
Theorem score_game_session_raises_only_on_zero_duration
    (scenario : Scorer.Scenario) (session : Scorer.SessionData) :
  match Scorer.score_game_session float_repr scenario session with
  | Ok _ => ~ zero_division scenario session
  | Raise e => e = ZeroDivisionError /\ zero_division scenario session
  end.
Proof.
  pose proof (time_efficiency_raises scenario session) as Htime.
  unfold Scorer.score_game_session.
  destruct (Scorer._score_time_efficiency scenario session) as [b4|e];
    cbn [mbind Res_bind]; [| exact Htime].
  destruct (Scorer.weighted_totals _ _ _) as [total possible].
  destruct (overall_percentage_total total possible) as (p & -> & _).
  cbn [mbind Res_bind].
  match goal with
  | |- context [Scorer._generate_overall_feedback ?bs p] =>
      destruct (generate_overall_feedback_ok bs p) as ([[overall strong] weak] & ->)
  end.
  cbn [mbind Res_bind].
  match goal with
  | |- context [Scorer._calculate_efficiency_rating ?a ?e] =>
      destruct (efficiency_rating_ok a e) as (rating & ->)
  end.
  exact Htime.
Qed.

End SessionScoreFailure.

Section Feedback.

Variable float_repr : Q -> string.

Lemma breakdowns_possible scenario session :
  Scorer.points_possible (Scorer._score_investigation_technique scenario session) = 100
  /\ Scorer.points_possible (Scorer._score_evidence_analysis scenario session) = 100
  /\ Scorer.points_possible (Scorer._score_theory_accuracy float_repr scenario session)
     = 100
  /\ Scorer.points_possible (Scorer._score_completeness scenario session) = 100
  /\ Scorer.points_possible (Scorer._score_methodology scenario session) = 100.
Proof.
  repeat split.
  - unfold Scorer._score_investigation_technique. repeat case_match; reflexivity.
  - unfold Scorer._score_evidence_analysis. repeat case_match; reflexivity.
  - unfold Scorer._score_theory_accuracy. repeat case_match; reflexivity.
  - unfold Scorer._score_completeness. repeat case_match; reflexivity.
  - unfold Scorer._score_methodology. repeat case_match; reflexivity.
Qed.

Lemma percentage_of_hundred b :
  Scorer.points_possible b = 100 ->
  exists p, Scorer.percentage b = Ok p /\ (p == inject_Z (Scorer.points_earned b))%Q.
Proof.
  intros Hp. unfold Scorer.percentage. rewrite Hp.
  change (100 =? 0) with false. unfold PyNum.truediv.
  change (Qeq_bool (inject_Z 100) 0) with false. cbn [mbind Res_bind].
  eexists. split; [reflexivity |].
  change (inject_Z 100) with 100%Q. field.
Qed.

Lemma ge_of_earned p (z t : Z) :
  (p == inject_Z z)%Q -> PyNum.ge p (inject_Z t) = (t <=? z).
Proof.
  intros Hp. unfold PyNum.ge. destruct (t <=? z) eqn:E.
  - apply Qle_bool_iff. rewrite Hp, <- Zle_Qle. lia.
  - apply not_true_is_false. rewrite Qle_bool_iff, Hp, <- Zle_Qle. lia.
Qed.

Lemma lt_of_earned p (z t : Z) :
  (p == inject_Z z)%Q -> PyNum.lt p (inject_Z t) = (z <? t).
Proof.
  intros Hp. unfold PyNum.lt. destruct (z <? t) eqn:E.
  - apply negb_true_iff, not_true_is_false.
    rewrite Qle_bool_iff, Hp, <- Zle_Qle. lia.
  - apply negb_false_iff, Qle_bool_iff. rewrite Hp, <- Zle_Qle. lia.
Qed.

Lemma strengths_loop_hundred bs :
  Forall (fun b => Scorer.points_possible b = 100) bs ->
  Scorer.strengths_loop bs
  = Ok (category_label "Strong "
          <$> List.filter (fun b => 75 <=? Scorer.points_earned b) bs).
Proof.
  induction 1 as [|b rest Hb _ IH]; [reflexivity |].
  cbn [Scorer.strengths_loop List.filter].
  destruct (percentage_of_hundred b Hb) as (p & -> & Hp).
  rewrite IH. cbn [mbind Res_bind].
  change 75%Q with (inject_Z 75). rewrite (ge_of_earned p _ 75 Hp).
  by destruct (75 <=? Scorer.points_earned b).
Qed.

Lemma improvements_loop_hundred bs :
  Forall (fun b => Scorer.points_possible b = 100) bs ->
  Scorer.improvements_loop bs
  = Ok (category_label "Improve "
          <$> List.filter (fun b => Scorer.points_earned b <? 60) bs).
Proof.
  induction 1 as [|b rest Hb _ IH]; [reflexivity |].
  cbn [Scorer.improvements_loop List.filter].
  destruct (percentage_of_hundred b Hb) as (p & -> & Hp).
  rewrite IH. cbn [mbind Res_bind].
  change 60%Q with (inject_Z 60). rewrite (lt_of_earned p _ 60 Hp).
  by destruct (Scorer.points_earned b <? 60).
Qed.

(** X4: In the score of a game the strengths are the categories that earned
    75 points or more and the improvements the categories that earned less
    than 60, each list in the order of the breakdowns; a category that
    earned between 60 and 74 points is in neither list, and none is in
    both. *)
Theorem strengths_and_improvements_by_points
    (scenario : Scorer.Scenario) (session : Scorer.SessionData) (g : Scorer.GameScore) :
  Scorer.score_game_session float_repr scenario session = Ok g ->
  Scorer.strengths g
  = category_label "Strong "
      <$> List.filter (fun b => 75 <=? Scorer.points_earned b) (Scorer.breakdowns g)
  /\ Scorer.improvements g
     = category_label "Improve "
         <$> List.filter (fun b => Scorer.points_earned b <? 60) (Scorer.breakdowns g)
  /\ (length (Scorer.strengths g) + length (Scorer.improvements g) <= 6)%nat.
Proof.
  intros Hg.
  destruct (score_game_session_inv float_repr scenario session g Hg)
    as (b4 & p & Hb4 & _ & Hbs & _ & _ & _ & _ & Hfb).
  assert (Hall : Forall (fun b => Scorer.points_possible b = 100)
                   (session_breakdowns float_repr scenario session b4)).
  { destruct (breakdowns_possible scenario session) as (P1 & P2 & P3 & P5 & P6).
    destruct (time_efficiency_values scenario session b4 Hb4) as (P4 & _).
    unfold session_breakdowns. repeat constructor; done. }
  rewrite Hbs. clear Hbs.
  set (bs := session_breakdowns float_repr scenario session b4) in *.
  assert (Hsix : length bs = 6%nat) by reflexivity.
  clearbody bs.
  unfold Scorer._generate_overall_feedback in Hfb.
  rewrite (strengths_loop_hundred _ Hall), (improvements_loop_hundred _ Hall) in Hfb.
  cbn [mbind Res_bind] in Hfb. injection Hfb as _ Hs Hi.
  rewrite <- Hs, <- Hi. split; [done |]. split; [done |].
  rewrite !length_fmap.
  assert (Hlen : forall bs : list Scorer.ScoreBreakdown,
            (length (List.filter (fun b => (75 <=? Scorer.points_earned b)%Z) bs)
             + length (List.filter (fun b => (Scorer.points_earned b <? 60)%Z) bs)
             <= length bs)%nat).
  { clear. induction bs as [|b bs IH]; [done |]. cbn [List.filter length].
    destruct (75 <=? Scorer.points_earned b) eqn:E1;
      destruct (Scorer.points_earned b <? 60) eqn:E2; cbn [length]; lia. }
  rewrite <- Hsix. apply Hlen.
Qed.

End Feedback.

Lemma strengths_and_improvements_by_points_witness :
  exists g,
    Scorer.score_game_session plain_repr two_mails methodical_session = Ok g
    /\ Scorer.strengths g
       = category_label "Strong "
           <$> List.filter (fun b => 75 <=? Scorer.points_earned b) (Scorer.breakdowns g)
    /\ Scorer.improvements g
       = category_label "Improve "
           <$> List.filter (fun b => Scorer.points_earned b <? 60) (Scorer.breakdowns g)
    /\ (length (Scorer.strengths g) + length (Scorer.improvements g) <= 6)%nat.
Proof.
  destruct (Scorer.score_game_session plain_repr two_mails methodical_session)
    as [g|e] eqn:Hg; [| vm_compute in Hg; discriminate].
  exists g. split; [reflexivity |].
  exact (strengths_and_improvements_by_points plain_repr two_mails methodical_session
           g Hg).
Defined.

Section QuickScoreBounds.

Lemma component_score_bounds (t : gmap string string) c mx :
  In mx [20; 15; 10] ->
  0 <= Scorer.component_score t c mx <= PyNum.int (inject_Z mx * (9 # 10)).
Proof.
  intros Hmx. unfold Scorer.component_score.
  destruct Hmx as [<- | [<- | [<- | []]]];
    repeat case_match; vm_compute; split; discriminate.
Qed.

Lemma component_score_unfilled (t : gmap string string) c mx :
  Scorer.filled t c = false -> Scorer.component_score t c mx = 0.
Proof. intros H. unfold Scorer.component_score. by rewrite H. Qed.

Lemma score_components_total (t : gmap string string) items acc scores :
  Scorer.score_components t items acc scores
  = (acc + List.fold_right Z.add 0
             (List.map (fun item => Scorer.component_score t item.1 item.2) items),
     scores ++ List.map (fun item => (item.1, Scorer.component_score t item.1 item.2))
                        items).
Proof.
  revert acc scores. induction items as [|[c mx] rest IH]; intros acc scores.
  - cbn. by rewrite Z.add_0_r, app_nil_r.
  - cbn [Scorer.score_components]. rewrite IH. cbn. f_equal; [lia |].
    by rewrite <- app_assoc.
Qed.

Lemma theory_percentage_close (total : Z) :
  0 <= total <= 89 ->
  (inject_Z total - (1 # 10000000000000) < theory_percentage total)%Q
  /\ (theory_percentage total < inject_Z total + (1 # 10000000000000))%Q
  /\ (~ In total inexact_totals -> theory_percentage total == inject_Z total)%Q
  /\ Qle_bool 90 (theory_percentage total) = false.
Proof.
  intros Ht.
  assert (Hall : forallb
            (fun t =>
               negb (Qle_bool (theory_percentage t)
                              (inject_Z t - (1 # 10000000000000)))
               && negb (Qle_bool (inject_Z t + (1 # 10000000000000))
                                 (theory_percentage t))
               && (existsb (Z.eqb t) inexact_totals
                   || Qeq_bool (theory_percentage t) (inject_Z t))
               && negb (Qle_bool 90 (theory_percentage t)))
            (List.map Z.of_nat (seq 0 90)) = true)
    by (vm_compute; reflexivity).
  assert (Hin : In total (List.map Z.of_nat (seq 0 90))).
  { apply in_map_iff. exists (Z.to_nat total). split; [lia |].
    apply in_seq. lia. }
  pose proof (proj1 (forallb_forall _ _) Hall total Hin) as Hc.
  cbv beta in Hc.
  apply andb_prop in Hc as [Hc H90]. apply andb_prop in Hc as [Hc Heq].
  apply andb_prop in Hc as [Hlo Hhi].
  apply negb_true_iff in Hlo, Hhi, H90.
  split; [| split; [| split; [| exact H90]]].
  - apply Qnot_le_lt. intros Hle. apply Qle_bool_iff in Hle. congruence.
  - apply Qnot_le_lt. intros Hle. apply Qle_bool_iff in Hle. congruence.
  - intros Hnot. apply orb_prop in Heq as [Hex | Heq].
    + exfalso. apply Hnot. apply existsb_exists in Hex as (t' & Hin' & Ht').
      apply Z.eqb_eq in Ht'. by subst t'.
    + by apply Qeq_bool_iff.
Qed.

(** X5: [score_theory] raises only when the record has no theory entry.
    The total it returns lies between 0 and 89 of 100 possible points; the
    percentage, the float [(total / 100) * 100], lies within 10^-13 of the
    total and equals it unless the total is 7, 14, 28, 29, 55, 56, 57 or
    58; it stays below 90, and so no theory is graded A+ or rated
    Outstanding. *)
Theorem score_theory_never_outstanding (record : Scorer.TheoryRecord) :
  match Scorer.score_theory record with
  | Ok r =>
      Scorer.theory record <> None
      /\ 0 <= Scorer.total_score r <= 89
      /\ Scorer.max_possible_score r = 100
      /\ (inject_Z (Scorer.total_score r) - (1 # 10000000000000)
          < Scorer.ts_percentage r)%Q
      /\ (Scorer.ts_percentage r
          < inject_Z (Scorer.total_score r) + (1 # 10000000000000))%Q
      /\ (~ In (Scorer.total_score r) inexact_totals ->
          Scorer.ts_percentage r == inject_Z (Scorer.total_score r))%Q
      /\ (Scorer.ts_percentage r < 90)%Q
      /\ Scorer.grade r <> "A+"
      /\ Scorer.performance_level r <> "Outstanding"
  | Raise e => Scorer.theory record = None /\ e = KeyError "theory"
  end.
Proof.
  unfold Scorer.score_theory. destruct (Scorer.theory record) as [t|];
    cbn [mbind Res_bind]; [| done].
  rewrite score_components_total. unfold Scorer.components.
  cbn [List.map List.fold_right fst snd app].
  pose proof (component_score_bounds t "initial_access" 20) as H1.
  pose proof (component_score_bounds t "techniques_used" 20) as H2.
  pose proof (component_score_bounds t "timeline" 15) as H3.
  pose proof (component_score_bounds t "objective" 15) as H4.
  pose proof (component_score_bounds t "attribution" 10) as H5.
  pose proof (component_score_bounds t "impact" 10) as H6.
  pose proof (component_score_bounds t "additional_iocs" 10) as H7.
  change (PyNum.int (inject_Z 20 * (9 # 10))) with 18 in *.
  change (PyNum.int (inject_Z 15 * (9 # 10))) with 13 in *.
  change (PyNum.int (inject_Z 10 * (9 # 10))) with 9 in *.
  specialize (H1 ltac:(cbn; tauto)). specialize (H2 ltac:(cbn; tauto)).
  specialize (H3 ltac:(cbn; tauto)). specialize (H4 ltac:(cbn; tauto)).
  specialize (H5 ltac:(cbn; tauto)). specialize (H6 ltac:(cbn; tauto)).
  specialize (H7 ltac:(cbn; tauto)).
  set (total := 0 + (Scorer.component_score t "initial_access" 20 + _)) in *.
  assert (Ht : 0 <= total <= 89) by (unfold total; lia).
  clearbody total.
  change (List.fold_left Z.add [20; 20; 15; 15; 10; 10; 10] 0) with 100.
  unfold PyNum.int_truediv. change (100 =? 0) with false.
  cbn [mbind Res_bind Scorer.total_score Scorer.max_possible_score
       Scorer.ts_percentage Scorer.grade Scorer.performance_level].
  fold (theory_percentage total).
  destruct (theory_percentage_close total Ht) as (Hlo & Hhi & Heq & Hlt).
  set (p := theory_percentage total) in *. clearbody p.
  split; [done |]. split; [done |]. split; [done |].
  split; [exact Hlo |]. split; [exact Hhi |]. split; [exact Heq |].
  split; [| split].
  - apply Qnot_le_lt. intros Hle. apply Qle_bool_iff in Hle. congruence.
  - unfold Scorer._calculate_grade, Scorer.grade_thresholds.
    cbn [Scorer.grade_loop]. unfold PyNum.ge, inject_Z. rewrite Hlt.
    repeat match goal with
           | |- context [Qle_bool ?a p] => destruct (Qle_bool a p)
           end; discriminate.
  - unfold PyNum.ge. rewrite Hlt. repeat case_match; discriminate.
Qed.

(** A brief time line alone earns 7 points, and the percentage returned
    is the float 7.000000000000001, not 7. *)
Example score_theory_rounded_percentage :
  exists r, Scorer.score_theory {| Scorer.theory := Some brief_timeline |} = Ok r
    /\ Scorer.total_score r = 7
    /\ Scorer.ts_percentage r = 7881299347898369 # 1125899906842624
    /\ (7 < Scorer.ts_percentage r)%Q.
Proof.
  eexists. split; [vm_compute; reflexivity |].
  split; [reflexivity |]. split; [reflexivity |]. vm_compute. reflexivity.
Qed.

(** X6: When no rubric component is filled (each is absent, empty or blank),
    [score_theory] returns a total of 0, the percentage 0, the grade F and
    the level Needs Improvement, and every component scores 0. *)
Theorem score_theory_nothing_filled (t : gmap string string) :
  (forall c, In c component_names -> Scorer.filled t c = false) ->
  exists r, Scorer.score_theory {| Scorer.theory := Some t |} = Ok r
    /\ Scorer.total_score r = 0
    /\ (Scorer.ts_percentage r == 0)%Q
    /\ Scorer.grade r = "F"
    /\ Scorer.performance_level r = "Needs Improvement"
    /\ Scorer.component_scores r = (fun c => (c, 0)) <$> component_names
    /\ (Scorer.completeness r == 0)%Q.
Proof.
  intros H. unfold Scorer.score_theory. cbn [Scorer.theory mbind Res_bind].
  rewrite score_components_total. unfold Scorer.components.
  cbn [List.map List.fold_right fst snd app].
  rewrite !component_score_unfilled
    by (apply H; unfold component_names, Scorer.components; cbn; tauto).
  eexists. split; [reflexivity |].
  cbn [Scorer.total_score Scorer.ts_percentage Scorer.grade Scorer.performance_level
       Scorer.component_scores Scorer.completeness].
  repeat split; try reflexivity.
  unfold Scorer._assess_theory_completeness, Scorer.required_components.
  cbn [List.filter].
  rewrite !H by (unfold component_names, Scorer.components; cbn; tauto).
  reflexivity.
Qed.

Lemma score_theory_nothing_filled_witness :
  (forall c, In c component_names -> Scorer.filled (∅ : gmap string string) c = false)
  /\ exists r, Scorer.score_theory {| Scorer.theory := Some ∅ |} = Ok r
       /\ Scorer.total_score r = 0
       /\ (Scorer.ts_percentage r == 0)%Q
       /\ Scorer.grade r = "F"
       /\ Scorer.performance_level r = "Needs Improvement"
       /\ Scorer.component_scores r = (fun c => (c, 0)) <$> component_names
       /\ (Scorer.completeness r == 0)%Q.
Proof.
  assert (H : forall c, In c component_names ->
              Scorer.filled (∅ : gmap string string) c = false).
  { intros c _. unfold Scorer.filled. by rewrite lookup_empty. }
  split; [exact H | exact (score_theory_nothing_filled ∅ H)].
Defined.

End QuickScoreBounds.

(** ** Further properties of the session manager *)

Section ManagerBasics.

Lemma cleanup_dir_lookup k m sid f :
  sessions_dir (_cleanup_old_sessions k m) !! sid = Some f ->
  sessions_dir m !! sid = Some f.
Proof.
  unfold _cleanup_old_sessions. case_match; [| done].
  rewrite unlink_all_lookup. by case_decide.
Qed.

Lemma cleanup_cache_backed k m :
  cache_backed m -> cache_backed (_cleanup_old_sessions k m).
Proof.
  unfold cache_backed, _cleanup_old_sessions. intros Hm. case_match; [| done].
  intros sid l. rewrite unlink_all_cache_lookup, unlink_all_lookup.
  case_decide; [done |]. apply Hm.
Qed.

Lemma cleanup_cache_lookup k m sid l :
  _session_cache (_cleanup_old_sessions k m) !! sid = Some l ->
  _session_cache m !! sid = Some l
  /\ is_Some (sessions_dir m !! sid) = is_Some (sessions_dir (_cleanup_old_sessions k m) !! sid).
Proof.
  unfold _cleanup_old_sessions. case_match; [| done].
  rewrite unlink_all_cache_lookup, unlink_all_lookup. by case_decide.
Qed.

End ManagerBasics.

Section CacheBacked.

Lemma save_session_cache_backed now session m :
  cache_backed m -> cache_backed (save_session now session m).1.
Proof.
  intros Hm. unfold save_session.
  destruct (_ ≫= _) as [s|]; [| done]. cbn [fst].
  apply cleanup_cache_backed. intros sid l Hc.
  cbn [sessions_dir _session_cache with_dir] in *.
  destruct (decide (sid = session_id s)) as [->|Hne].
  - rewrite lookup_insert_eq. by eexists.
  - rewrite lookup_insert_ne by done. by eapply Hm.
Qed.

Lemma mutate_current_cache_backed now f m :
  cache_backed m -> cache_backed (mutate_current now f m).1.
Proof.
  intros Hm. unfold mutate_current.
  destruct (current_session m) as [l|]; [| done].
  destruct (objects m !! l) as [s|]; [| done].
  by apply save_session_cache_backed.
Qed.

Lemma create_session_cache_backed now fresh_id scenario_id scenario_name player_name m :
  cache_backed m ->
  cache_backed
    (create_session now fresh_id scenario_id scenario_name player_name m).1.
Proof.
  intros Hm. unfold create_session, save_session.
  cbn [fst current_session objects with_cache with_current with_objects
       mbind option_bind].
  rewrite list_lookup_middle by done. cbn [fst].
  apply cleanup_cache_backed. intros sid l.
  cbn [sessions_dir _session_cache with_dir with_cache with_current with_objects
       session_id new_session].
  destruct (decide (sid = fresh_id)) as [->|Hne].
  - intros _. rewrite lookup_insert_eq. by eexists.
  - rewrite !lookup_insert_ne by done. apply Hm.
Qed.

Lemma load_session_cache_backed sid m :
  cache_backed m -> cache_backed (load_session sid m).1.
Proof.
  intros Hm. unfold load_session.
  destruct (_session_cache m !! sid); [done |].
  destruct (sessions_dir m !! sid) as [file|] eqn:Hf; [| done].
  destruct (content file); [| done]. cbn [fst].
  intros sid' l. cbn [sessions_dir _session_cache with_cache with_objects].
  destruct (decide (sid' = sid)) as [->|Hne].
  - by rewrite Hf.
  - rewrite lookup_insert_ne by done. apply Hm.
Qed.

Lemma resume_session_cache_backed sid m :
  cache_backed m -> cache_backed (resume_session sid m).1.
Proof.
  intros Hm. unfold resume_session.
  pose proof (load_session_cache_backed sid m Hm) as Hl.
  destruct (load_session sid m) as [m1 [l|]]; [| done]. cbn [fst] in *.
  destruct (objects m1 !! l) as [s|]; [| done].
  destruct (is_completed s); done.
Qed.

Lemma delete_session_cache_backed sid m :
  cache_backed m -> cache_backed (delete_session sid m).1.
Proof.
  intros Hm. unfold delete_session.
  destruct (sessions_dir m !! sid); [| done]. cbn [fst].
  assert (Hd : cache_backed
                 (with_cache (with_dir m (delete sid (sessions_dir m)))
                    (delete sid (_session_cache (with_dir m (delete sid (sessions_dir m))))))).
  { intros sid' l. cbn [sessions_dir _session_cache with_cache with_dir].
    destruct (decide (sid' = sid)) as [->|Hne].
    - by rewrite lookup_delete_eq.
    - rewrite !lookup_delete_ne by done. apply Hm. }
  case_match; done.
Qed.

Lemma do_call_cache_backed m c : cache_backed m -> cache_backed (do_call m c).
Proof.
  intros Hm. destruct c; cbn [do_call].
  - by apply create_session_cache_backed.
  - by apply save_session_cache_backed.
  - by apply load_session_cache_backed.
  - by apply resume_session_cache_backed.
  - by apply delete_session_cache_backed.
  - by apply mutate_current_cache_backed.
  - by apply mutate_current_cache_backed.
  - by apply mutate_current_cache_backed.
  - by apply mutate_current_cache_backed.
  - by apply mutate_current_cache_backed.
  - by apply mutate_current_cache_backed.
  - by apply cleanup_cache_backed.
Qed.

Lemma do_calls_cache_backed calls m :
  cache_backed m -> cache_backed (do_calls calls m).
Proof.
  revert m. induction calls as [|c rest IH]; intros m Hm; [done |].
  apply IH. by apply do_call_cache_backed.
Qed.

(** X10: Starting from a new manager, whatever calls are made (creates, saves,
    loads, resumes, deletions, mutations, clean-ups), [load_session]
    returns a session only if the directory holds its file: no session
    removed by [delete_session] or by the retention clean-up is served from
    the cache. *)
Theorem loaded_sessions_have_files
    (dir : gmap string SessionFile) (limit : Z) (calls : list Call) (sid : string) :
  (load_session sid (do_calls calls (init dir limit))).2 <> None ->
  is_Some (sessions_dir (do_calls calls (init dir limit)) !! sid).
Proof.
  assert (Hm : cache_backed (do_calls calls (init dir limit))).
  { apply do_calls_cache_backed. intros s l. cbn. by rewrite lookup_empty. }
  set (m := do_calls calls (init dir limit)) in *.
  unfold load_session. destruct (_session_cache m !! sid) as [l|] eqn:Hc.
  - intros _. by eapply Hm.
  - destruct (sessions_dir m !! sid) as [file|]; [by eexists | done].
Qed.

End CacheBacked.

Section LedgerGrowth.

Lemma extends_refl s : extends s s.
Proof. unfold extends. repeat split; (done || lia). Qed.

Lemma extends_trans s1 s2 s3 : extends s1 s2 -> extends s2 s3 -> extends s1 s3.
Proof.
  unfold extends.
  intros (A1 & A2 & A3 & A4 & A5 & A6 & A7 & A8 & A9 & A10)
         (B1 & B2 & B3 & B4 & B5 & B6 & B7 & B8 & B9 & B10).
  repeat split; try congruence; try (etrans; eassumption); try lia; auto.
Qed.

Lemma grows_refl m : grows m m.
Proof. intros l s Hs. exists s. split; [done | apply extends_refl]. Qed.

Lemma grows_trans m1 m2 m3 : grows m1 m2 -> grows m2 m3 -> grows m1 m3.
Proof.
  intros H12 H23 l s Hs. destruct (H12 l s Hs) as (s2 & Hs2 & E12).
  destruct (H23 l s2 Hs2) as (s3 & Hs3 & E23).
  exists s3. split; [done | by eapply extends_trans].
Qed.

Lemma grows_same_objects m m' : objects m' = objects m -> grows m m'.
Proof. intros Heq l s Hs. rewrite Heq. exists s. split; [done | apply extends_refl]. Qed.

Lemma save_session_objects now session m :
  objects (save_session now session m).1 = objects m.
Proof.
  unfold save_session. destruct (_ ≫= _) as [s|]; [| done]. cbn [fst].
  by rewrite (proj2 (proj2 (cleanup_fields _ _))).
Qed.

Lemma mutate_current_grows now f m :
  (forall s, extends s (f s)) -> grows m (mutate_current now f m).1.
Proof.
  intros Hf. unfold mutate_current.
  destruct (current_session m) as [l0|]; [| apply grows_refl].
  destruct (objects m !! l0) as [s0|] eqn:H0; [| apply grows_refl].
  intros l s Hs. rewrite save_session_objects. cbn [objects with_objects].
  destruct (decide (l = l0)) as [->|Hne].
  - exists (f s0). split.
    + apply list_lookup_insert_eq. by eapply lookup_lt_Some.
    + assert (s = s0) as -> by congruence. apply Hf.
  - exists s. split; [by rewrite list_lookup_insert_ne | apply extends_refl].
Qed.

Lemma grows_append m extra m' :
  objects m' = objects m ++ extra -> grows m m'.
Proof.
  intros Heq l s Hs. rewrite Heq. exists s.
  split; [by apply lookup_app_l_Some | apply extends_refl].
Qed.

Lemma load_session_objects sid m :
  exists extra, objects (load_session sid m).1 = objects m ++ extra.
Proof.
  unfold load_session. repeat case_match; cbn [fst objects with_cache with_objects];
    try (exists []; by rewrite app_nil_r). by eexists.
Qed.

Lemma do_call_grows m c : grows m (do_call m c).
Proof.
  destruct c; cbn [do_call].
  - unfold create_session. cbn [fst]. eapply (grows_append _ [_]).
    by rewrite save_session_objects.
  - apply grows_same_objects, save_session_objects.
  - destruct (load_session_objects sid m) as [extra He]. by eapply grows_append.
  - destruct (load_session_objects sid m) as [extra He].
    apply (grows_append _ extra). rewrite <- He. unfold resume_session.
    destruct (load_session sid m) as [m1 [l|]]; [| done]. cbn [fst].
    destruct (objects m1 !! l) as [s|]; [| done]. by destruct (is_completed s).
  - apply grows_same_objects. unfold delete_session.
    destruct (sessions_dir m !! sid); [| done]. cbn [fst]. by case_match.
  - apply mutate_current_grows. intros s. unfold extends.
    cbn. repeat split; try done; try lia. by eexists.
  - apply mutate_current_grows. intros s. unfold extends.
    cbn. repeat split; try done; try lia. by eexists.
  - apply mutate_current_grows. intros s. unfold extends.
    cbn. repeat split; try done; try lia. by eexists.
  - apply mutate_current_grows. intros s. unfold extends.
    cbn. repeat split; try done; lia.
  - apply mutate_current_grows. intros s. unfold extends.
    cbn. repeat split; try done; lia.
  - apply mutate_current_grows. intros s. unfold extends.
    cbn. repeat split; try done; lia.
  - apply grows_same_objects. unfold cleanup_sessions. cbn [fst].
    by rewrite (proj2 (proj2 (cleanup_fields _ _))).
Qed.

(** X11: Whatever calls are made on the manager, a session object keeps its
    identity (session id, scenario, player, start time), its ledgers of
    actions, evidence and theories are only appended to, its hint counter
    never decreases, and once completed it stays completed. *)
Theorem session_objects_only_grow
    (m : SessionManager) (calls : list Call) (l : nat) (s : SessionState) :
  objects m !! l = Some s ->
  exists s', objects (do_calls calls m) !! l = Some s' /\ extends s s'.
Proof.
  revert m s. induction calls as [|c rest IH]; intros m s Hs.
  - exists s. split; [done | apply extends_refl].
  - destruct (do_call_grows m c l s Hs) as (s1 & Hs1 & E1).
    destruct (IH (do_call m c) s1 Hs1) as (s' & Hs' & E').
    exists s'. split; [exact Hs' | by eapply extends_trans].
Qed.

End LedgerGrowth.

Section Completion.

(** X12: Once [complete_session] has run on the current session, and provided
    that the cache holds no other object under its id, [resume_session]
    with that id is rejected and the current session stays as it is,
    whether or not the clean-up kept the file. *)
Theorem complete_then_resume_rejected
    (now : Clock) (final_score : option (gmap string string))
    (m : SessionManager) (l : nat) (s : SessionState) :
  current_session m = Some l ->
  objects m !! l = Some s ->
  (forall l', _session_cache m !! session_id s = Some l' -> l' = l) ->
  (complete_session now final_score m).2 = true
  /\ (resume_session (session_id s) (complete_session now final_score m).1).2 = None
  /\ current_session
       (resume_session (session_id s) (complete_session now final_score m).1).1
     = Some l.
Proof.
  intros Hcur Hobj Hcache. unfold complete_session, mutate_current.
  rewrite Hcur, Hobj.
  set (s' := set_completed s true (Some now) _).
  assert (Hl : (l < length (objects m))%nat) by (by eapply lookup_lt_Some).
  unfold save_session. cbn [current_session with_objects objects].
  rewrite Hcur. cbn [mbind option_bind].
  rewrite list_lookup_insert_eq by done. cbn [fst snd].
  split; [reflexivity |].
  set (m1 := with_dir _ _).
  destruct (cleanup_fields (max_sessions m1) m1) as (_ & Hc & Ho).
  set (m2 := _cleanup_old_sessions (max_sessions m1) m1) in *.
  assert (Hobj2 : objects m2 !! l = Some s').
  { rewrite Ho. cbn. by apply list_lookup_insert_eq. }
  unfold resume_session, load_session.
  change (session_id s') with (session_id s).
  destruct (_session_cache m2 !! session_id s) as [l'|] eqn:Hc2.
  - apply cleanup_cache_lookup in Hc2 as [Hc1 _]. cbn in Hc1.
    apply Hcache in Hc1 as ->. rewrite Hobj2. cbn. by rewrite Hc.
  - destruct (sessions_dir m2 !! session_id s) as [file|] eqn:Hf.
    + apply cleanup_dir_lookup in Hf. cbn in Hf.
      rewrite lookup_insert_eq in Hf. injection Hf as <-.
      cbn [content objects with_cache with_objects].
      rewrite list_lookup_middle by done. cbn. by rewrite Hc.
    + cbn. by rewrite Hc.
Qed.

End Completion.

Section Limits.

(** Unlinking the sorted files from position [j] on keeps the [j] most
    recent ones. *)
Lemma unlink_from_retained (j : nat) m :
  retained (Z.of_nat j) (sessions_dir m)
    (sessions_dir
       (List.fold_left unlink_session
          (drop j (sort_newest_first (glob_mtimes (sessions_dir m)))) m)).
Proof.
  destruct (sorted_glob_facts (sessions_dir m)) as (Hlen & Hnd & Hin & Hsorted).
  set (files := sort_newest_first (glob_mtimes (sessions_dir m))) in *.
  set (del := drop j files).
  assert (Hsplit : files = take j files ++ del) by (symmetry; apply take_drop).
  assert (Hdel_in : forall n, n ∈ del.*1 -> is_Some (sessions_dir m !! n)).
  { intros n Hn. apply list_elem_of_fmap in Hn as ([n' t] & -> & Hn).
    assert (Hf : (n', t) ∈ files) by (rewrite Hsplit, elem_of_app; by right).
    apply Hin in Hf as (f & Hf & _). by exists f. }
  assert (Hdel_nd : NoDup del.*1).
  { rewrite Hsplit, fmap_app in Hnd. by apply NoDup_app in Hnd as (_ & _ & ?). }
  split; [| split].
  - apply map_subseteq_spec. intros n f. rewrite unlink_all_lookup. by case_decide.
  - pose proof (unlink_all_size del m Hdel_nd Hdel_in) as Hsize.
    assert (length del = (length files - j)%nat) by apply length_drop. lia.
  - intros kept f dropped f' Hkept Hbefore Hdropped.
    rewrite unlink_all_lookup in Hkept, Hdropped.
    destruct (decide (kept ∈ del.*1)) as [|Hkept_nd]; [done |].
    destruct (decide (dropped ∈ del.*1)) as [Hd|]; [| congruence].
    apply list_elem_of_fmap in Hd as ([n' t'] & -> & Hd). cbn in Hbefore.
    assert (Hd' : (n', t') ∈ files) by (rewrite Hsplit, elem_of_app; by right).
    apply Hin in Hd' as (f2 & Hf2 & <-).
    assert (f2 = f') as -> by congruence.
    assert (Hkf : (kept, st_mtime f) ∈ files) by (apply Hin; eauto).
    rewrite Hsplit, elem_of_app in Hkf. destruct Hkf as [Hkf | Hkf].
    + rewrite Hsplit in Hsorted.
      exact (StronglySorted_app_1_elem_of _ _ _ _ _ Hsorted Hkf Hd).
    + exfalso. apply Hkept_nd. apply list_elem_of_fmap.
      by exists (kept, st_mtime f).
Qed.

(** X14: With a negative limit [-j] the clean-up does not empty the directory:
    it removes the [j] least recently modified files (all of them when
    there are fewer) and keeps the others. *)
Theorem negative_limit_drops_the_oldest (k : Z) (m : SessionManager) :
  k < 0 ->
  retained (Z.max 0 (Z.of_nat (size (sessions_dir m)) + k)) (sessions_dir m)
    (sessions_dir (_cleanup_old_sessions k m)).
Proof.
  intros Hk. unfold _cleanup_old_sessions.
  assert (Hlen : length (sort_newest_first (glob_mtimes (sessions_dir m)))
                 = size (sessions_dir m))
    by apply (sorted_glob_facts (sessions_dir m)).
  assert ((k <? Z.of_nat (length (sort_newest_first (glob_mtimes (sessions_dir m)))))
          = true) as -> by (apply Z.ltb_lt; lia).
  unfold slice_from. assert ((0 <=? k) = false) as -> by (apply Z.leb_gt; lia).
  rewrite Hlen.
  replace (Z.max 0 (Z.of_nat (size (sessions_dir m)) + k))
    with (Z.of_nat (Z.to_nat (Z.of_nat (size (sessions_dir m)) + k))) by lia.
  apply unlink_from_retained.
Qed.

Lemma cleanup_sessions_unfold limit m :
  cleanup_sessions limit m
  = (_cleanup_old_sessions (default (max_sessions m) limit) m,
     Z.of_nat (size (sessions_dir m))
     - Z.of_nat (size (sessions_dir
                        (_cleanup_old_sessions (default (max_sessions m) limit) m)))).
Proof. reflexivity. Qed.

(** X13: The manual clean-up under a limit that is not negative returns the
    number of files above the limit, and a second call removes nothing
    and returns 0. *)
Theorem cleanup_sessions_counts_and_settles (limit : option Z) (m : SessionManager) :
  0 <= default (max_sessions m) limit ->
  (cleanup_sessions limit m).2
  = Z.max 0 (Z.of_nat (size (sessions_dir m)) - default (max_sessions m) limit)
  /\ cleanup_sessions limit (cleanup_sessions limit m).1
     = ((cleanup_sessions limit m).1, 0).
Proof.
  intros Hk. rewrite !cleanup_sessions_unfold. cbn [fst snd].
  set (k := default (max_sessions m) limit) in *.
  destruct (cleanup_retained k m Hk) as (_ & Hsize & _).
  split; [lia |].
  set (m1 := _cleanup_old_sessions k m) in *.
  assert (Hk1 : default (max_sessions m1) limit = k).
  { unfold k, m1. destruct limit; [done |]. cbn.
    apply (cleanup_fields (max_sessions m) m). }
  rewrite Hk1.
  assert (Hsame : _cleanup_old_sessions k m1 = m1).
  { unfold _cleanup_old_sessions at 1.
    assert (Hlen : length (sort_newest_first (glob_mtimes (sessions_dir m1)))
                   = size (sessions_dir m1))
      by apply (sorted_glob_facts (sessions_dir m1)).
    rewrite Hlen.
    assert ((k <? Z.of_nat (size (sessions_dir m1))) = false) as ->
      by (apply Z.ltb_ge; lia).
    reflexivity. }
  rewrite Hsame. f_equal. lia.
Qed.

Lemma zero_limit_empties k m : k = 0 -> sessions_dir (_cleanup_old_sessions k m) = ∅.
Proof.
  intros ->. destruct (cleanup_retained 0 m) as (_ & Hsize & _); [lia |].
  apply map_size_empty_inv. lia.
Qed.

(** X15: Under a limit of 0 nothing is persisted: [create_session] returns a
    new current session and its save succeeds, yet the directory is empty
    afterwards and [load_session] does not find the session. *)
Theorem zero_limit_persists_nothing
    (now : Clock) (fresh_id scenario_id scenario_name player_name : string)
    (m : SessionManager) :
  max_sessions m = 0 ->
  let created :=
    create_session now fresh_id scenario_id scenario_name player_name m in
  sessions_dir created.1 = ∅
  /\ current_session created.1 = Some created.2
  /\ objects created.1 !! created.2
     = Some (new_session now fresh_id scenario_id scenario_name player_name)
  /\ (load_session fresh_id created.1).2 = None.
Proof.
  intros Hz. cbn zeta. unfold create_session, save_session.
  cbn [fst snd current_session objects with_cache with_current with_objects
       mbind option_bind].
  rewrite list_lookup_middle by done. cbn [fst].
  set (m1 := with_dir _ _).
  assert (Hempty : sessions_dir (_cleanup_old_sessions (max_sessions m1) m1) = ∅)
    by (by apply zero_limit_empties).
  destruct (cleanup_fields (max_sessions m1) m1) as (_ & Hc & Ho).
  split; [exact Hempty |]. split; [by rewrite Hc |].
  split; [rewrite Ho; cbn; by apply list_lookup_middle |].
  unfold load_session.
  destruct (_session_cache (_cleanup_old_sessions (max_sessions m1) m1) !! fresh_id)
    as [l|] eqn:Hcache.
  - exfalso. apply cleanup_cache_lookup in Hcache as [_ Hsame].
    rewrite Hempty, lookup_empty in Hsame.
    assert (Hsome : is_Some (sessions_dir m1 !! fresh_id)).
    { cbn. rewrite lookup_insert_eq. by eexists. }
    rewrite Hsame in Hsome. by destruct Hsome.
  - by rewrite Hempty, lookup_empty.
Qed.

End Limits.

Section Persistence.

(** X8: A second [load_session] of the same id returns the same object and
    leaves the manager as it is. *)
Theorem load_session_is_cached (sid : string) (m m1 : SessionManager) (l : nat) :
  load_session sid m = (m1, Some l) ->
  load_session sid m1 = (m1, Some l) /\ is_Some (_session_cache m1 !! sid).
Proof.
  unfold load_session at 1. intros H.
  destruct (_session_cache m !! sid) as [l0|] eqn:Hc.
  - injection H as <- <-. unfold load_session. rewrite Hc. by split; [| eexists].
  - destruct (sessions_dir m !! sid) as [file|]; [| discriminate].
    destruct (content file) as [s|]; [| discriminate].
    injection H as <- <-. unfold load_session.
    cbn [_session_cache with_cache with_objects]. rewrite lookup_insert_eq.
    by split; [| eexists].
Qed.

(** X9: [delete_session] succeeds exactly when the file exists; afterwards
    the session cannot be loaded, a second deletion fails without effect,
    and a current session with that id is no longer current.  When the file
    does not exist nothing changes. *)
Theorem delete_session_removes (sid : string) (m : SessionManager) :
  ((delete_session sid m).2 = true <-> is_Some (sessions_dir m !! sid))
  /\ ((delete_session sid m).2 = false -> (delete_session sid m).1 = m)
  /\ ((delete_session sid m).2 = true ->
      (load_session sid (delete_session sid m).1).2 = None
      /\ delete_session sid (delete_session sid m).1 = ((delete_session sid m).1, false)
      /\ (forall s, current_object m = Some s -> session_id s = sid ->
            current_session (delete_session sid m).1 = None)).
Proof.
  unfold delete_session at 1 2 3 4.
  destruct (sessions_dir m !! sid) as [file|] eqn:Hf; cbn [fst snd].
  2:{ split; [split; [discriminate | by intros [? ?]] |]. split; [done | discriminate]. }
  split; [split; [by eexists | done] |]. split; [by case_match |]. intros _.
  unfold delete_session. rewrite Hf. cbn [fst].
  set (m1 := with_cache _ _).
  set (is_current := match current_session m1 ≫= _ with Some _ => _ | None => false end).
  assert (Hdir : sessions_dir (if is_current then with_current m1 None else m1) !! sid = None).
  { destruct is_current; cbn; apply lookup_delete_eq. }
  assert (Hcache : _session_cache (if is_current then with_current m1 None else m1) !! sid
                   = None).
  { destruct is_current; cbn; apply lookup_delete_eq. }
  split; [| split].
  - unfold load_session. by rewrite Hcache, Hdir.
  - by rewrite Hdir.
  - intros s Hs Hid. unfold current_object in Hs. unfold is_current.
    cbn [current_session objects m1 with_cache with_dir].
    rewrite Hs, Hid, String.eqb_refl. reflexivity.
Qed.

End Persistence.

Section AgeCleanup.

Lemma age_step_pair cutoff m n e :
  age_step cutoff (m, n) e
  = if expired cutoff e.2
    then (with_dir m (delete e.1 (sessions_dir m)), n + 1) else (m, n).
Proof. reflexivity. Qed.

Lemma age_fold_fields cutoff l m n :
  let r := List.fold_left (age_step cutoff) l (m, n) in
  _session_cache r.1 = _session_cache m
  /\ current_session r.1 = current_session m
  /\ objects r.1 = objects m
  /\ max_sessions r.1 = max_sessions m.
Proof.
  revert m n. induction l as [|e rest IH]; intros m n; [done |].
  cbn [List.fold_left]. rewrite age_step_pair.
  destruct (expired cutoff e.2); [| apply IH].
  destruct (IH (with_dir m (delete e.1 (sessions_dir m))) (n + 1))
    as (-> & -> & -> & ->). done.
Qed.

Lemma age_fold_lookup cutoff l m n sid :
  sessions_dir (List.fold_left (age_step cutoff) l (m, n)).1 !! sid
  = if decide (sid ∈ (List.filter (fun e => expired cutoff e.2) l).*1)
    then None else sessions_dir m !! sid.
Proof.
  revert m n. induction l as [|e rest IH]; intros m n.
  - cbn. case_decide as Hin; [by apply elem_of_nil in Hin | done].
  - cbn [List.fold_left List.filter]. rewrite age_step_pair.
    destruct (expired cutoff e.2); [| apply IH].
    rewrite IH. cbn [sessions_dir with_dir]. rewrite fmap_cons.
    destruct (decide (sid ∈ (List.filter (fun e => expired cutoff e.2) rest).*1)).
    + rewrite decide_True; [done | by right].
    + destruct (decide (sid = e.1)) as [->|Hne].
      * rewrite lookup_delete_eq. rewrite decide_True; [done | by left].
      * rewrite lookup_delete_ne by done.
        rewrite decide_False; [done |]. rewrite elem_of_cons. tauto.
Qed.

Lemma age_fold_count cutoff l m n :
  NoDup l.*1 ->
  (forall e, e ∈ l -> sessions_dir m !! e.1 = Some e.2) ->
  let r := List.fold_left (age_step cutoff) l (m, n) in
  r.2 = n + Z.of_nat (length (List.filter (fun e => expired cutoff e.2) l))
  /\ (size (sessions_dir r.1)
      + length (List.filter (fun e => expired cutoff e.2) l)
      = size (sessions_dir m))%nat.
Proof.
  revert m n. induction l as [|e rest IH]; intros m n Hnd Hin.
  - cbn. split; lia.
  - rewrite fmap_cons in Hnd. apply NoDup_cons in Hnd as [Hfresh Hnd].
    cbn [List.fold_left List.filter]. rewrite !age_step_pair.
    destruct (expired cutoff e.2).
    + destruct (IH (with_dir m (delete e.1 (sessions_dir m))) (n + 1) Hnd) as [Hc Hs].
      { intros e' He'. cbn [sessions_dir with_dir]. rewrite lookup_delete_ne.
        - apply Hin. by right.
        - intros Heq. apply Hfresh. rewrite Heq. by apply list_elem_of_fmap_2. }
      cbn zeta in *. split; [rewrite Hc; cbn [length]; lia |].
      cbn [sessions_dir with_dir] in Hs.
      rewrite map_size_delete_Some in Hs by (rewrite (Hin e); [by eexists | by left]).
      assert (size (sessions_dir m) <> 0%nat).
      { intros Hz. apply map_size_empty_inv in Hz.
        specialize (Hin e ltac:(by left)). rewrite Hz in Hin.
        by rewrite lookup_empty in Hin. }
      cbn [length]. lia.
    + apply IH; [done |]. intros e' He'. apply Hin. by right.
Qed.

(** X16: The age-based clean-up removes exactly the files of completed
    sessions that started before the cutoff ([days_old] days before now):
    a session that is not completed, or a file that cannot be read, always
    stays.  It returns the number of files removed, and it leaves the cache
    and the current session alone, also for the sessions it removes. *)
Theorem age_cleanup_removes_only_old_completed
    (now : Clock) (days_old : Z) (m : SessionManager) :
  let cutoff := instant now - days_old * microseconds_per_day in
  let result := cleanup_old_sessions now days_old m in
  (forall sid, sessions_dir result.1 !! sid
               = match sessions_dir m !! sid with
                 | Some file => if expired cutoff file then None else Some file
                 | None => None
                 end)
  /\ (forall sid file s, sessions_dir m !! sid = Some file ->
        content file = Some s -> is_completed s = false ->
        sessions_dir result.1 !! sid = Some file)
  /\ result.2 = Z.of_nat (size (sessions_dir m)) - Z.of_nat (size (sessions_dir result.1))
  /\ _session_cache result.1 = _session_cache m
  /\ current_session result.1 = current_session m.
Proof.
  cbn zeta. unfold cleanup_old_sessions.
  set (cutoff := instant now - days_old * microseconds_per_day).
  set (l := map_to_list (sessions_dir m)).
  assert (Hlookup : forall sid,
            sessions_dir (List.fold_left (age_step cutoff) l (m, 0)).1 !! sid
            = match sessions_dir m !! sid with
              | Some file => if expired cutoff file then None else Some file
              | None => None
              end).
  { intros sid. rewrite age_fold_lookup.
    destruct (sessions_dir m !! sid) as [file|] eqn:Hf.
    - destruct (expired cutoff file) eqn:He.
      + rewrite decide_True; [done |]. apply list_elem_of_fmap.
        exists (sid, file). split; [done |].
        apply list_elem_of_In, filter_In. split; [| done].
        apply list_elem_of_In. by apply elem_of_map_to_list.
      + rewrite decide_False; [done |]. intros Hin.
        apply list_elem_of_fmap in Hin as ([sid' file'] & -> & Hin).
        apply list_elem_of_In, filter_In in Hin as [Hin He'].
        apply list_elem_of_In, elem_of_map_to_list in Hin. cbn in *. congruence.
    - by case_decide. }
  split; [exact Hlookup |]. split.
  - intros sid file s Hf Hc Hnot. rewrite Hlookup, Hf.
    unfold expired. by rewrite Hc, Hnot.
  - destruct (age_fold_count cutoff l m 0) as [Hcount Hsize].
    + apply NoDup_fst_map_to_list.
    + intros [sid file] He. by apply elem_of_map_to_list.
    + destruct (age_fold_fields cutoff l m 0) as (Hc & Hcur & _).
      cbn zeta in *. split; [lia | by split].
Qed.

End AgeCleanup.

Section Listing.

Lemma string_leb_cons c1 s1 c2 s2 :
  String.leb (String c1 s1) (String c2 s2)
  = match N.compare (N_of_ascii c1) (N_of_ascii c2) with
    | Eq => String.leb s1 s2
    | Lt => true
    | Gt => false
    end.
Proof.
  unfold String.leb. cbn [String.compare]. unfold Ascii.compare.
  by destruct (N.compare (N_of_ascii c1) (N_of_ascii c2)).
Qed.

Lemma string_leb_trans s1 s2 s3 :
  String.leb s1 s2 = true -> String.leb s2 s3 = true -> String.leb s1 s3 = true.
Proof.
  revert s2 s3. induction s1 as [|c1 s1 IH]; intros [|c2 s2] [|c3 s3]; try done.
  rewrite !string_leb_cons.
  destruct (N.compare_spec (N_of_ascii c1) (N_of_ascii c2)) as [E12|L12|G12];
    destruct (N.compare_spec (N_of_ascii c2) (N_of_ascii c3)) as [E23|L23|G23];
    try done; intros H12 H23.
  - rewrite E12, E23, N.compare_refl. by eapply IH.
  - rewrite E12. by apply N.compare_lt_iff in L23 as ->.
  - rewrite <- E23. by apply N.compare_lt_iff in L12 as ->.
  - assert (N_of_ascii c1 < N_of_ascii c3)%N as Hlt by lia.
    by apply N.compare_lt_iff in Hlt as ->.
Qed.

Lemma latest_first_trans a b c :
  latest_first a b -> latest_first b c -> latest_first a c.
Proof. unfold latest_first. intros Hab Hbc. by eapply string_leb_trans. Qed.

Lemma insert_latest_first_perm x l : insert_latest_first x l ≡ₚ x :: l.
Proof.
  induction l as [|y rest IH]; [done |]. cbn [insert_latest_first].
  destruct (String.leb (ls_start_time y) (ls_start_time x)); [done |].
  rewrite IH. apply Permutation_swap.
Qed.

Lemma sort_latest_first_perm l : sort_latest_first l ≡ₚ l.
Proof.
  induction l as [|x rest IH]; [done |]. unfold sort_latest_first.
  cbn [List.fold_right]. rewrite insert_latest_first_perm.
  by apply Permutation_skip.
Qed.

Lemma insert_latest_first_sorted x l :
  StronglySorted latest_first l ->
  StronglySorted latest_first (insert_latest_first x l).
Proof.
  induction l as [|y rest IH]; intros Hs.
  - cbn. repeat constructor.
  - cbn [insert_latest_first].
    destruct (String.leb (ls_start_time y) (ls_start_time x)) eqn:Hle.
    + constructor; [done |]. apply StronglySorted_inv in Hs as [_ Hall].
      constructor; [exact Hle |].
      eapply List.Forall_impl; [| exact Hall].
      intros z Hz. by eapply latest_first_trans.
    + apply StronglySorted_inv in Hs as [Hrest Hall].
      constructor; [by apply IH |].
      apply List.Forall_forall. intros z Hz.
      apply list_elem_of_In in Hz. rewrite insert_latest_first_perm in Hz.
      apply elem_of_cons in Hz as [-> | Hz].
      * unfold latest_first.
        destruct (String.leb_total (ls_start_time x) (ls_start_time y)); congruence.
      * eapply (proj1 (List.Forall_forall _ _)); [exact Hall |].
        by apply list_elem_of_In.
Qed.

Lemma sort_latest_first_sorted l : StronglySorted latest_first (sort_latest_first l).
Proof.
  induction l as [|x rest IH]; [constructor |].
  unfold sort_latest_first. cbn [List.fold_right].
  by apply insert_latest_first_sorted.
Qed.

Lemma list_step_fold include l acc :
  List.fold_left (list_step include) l acc = acc ++ omap (listed include) l.
Proof.
  revert acc. induction l as [|e rest IH]; intros acc.
  - cbn. by rewrite app_nil_r.
  - cbn [List.fold_left omap list_omap]. rewrite IH.
    unfold list_step, listed. destruct (content e.2) as [s|]; [| done].
    destruct (negb include && is_completed s); [done |].
    by rewrite <- app_assoc.
Qed.

Lemma list_sessions_perm include m :
  list_sessions include m ≡ₚ omap (listed include) (map_to_list (sessions_dir m)).
Proof.
  unfold list_sessions. cbn zeta.
  by rewrite sort_latest_first_perm, list_step_fold.
Qed.

Lemma listed_id include e x : listed include e = Some x -> ls_session_id x = e.1.
Proof.
  unfold listed. destruct (content e.2) as [s|]; [| done].
  destruct (negb include && is_completed s); [done |]. by intros [= <-].
Qed.

Lemma omap_listed_ids include l :
  sublist (ls_session_id <$> omap (listed include) l) l.*1.
Proof.
  induction l as [|e rest IH]; [done |]. cbn [omap list_omap].
  rewrite fmap_cons. destruct (listed include e) as [x|] eqn:Hx.
  - rewrite fmap_cons, (listed_id _ _ _ Hx). by apply sublist_skip.
  - by apply sublist_cons.
Qed.

(** X17: [list_sessions] returns one summary for each readable session file
    (only the sessions that are not completed when [include_completed] is
    false) and nothing else: a file that cannot be read is skipped, no
    session is listed twice, and the summaries are ordered by start time,
    latest first. *)
Theorem list_sessions_lists_readable_files
    (include_completed : bool) (m : SessionManager) :
  let result := list_sessions include_completed m in
  (forall x, x ∈ result <->
     exists file s,
       sessions_dir m !! ls_session_id x = Some file
       /\ content file = Some s
       /\ (include_completed = false -> is_completed s = false)
       /\ x = listing_of (ls_session_id x) s)
  /\ NoDup (ls_session_id <$> result)
  /\ StronglySorted latest_first result
  /\ (length result <= size (sessions_dir m))%nat.
Proof.
  cbn zeta. pose proof (list_sessions_perm include_completed m) as Hperm.
  split; [| split; [| split]].
  - intros x. rewrite Hperm, list_elem_of_omap. split.
    + intros ([sid file] & Hin & Hl). apply elem_of_map_to_list in Hin.
      pose proof (listed_id _ _ _ Hl) as Hid. cbn in Hid. subst sid.
      unfold listed in Hl. cbn [snd fst] in Hl.
      destruct (content file) as [s|] eqn:Hc; [| done].
      destruct (negb include_completed && is_completed s) eqn:Hskip; [done |].
      injection Hl as Hl. exists file, s.
      split; [done |]. split; [done |]. split.
      * intros ->. by destruct (is_completed s).
      * by rewrite <- Hl.
    + intros (file & s & Hf & Hc & Hinc & Hx).
      exists (ls_session_id x, file). split; [by apply elem_of_map_to_list |].
      unfold listed. cbn [fst snd]. rewrite Hc.
      destruct include_completed; cbn [negb andb]; [by rewrite <- Hx |].
      rewrite Hinc by done. by rewrite <- Hx.
  - rewrite Hperm. eapply sublist_NoDup; [| apply omap_listed_ids].
    apply NoDup_fst_map_to_list.
  - apply sort_latest_first_sorted.
  - rewrite Hperm. 
    rewrite <- (length_fmap ls_session_id).
    etrans; [apply sublist_length, omap_listed_ids |].
    by rewrite length_fmap, length_map_to_list.
Qed.

End Listing.

Section SaveAndList.

Lemma save_session_keeps_newest
    (now : Clock) (session : option nat) (m : SessionManager) (s : SessionState) :
  saved_object session m = Some s ->
  1 <= max_sessions m ->
  (forall sid f, sessions_dir m !! sid = Some f -> sid <> session_id s ->
     st_mtime f < instant now) ->
  save_session now session m
  = ((save_session now session m).1, true)
  /\ sessions_dir (save_session now session m).1 !! session_id s
     = Some {| content := Some s; st_mtime := instant now |}.
Proof.
  intros Hs Hmax Hnewer. unfold saved_object in Hs. unfold save_session.
  rewrite Hs. cbn [fst snd]. split; [reflexivity |].
  set (file := {| content := Some s; st_mtime := instant now |}).
  set (m1 := with_dir m (<[session_id s := file]> (sessions_dir m))).
  destruct (cleanup_retained (max_sessions m1) m1) as (Hsub & Hsize & Hrecent);
    [cbn; lia |].
  set (after := sessions_dir (_cleanup_old_sessions (max_sessions m1) m1)) in *.
  assert (Hbefore : sessions_dir m1 !! session_id s = Some file)
    by (cbn; by rewrite lookup_insert_eq).
  destruct (after !! session_id s) as [f|] eqn:Hafter.
  { rewrite map_subseteq_spec in Hsub. apply Hsub in Hafter. congruence. }
  exfalso.
  assert (Hne : after <> ∅).
  { intros Hempty. rewrite Hempty, map_size_empty in Hsize.
    change (max_sessions m1) with (max_sessions m) in Hsize.
    assert (size (sessions_dir m1) <> 0%nat); [| lia].
    intros Hz. apply map_size_empty_inv in Hz. rewrite Hz in Hbefore.
    by rewrite lookup_empty in Hbefore. }
  apply map_choose in Hne as (kept & f & Hk).
  pose proof (Hrecent kept f (session_id s) file Hk Hbefore Hafter) as Hle.
  assert (kept <> session_id s) by congruence.
  rewrite map_subseteq_spec in Hsub. apply Hsub in Hk. cbn in Hk.
  rewrite lookup_insert_ne in Hk by done.
  specialize (Hnewer kept f Hk ltac:(done)). cbn in Hle. lia.
Qed.

(** X7: A save whose modification time is later than that of every other
    file survives its own clean-up under a limit of at least 1: the save
    succeeds, the directory holds the file with the state that was written,
    and [list_sessions], also of a new manager over the directory, lists
    the session under its id with the summary of the saved state. *)
Theorem saved_session_survives
    (now : Clock) (session : option nat) (m : SessionManager) (s : SessionState)
    (limit : Z) :
  saved_object session m = Some s ->
  1 <= max_sessions m ->
  (forall sid f, sessions_dir m !! sid = Some f -> sid <> session_id s ->
     st_mtime f < instant now) ->
  (save_session now session m).2 = true
  /\ sessions_dir (save_session now session m).1 !! session_id s
     = Some {| content := Some s; st_mtime := instant now |}
  /\ listing_of (session_id s) s
       ∈ list_sessions true (init (sessions_dir (save_session now session m).1) limit).
Proof.
  intros Hs Hmax Hnewer.
  destruct (save_session_keeps_newest now session m s Hs Hmax Hnewer) as [Hok Hkept].
  split; [by rewrite Hok |]. split; [exact Hkept |].
  rewrite list_sessions_perm. cbn [sessions_dir init].
  apply list_elem_of_omap.
  exists (session_id s, {| content := Some s; st_mtime := instant now |}).
  split; [by apply elem_of_map_to_list | reflexivity].
Qed.

End SaveAndList.

Lemma loaded_sessions_have_files_witness :
  (load_session "0a1b2c3d" (do_calls played (init ∅ 10))).2 <> None
  /\ is_Some (sessions_dir (do_calls played (init ∅ 10)) !! "0a1b2c3d").
Proof.
  split; [vm_compute; discriminate |].
  apply (loaded_sessions_have_files ∅ 10 played "0a1b2c3d").
  vm_compute. discriminate.
Defined.

Lemma session_objects_only_grow_witness :
  objects one_session !! 0%nat = Some first_state
  /\ exists s', objects (do_calls played_out one_session) !! 0%nat = Some s'
                /\ extends first_state s'.
Proof.
  split; [reflexivity |].
  apply (session_objects_only_grow one_session played_out 0 first_state).
  reflexivity.
Defined.

Lemma complete_then_resume_rejected_witness :
  current_session one_session = Some 0%nat
  /\ objects one_session !! 0%nat = Some first_state
  /\ (forall l', _session_cache one_session !! session_id first_state = Some l' ->
        l' = 0%nat)
  /\ (complete_session (at_time 5) None one_session).2 = true
  /\ (resume_session (session_id first_state)
        (complete_session (at_time 5) None one_session).1).2 = None
  /\ current_session
       (resume_session (session_id first_state)
          (complete_session (at_time 5) None one_session).1).1
     = Some 0%nat.
Proof.
  assert (Hcache : forall l',
            _session_cache one_session !! session_id first_state = Some l' ->
            l' = 0%nat).
  { intros l' Hl. vm_compute in Hl. congruence. }
  split; [reflexivity |]. split; [reflexivity |]. split; [exact Hcache |].
  apply (complete_then_resume_rejected (at_time 5) None one_session 0 first_state);
    [reflexivity | reflexivity | exact Hcache].
Defined.

Lemma negative_limit_drops_the_oldest_witness :
  -5 < 0
  /\ retained (Z.max 0 (Z.of_nat (size (sessions_dir crowded)) + -5))
       (sessions_dir crowded) (sessions_dir (_cleanup_old_sessions (-5) crowded)).
Proof.
  split; [lia |]. apply (negative_limit_drops_the_oldest (-5) crowded). lia.
Defined.

Lemma cleanup_sessions_counts_and_settles_witness :
  0 <= default (max_sessions crowded) None
  /\ (cleanup_sessions None crowded).2
     = Z.max 0 (Z.of_nat (size (sessions_dir crowded))
                - default (max_sessions crowded) None)
  /\ cleanup_sessions None (cleanup_sessions None crowded).1
     = ((cleanup_sessions None crowded).1, 0).
Proof.
  split; [vm_compute; discriminate |].
  apply (cleanup_sessions_counts_and_settles None crowded).
  vm_compute. discriminate.
Defined.

Lemma zero_limit_persists_nothing_witness :
  max_sessions (init ∅ 0) = 0
  /\ let created :=
       create_session (at_time 1) "0a1b2c3d" "S1" "Phishing at the bank" "Player"
         (init ∅ 0) in
     sessions_dir created.1 = ∅
     /\ current_session created.1 = Some created.2
     /\ objects created.1 !! created.2
        = Some (new_session (at_time 1) "0a1b2c3d" "S1" "Phishing at the bank" "Player")
     /\ (load_session "0a1b2c3d" created.1).2 = None.
Proof.
  split; [reflexivity |].
  apply (zero_limit_persists_nothing (at_time 1) "0a1b2c3d" "S1"
           "Phishing at the bank" "Player" (init ∅ 0)).
  reflexivity.
Defined.

Lemma saved_session_survives_witness :
  saved_object None one_session = Some first_state
  /\ 1 <= max_sessions one_session
  /\ (forall sid f, sessions_dir one_session !! sid = Some f ->
        sid <> session_id first_state -> st_mtime f < instant (at_time 7))
  /\ (save_session (at_time 7) None one_session).2 = true
  /\ sessions_dir (save_session (at_time 7) None one_session).1
       !! session_id first_state
     = Some {| content := Some first_state; st_mtime := instant (at_time 7) |}
  /\ listing_of (session_id first_state) first_state
       ∈ list_sessions true
           (init (sessions_dir (save_session (at_time 7) None one_session).1) 10).
Proof.
  assert (Hothers : forall sid f, sessions_dir one_session !! sid = Some f ->
            sid <> session_id first_state -> st_mtime f < instant (at_time 7)).
  { intros sid f Hf Hne.
    assert (Hdir : sessions_dir one_session
                   = {[ "0a1b2c3d" := {| content := Some first_state; st_mtime := 1 |} ]})
      by (vm_compute; reflexivity).
    rewrite Hdir in Hf. apply lookup_singleton_Some in Hf as [<- _].
    by destruct Hne. }
  split; [reflexivity |]. split; [vm_compute; discriminate |].
  split; [exact Hothers |].
  apply (saved_session_survives (at_time 7) None one_session first_state 10);
    [reflexivity | vm_compute; discriminate | exact Hothers].
Defined.

Lemma load_session_is_cached_witness :
  load_session "0a1b2c3d" reopened = ((load_session "0a1b2c3d" reopened).1, Some 0%nat)
  /\ load_session "0a1b2c3d" (load_session "0a1b2c3d" reopened).1
     = ((load_session "0a1b2c3d" reopened).1, Some 0%nat)
  /\ is_Some (_session_cache (load_session "0a1b2c3d" reopened).1 !! "0a1b2c3d").
Proof.
  split; [vm_compute; reflexivity |].
  apply (load_session_is_cached "0a1b2c3d" reopened
           (load_session "0a1b2c3d" reopened).1 0).
  vm_compute. reflexivity.
Defined.

(** ** Further properties of the evidence discovery resolver *)

Section DiscoveryChance.

Lemma check_for_evidence_discovery_loop now draws action details scenario game_session :
  check_for_evidence_discovery now draws action details scenario game_session
  = discovery_loop now draws details (evidence_types_for action)
      (discovered_ids (evidence_discovered game_session))
      (length (evidence_discovered game_session))
      (Scorer.evidence_items scenario) 0.
Proof.
  unfold check_for_evidence_discovery.
  by destruct (Scorer.evidence_items scenario).
Qed.

Lemma base_chance_values importance :
  In (base_chance importance) [8 # 10; 6 # 10; 4 # 10; 2 # 10].
Proof.
  unfold base_chance.
  repeat match goal with |- context [String.eqb ?a ?b] => destruct (String.eqb a b) end;
    cbn; auto 10.
Qed.

Lemma discovery_chance_bounds item keywords_match :
  (2 # 10 <= calculate_discovery_chance item keywords_match <= 95 # 100)%Q.
Proof.
  unfold calculate_discovery_chance. cbn zeta.
  destruct (base_chance_values (dict_get item "importance" "medium"))
    as [<- | [<- | [<- | [<- | []]]]];
    destruct keywords_match; vm_compute; split; discriminate.
Qed.

Lemma keywords_raise_the_chance item :
  (calculate_discovery_chance item false <= calculate_discovery_chance item true)%Q.
Proof.
  unfold calculate_discovery_chance. cbn zeta.
  destruct (base_chance_values (dict_get item "importance" "medium"))
    as [<- | [<- | [<- | [<- | []]]]];
    vm_compute; discriminate.
Qed.

Lemma high_draw_fails draws details i item :
  (95 # 100 <= draws i)%Q -> succeeds draws details i item = false.
Proof.
  intros Hd. unfold succeeds, PyNum.lt. apply negb_false_iff, Qle_bool_iff.
  pose proof (discovery_chance_bounds item (check_evidence_keywords details item)).
  lra.
Qed.

Lemma low_draw_succeeds draws details i item :
  (draws i < 2 # 10)%Q -> succeeds draws details i item = true.
Proof.
  intros Hd. unfold succeeds, PyNum.lt. apply negb_true_iff.
  apply not_true_is_false. rewrite Qle_bool_iff.
  pose proof (discovery_chance_bounds item (check_evidence_keywords details item)).
  lra.
Qed.

(** X19: Every discovery chance lies between 0.2 and 0.95, so the random values
    decide at the two ends: when every value drawn is 0.95 or more, a call
    discovers nothing, whatever the action, the details and the scenario. *)
Theorem high_draws_discover_nothing
    (now : Clock) (draws : nat -> Q) (action details : string)
    (scenario : Scorer.Scenario) (game_session : SessionState)
    (Hdraws : forall i, (95 # 100 <= draws i)%Q) :
  check_for_evidence_discovery now draws action details scenario game_session = None.
Proof.
  rewrite check_for_evidence_discovery_loop.
  pose proof (discovery_loop_spec now draws details (evidence_types_for action)
                (discovered_ids (evidence_discovered game_session))
                (length (evidence_discovered game_session))
                (Scorer.evidence_items scenario) 0) as Hspec.
  cbn zeta in Hspec.
  destruct (discovery_loop _ _ _ _ _ _ _ _) as [ev|]; [| done].
  destruct Hspec as (i & item & _ & Hs & _).
  by rewrite high_draw_fails in Hs.
Qed.

(** X20: When the first value drawn is below 0.2, a call with at least one
    candidate discovers the first candidate in the scenario's order,
    whatever its importance and whatever the details say. *)
Theorem low_draw_discovers_first_candidate
    (now : Clock) (draws : nat -> Q) (action details : string)
    (scenario : Scorer.Scenario) (game_session : SessionState)
    (item : gmap string string)
    (Hdraw : (draws 0%nat < 2 # 10)%Q)
    (Hfirst : candidates action scenario game_session !! 0%nat = Some item) :
  check_for_evidence_discovery now draws action details scenario game_session
  = Some (formatted_evidence now (length (evidence_discovered game_session)) item).
Proof.
  rewrite check_for_evidence_discovery_loop.
  pose proof (discovery_loop_spec now draws details (evidence_types_for action)
                (discovered_ids (evidence_discovered game_session))
                (length (evidence_discovered game_session))
                (Scorer.evidence_items scenario) 0) as Hspec.
  cbn zeta in Hspec. unfold candidates in Hfirst.
  destruct (discovery_loop _ _ _ _ _ _ _ _) as [ev|].
  - destruct Hspec as (i & item' & Hi & Hs & Hbefore & ->).
    destruct i as [|i].
    + rewrite Hfirst in Hi. by injection Hi as ->.
    + specialize (Hbefore 0%nat item ltac:(lia) Hfirst).
      by rewrite low_draw_succeeds in Hbefore.
  - specialize (Hspec 0%nat item Hfirst).
    by rewrite low_draw_succeeds in Hspec.
Qed.

End DiscoveryChance.

Section DiscoveredEvidence.

Lemma in_types_elem_of x types :
  in_types x types = true -> exists t, x = Some t /\ t ∈ types.
Proof.
  destruct x as [t|]; [| done]. cbn [in_types]. intros Hex.
  apply existsb_exists in Hex as (t' & Hin & Heq).
  apply String.eqb_eq in Heq as ->. exists t'. split; [done |].
  by apply list_elem_of_In.
Qed.

Lemma formatted_evidence_lookups now already item :
  let ev := formatted_evidence now already item in
  ev !! "id" = Some (dict_get item "id" ("ev_" +:+ PyNum.str (Z.of_nat already + 1)))
  /\ ev !! "type" = Some (dict_get item "type" "unknown")
  /\ ev !! "discovered_at" = Some (isoformat now)
  /\ dom ev = list_to_set ["id"; "type"; "source"; "importance"; "description";
                           "content"; "discovered_at"].
Proof.
  cbn zeta. unfold formatted_evidence. split; [| split; [| split]].
  - by rewrite lookup_insert_eq.
  - rewrite lookup_insert_ne by done. by rewrite lookup_insert_eq.
  - do 6 (rewrite lookup_insert_ne by done). by rewrite lookup_singleton_eq.
  - rewrite !dom_insert_L, dom_singleton_L. cbn [list_to_set].
    by rewrite (right_id_L ∅ (∪)).
Qed.

(** X18: What a call returns is always built from an item of the scenario that
    is new and of an accepted type: the item's type is one of the evidence
    types of the action, its id (when it has one) is not among the ids
    already discovered, and the returned evidence carries exactly the seven
    keys id, type, source, importance, description, content and
    discovered_at, the last being the time of the call. *)
Theorem discovered_evidence_is_new_and_typed
    (now : Clock) (draws : nat -> Q) (action details : string)
    (scenario : Scorer.Scenario) (game_session : SessionState)
    (ev : gmap string string)
    (Hfound : check_for_evidence_discovery now draws action details scenario
                game_session = Some ev) :
  exists item,
    item ∈ Scorer.evidence_items scenario
    /\ ev = formatted_evidence now (length (evidence_discovered game_session)) item
    /\ (exists t, item !! "type" = Some t /\ ev !! "type" = Some t
                  /\ t ∈ evidence_types_for action)
    /\ (forall id, item !! "id" = Some id ->
          ev !! "id" = Some id
          /\ id ∉ discovered_ids (evidence_discovered game_session))
    /\ ev !! "discovered_at" = Some (isoformat now)
    /\ dom ev = list_to_set ["id"; "type"; "source"; "importance"; "description";
                             "content"; "discovered_at"].
Proof.
  rewrite check_for_evidence_discovery_loop in Hfound.
  pose proof (discovery_loop_spec now draws details (evidence_types_for action)
                (discovered_ids (evidence_discovered game_session))
                (length (evidence_discovered game_session))
                (Scorer.evidence_items scenario) 0) as Hspec.
  cbn zeta in Hspec. rewrite Hfound in Hspec.
  destruct Hspec as (i & item & Hi & _ & _ & ->).
  apply list_elem_of_lookup_2, list_elem_of_In, filter_In in Hi as [Hin Hel].
  apply list_elem_of_In in Hin. unfold eligible in Hel.
  apply andb_prop in Hel as [Hnew Htype].
  apply in_types_elem_of in Htype as (t & Ht & Hacc).
  destruct (formatted_evidence_lookups now (length (evidence_discovered game_session)) item)
    as (Hid & Hty & Hat & Hdom).
  exists item. split; [done |]. split; [done |]. split; [| split; [| split]].
  - exists t. split; [done |]. split; [| done].
    rewrite Hty. unfold dict_get. by rewrite Ht.
  - intros id Hitem. split.
    + rewrite Hid. unfold dict_get. by rewrite Hitem.
    + rewrite Hitem in Hnew. cbn [in_ids] in Hnew.
      by apply negb_true_iff, bool_decide_eq_false in Hnew.
  - exact Hat.
  - exact Hdom.
Qed.

End DiscoveredEvidence.

Section Keywords.

Lemma any_in_empty_text terms :
  Forall (fun term => PyStr.truthy term = true) terms ->
  PyStr.any_in terms "" = false.
Proof.
  induction 1 as [|term rest Hterm _ IH]; [reflexivity |].
  unfold PyStr.any_in in *. cbn [existsb]. rewrite IH.
  by destruct term.
Qed.

Lemma type_keywords_truthy :
  Forall (fun group => Forall (fun term => PyStr.truthy term = true) group.2)
         type_keywords.
Proof. unfold type_keywords. repeat constructor. Qed.

Lemma selected_keywords_truthy (select : string -> bool) groups :
  Forall (fun group : string * list string =>
            Forall (fun term => PyStr.truthy term = true) group.2) groups ->
  Forall (fun term => PyStr.truthy term = true)
         (List.concat
            (List.map (fun group : string * list string =>
                         if select group.1 then group.2 else []) groups)).
Proof.
  induction 1 as [|group rest Hgroup _ IH]; [constructor |].
  cbn [List.map List.concat]. apply Forall_app. split; [| exact IH].
  destruct (select group.1); [exact Hgroup | constructor].
Qed.

(** X21: An action without details never matches a keyword, so every
    candidate is tried at the base chance of its importance (0.8, 0.6, 0.4
    or 0.2, and 0.4 for an importance that is absent or unknown). *)
Theorem empty_details_give_base_chance (item : gmap string string) :
  check_evidence_keywords "" item = false
  /\ calculate_discovery_chance item (check_evidence_keywords "" item)
     = base_chance (dict_get item "importance" "medium")
  /\ In (base_chance (dict_get item "importance" "medium"))
        [8 # 10; 6 # 10; 4 # 10; 2 # 10].
Proof.
  assert (Hno : check_evidence_keywords "" item = false).
  { unfold check_evidence_keywords. cbn zeta. cbn [PyStr.lower].
    apply any_in_empty_text.
    repeat match goal with
           | |- Forall _ (if ?c then _ else _) => destruct c
           | |- Forall _ (_ ++ _) => apply Forall_app; split
           end;
      try apply (selected_keywords_truthy
                   (fun name => PyStr.contains name
                                  (PyStr.lower (dict_get item "type" "")))
                   _ type_keywords_truthy);
      repeat constructor. }
  split; [exact Hno |]. split.
  - rewrite Hno. reflexivity.
  - apply base_chance_values.
Qed.

End Keywords.

Section Rediscovery.

Lemma check_for_evidence_discovery_item now draws action details scenario game_session ev :
  check_for_evidence_discovery now draws action details scenario game_session = Some ev ->
  exists item,
    item ∈ candidates action scenario game_session
    /\ ev = formatted_evidence now (length (evidence_discovered game_session)) item.
Proof.
  intros Hfound. rewrite check_for_evidence_discovery_loop in Hfound.
  pose proof (discovery_loop_spec now draws details (evidence_types_for action)
                (discovered_ids (evidence_discovered game_session))
                (length (evidence_discovered game_session))
                (Scorer.evidence_items scenario) 0) as Hspec.
  cbn zeta in Hspec. rewrite Hfound in Hspec.
  destruct Hspec as (i & item & Hi & _ & _ & ->).
  exists item. split; [| done]. by eapply list_elem_of_lookup_2.
Qed.

Lemma discovered_ids_app l1 l2 :
  discovered_ids (l1 ++ l2) = discovered_ids l1 ∪ discovered_ids l2.
Proof.
  unfold discovered_ids. rewrite omap_app, List.filter_app.
  apply list_to_set_app_L.
Qed.

Lemma discovered_ids_singleton (ev : gmap string string) id :
  ev !! "id" = Some id -> PyStr.truthy id = true -> id ∈ discovered_ids [ev].
Proof.
  intros Hid Ht. unfold discovered_ids. cbn [omap list_omap]. rewrite Hid.
  cbn [List.filter]. rewrite Ht. cbn [list_to_set]. apply elem_of_union_l.
  by apply elem_of_singleton.
Qed.

Lemma candidates_shrink action scenario s s' item :
  discovered_ids (evidence_discovered s) ⊆ discovered_ids (evidence_discovered s') ->
  item ∈ candidates action scenario s' -> item ∈ candidates action scenario s.
Proof.
  intros Hsub. unfold candidates.
  rewrite !list_elem_of_In, !filter_In. intros [Hin Hel]. split; [done |].
  unfold eligible in *. apply andb_prop in Hel as [Hnew Hty]. rewrite Hty, andb_true_r.
  destruct (item !! "id") as [id|]; [| done]. cbn [in_ids] in *.
  apply negb_true_iff, bool_decide_eq_false in Hnew.
  apply negb_true_iff, bool_decide_eq_false. intros Hid. apply Hnew. by apply Hsub.
Qed.

(** X22: The step of the investigate route that records a discovery: when the
    evidence that the resolver returns for the current session (with a
    non-empty id) is passed to [add_evidence_discovered], it is appended
    unchanged to the session's list, and from then on no scenario item
    with that id is a candidate of any action: a later call can only
    return items that were candidates before and carry another id. *)
Theorem recorded_evidence_is_not_rediscovered
    (m : SessionManager) (l : nat) (s : SessionState) (now later : Clock)
    (draws : nat -> Q) (action details : string) (scenario : Scorer.Scenario)
    (ev : gmap string string) (id : string)
    (Hcur : current_session m = Some l)
    (Hobj : objects m !! l = Some s)
    (Hfound : check_for_evidence_discovery now draws action details scenario s = Some ev)
    (Hid : ev !! "id" = Some id)
    (Htruthy : PyStr.truthy id = true) :
  let result := add_evidence_discovered later ev m in
  result.2 = true
  /\ exists s',
       objects result.1 !! l = Some s'
       /\ evidence_discovered s' = evidence_discovered s ++ [ev]
       /\ (forall action' item, item ∈ candidates action' scenario s' ->
             item ∈ candidates action' scenario s /\ item !! "id" <> Some id)
       /\ (forall now' draws' action' details' ev',
             check_for_evidence_discovery now' draws' action' details' scenario s'
             = Some ev' ->
             exists item, item ∈ Scorer.evidence_items scenario
               /\ item !! "id" <> Some id
               /\ ev' = formatted_evidence now' (S (length (evidence_discovered s))) item).
Proof.
  cbn zeta. unfold add_evidence_discovered.
  destruct (mutate_current_fields later
              (fun s => set_evidence_discovered s
                          (evidence_discovered s ++ [stamped later ev])) m l s Hcur Hobj)
    as (m' & -> & _ & Hobjs & _).
  cbn [fst snd]. split; [done |].
  destruct (check_for_evidence_discovery_item _ _ _ _ _ _ _ Hfound) as (item0 & _ & Hev).
  assert (Hstamp : stamped later ev = ev).
  { unfold stamped.
    destruct (formatted_evidence_lookups now (length (evidence_discovered s)) item0)
      as (_ & _ & Hat & _). rewrite <- Hev in Hat. by rewrite Hat. }
  rewrite Hstamp in Hobjs.
  exists (set_evidence_discovered s (evidence_discovered s ++ [ev])).
  assert (Hcands : forall action' item,
            item ∈ candidates action' scenario
                     (set_evidence_discovered s (evidence_discovered s ++ [ev])) ->
            item ∈ candidates action' scenario s /\ item !! "id" <> Some id).
  { intros action' item Hc. split.
    - eapply candidates_shrink; [| exact Hc].
      cbn [evidence_discovered set_evidence_discovered].
      rewrite discovered_ids_app. apply union_subseteq_l.
    - intros Hitem.
      apply (discovered_item_not_candidate _ _ _ _ _ Hc Hitem).
      cbn [evidence_discovered set_evidence_discovered].
      rewrite discovered_ids_app. apply elem_of_union_r.
      by apply discovered_ids_singleton. }
  split; [| split; [done | split; [exact Hcands |]]].
  - rewrite Hobjs. apply list_lookup_insert_eq. by eapply lookup_lt_Some.
  - intros now' draws' action' details' ev' Hfound'.
    destruct (check_for_evidence_discovery_item _ _ _ _ _ _ _ Hfound')
      as (item & Hc & ->).
    exists item. split; [| split].
    + unfold candidates in Hc.
      by apply list_elem_of_In, filter_In in Hc as [Hin%list_elem_of_In _].
    + by apply (Hcands action').
    + cbn [evidence_discovered set_evidence_discovered].
      by rewrite length_app, Nat.add_1_r.
Qed.

(** X23: Once every item of the scenario has an id among the discovered ones,
    no call discovers anything, whatever the action, the details and the
    random values. *)
Theorem nothing_left_to_discover
    (now : Clock) (draws : nat -> Q) (action details : string)
    (scenario : Scorer.Scenario) (game_session : SessionState)
    (Hall : forall item, item ∈ Scorer.evidence_items scenario ->
              exists id, item !! "id" = Some id
                /\ id ∈ discovered_ids (evidence_discovered game_session)) :
  check_for_evidence_discovery now draws action details scenario game_session = None.
Proof.
  destruct (check_for_evidence_discovery now draws action details scenario game_session)
    as [ev|] eqn:Hfound; [| done].
  destruct (check_for_evidence_discovery_item _ _ _ _ _ _ _ Hfound) as (item & Hc & _).
  assert (Hin : item ∈ Scorer.evidence_items scenario).
  { unfold candidates in Hc.
    by apply list_elem_of_In, filter_In in Hc as [Hin%list_elem_of_In _]. }
  destruct (Hall item Hin) as (id & Hid & Hdisc).
  by destruct (discovered_item_not_candidate _ _ _ _ _ Hc Hid).
Qed.

End Rediscovery.

Lemma high_draws_discover_nothing_witness :
  (forall i, (95 # 100 <= all_misses i)%Q)
  /\ check_for_evidence_discovery (at_time 2) all_misses "examine_logs"
       "review the mail gateway logs" two_mails first_state = None.
Proof.
  assert (Hdraws : forall i, (95 # 100 <= all_misses i)%Q).
  { intros i. vm_compute. discriminate. }
  split; [exact Hdraws |].
  apply (high_draws_discover_nothing (at_time 2) all_misses "examine_logs"
           "review the mail gateway logs" two_mails first_state Hdraws).
Defined.

Lemma low_draw_discovers_first_candidate_witness :
  (all_hits 0%nat < 2 # 10)%Q
  /\ candidates "examine_logs" two_mails first_state !! 0%nat = Some (mail "E1")
  /\ check_for_evidence_discovery (at_time 2) all_hits "examine_logs"
       "review the mail gateway logs" two_mails first_state
     = Some (formatted_evidence (at_time 2)
               (length (evidence_discovered first_state)) (mail "E1")).
Proof.
  assert (Hfirst : candidates "examine_logs" two_mails first_state !! 0%nat
                   = Some (mail "E1")) by (vm_compute; reflexivity).
  split; [reflexivity |]. split; [exact Hfirst |].
  apply (low_draw_discovers_first_candidate (at_time 2) all_hits "examine_logs"
           "review the mail gateway logs" two_mails first_state (mail "E1"));
    [reflexivity | exact Hfirst].
Defined.

Lemma discovered_evidence_is_new_and_typed_witness :
  check_for_evidence_discovery (at_time 2) all_hits "examine_logs"
    "review the mail gateway logs" two_mails first_state = Some found_E1
  /\ exists item,
       item ∈ Scorer.evidence_items two_mails
       /\ found_E1
          = formatted_evidence (at_time 2) (length (evidence_discovered first_state)) item
       /\ (exists t, item !! "type" = Some t /\ found_E1 !! "type" = Some t
                     /\ t ∈ evidence_types_for "examine_logs")
       /\ (forall id, item !! "id" = Some id ->
             found_E1 !! "id" = Some id
             /\ id ∉ discovered_ids (evidence_discovered first_state))
       /\ found_E1 !! "discovered_at" = Some (isoformat (at_time 2))
       /\ dom found_E1
          = list_to_set ["id"; "type"; "source"; "importance"; "description";
                         "content"; "discovered_at"].
Proof.
  assert (Hfound : check_for_evidence_discovery (at_time 2) all_hits "examine_logs"
                     "review the mail gateway logs" two_mails first_state
                   = Some found_E1) by (vm_compute; reflexivity).
  split; [exact Hfound |].
  apply (discovered_evidence_is_new_and_typed (at_time 2) all_hits "examine_logs"
           "review the mail gateway logs" two_mails first_state found_E1 Hfound).
Defined.

Lemma recorded_evidence_is_not_rediscovered_witness :
  current_session one_session = Some 0%nat
  /\ objects one_session !! 0%nat = Some first_state
  /\ check_for_evidence_discovery (at_time 2) all_hits "examine_logs"
       "review the mail gateway logs" two_mails first_state = Some found_E1
  /\ found_E1 !! "id" = Some "E1"
  /\ PyStr.truthy "E1" = true
  /\ let result := add_evidence_discovered (at_time 3) found_E1 one_session in
     result.2 = true
     /\ exists s',
          objects result.1 !! 0%nat = Some s'
          /\ evidence_discovered s' = evidence_discovered first_state ++ [found_E1]
          /\ (forall action' item, item ∈ candidates action' two_mails s' ->
                item ∈ candidates action' two_mails first_state
                /\ item !! "id" <> Some "E1")
          /\ (forall now' draws' action' details' ev',
                check_for_evidence_discovery now' draws' action' details' two_mails s'
                = Some ev' ->
                exists item, item ∈ Scorer.evidence_items two_mails
                  /\ item !! "id" <> Some "E1"
                  /\ ev' = formatted_evidence now'
                             (S (length (evidence_discovered first_state))) item).
Proof.
  assert (Hfound : check_for_evidence_discovery (at_time 2) all_hits "examine_logs"
                     "review the mail gateway logs" two_mails first_state
                   = Some found_E1) by (vm_compute; reflexivity).
  assert (Hid : found_E1 !! "id" = Some "E1") by (vm_compute; reflexivity).
  split; [reflexivity |]. split; [reflexivity |].
  split; [exact Hfound |]. split; [exact Hid |]. split; [reflexivity |].
  apply (recorded_evidence_is_not_rediscovered one_session 0 first_state
           (at_time 2) (at_time 3) all_hits "examine_logs"
           "review the mail gateway logs" two_mails found_E1 "E1");
    [reflexivity | reflexivity | exact Hfound | exact Hid | reflexivity].
Defined.

Lemma nothing_left_to_discover_witness :
  (forall item, item ∈ Scorer.evidence_items two_mails ->
     exists id, item !! "id" = Some id
       /\ id ∈ discovered_ids (evidence_discovered both_found))
  /\ check_for_evidence_discovery (at_time 2) all_hits "examine_logs"
       "review the mail gateway logs" two_mails both_found = None.
Proof.
  assert (Hall : forall item, item ∈ Scorer.evidence_items two_mails ->
            exists id, item !! "id" = Some id
              /\ id ∈ discovered_ids (evidence_discovered both_found)).
  { intros item Hin. apply list_elem_of_In in Hin.
    destruct Hin as [<- | [<- | []]].
    - exists "E1". split; [vm_compute; reflexivity |].
      apply (bool_decide_unpack _). vm_compute. exact I.
    - exists "E2". split; [vm_compute; reflexivity |].
      apply (bool_decide_unpack _). vm_compute. exact I. }
  split; [exact Hall |].
  apply (nothing_left_to_discover (at_time 2) all_hits "examine_logs"
           "review the mail gateway logs" two_mails both_found Hall).
Defined.
